(** * Infinite canvas: a shallow embedding of the interaction core

    The development follows the canvas component (viewport transform,
    bounds, resize, move, marquee selection, duplicate/paste) and the
    history persistence effect of the page component.

    Numbers.  A JavaScript [number] is an IEEE 754 binary64 value, and
    the numeric code is given twice.  Part I writes the formulas of the
    source over the rationals ([Q]) with exact operations; it carries the
    statements that do not depend on how an operation rounds: which
    branch runs, which fields are kept or compared, and equations whose
    two sides are the same computation.  Module [Double] writes the same
    formulas with every operation rounded to binary64; what the claims
    say about arithmetic identities (round trips, points and edges that
    stay in place, ratios) is stated and proved there, as an equality
    when no operation rounds and as a bound on the distance otherwise,
    from the error of one rounding ([round64_near]).  [Q]'s division is
    total ([q / 0 == 0]) whereas JavaScript produces a non-finite value;
    every statement that depends on a quotient carries the hypothesis
    that its divisor is not zero, so the convention is never used. *)

From Stdlib Require Import QArith Qminmax Qabs Qround Qpower Lqa Lia ZArith List String.
From Stdlib Require Floats Uint63.
From stdpp Require Import gmap strings.

Local Open Scope Q_scope.

(* ===================================================================== *)
(** * Part I: the program *)
(* ===================================================================== *)

(** ** Plain data (types.ts) *)

Module Point.
Record t := mk { x : Q; y : Q }.

(** Two points with equal (as rationals) coordinates. *)
Definition equiv (p q : t) : Prop := x p == x q /\ y p == y q.
End Point.

Module Viewport.
(** [ViewportTransform]: pan offset and uniform scale. *)
Record t := mk { x : Q; y : Q; scale : Q }.
End Viewport.

Module Bounds.
(** The record returned by [getElementBounds]. *)
Record t := mk { x : Q; y : Q; width : Q; height : Q }.
End Bounds.

Inductive StrokeStyle := solid | dashed | dotted.

Record TextDecorators := mkTextDecorators {
  bold : option bool;
  italic : option bool;
  underline : option bool;
  strikethrough : option bool
}.

(** A value found under a positional key that the variant does not
    declare (for instance [x] on a path).  The clone code of duplicate and
    paste writes such keys; JSON turns them into [null] or drops them. *)
Inductive JsExtra := JsUndefined | JsNaN | JsNull | JsNumber (q : Q).

(** [CanvasElement]: the attributes shared by every variant.  Optional
    properties ([fill?: string]) are [option]s.  [extra] holds the own
    properties of the object under the keys [x], [y], [startX], [startY],
    [endX], [endY] when the variant does not declare them: absent from the
    map means absent from the object. *)
Record CanvasElement := mkCanvasElement {
  id : string;
  color : string;
  strokeWidth : Q;
  fill : option string;
  opacity : option Q;
  roughness : option Q;
  strokeStyle : option StrokeStyle;
  seed : option Q;
  selected : option bool;
  rotation : option Q;
  extra : gmap string JsExtra
}.

(** The variant-specific part of [CanvasElementType]; the constructor is
    the [type] tag.  [imageData] is the decoded bitmap, an opaque handle. *)
Inductive Geometry :=
| path (points : list Point.t)
| rectangle (x y width height : Q)
| circle (x y radius : Q)
| ellipse (x y width height : Q)
| diamond (x y width height : Q)
| line (startX startY endX endY : Q)
| arrow (startX startY endX endY : Q)
| text (x y : Q) (content : string) (fontSize : Q) (fontFamily : string)
       (textDecorators : option TextDecorators)
| image (x y width height : Q) (src : string) (imageData : option nat).

Record Element := mkElement { base : CanvasElement; geom : Geometry }.

Definition elementId (el : Element) : string := id (base el).

(** ** Viewport transform *)

(** [screenToCanvas]: screen coordinates to canvas (world) coordinates. *)
Definition screenToCanvas (viewport : Viewport.t) (screenX screenY : Q) : Point.t :=
  {| Point.x := (screenX - Viewport.x viewport) / Viewport.scale viewport;
     Point.y := (screenY - Viewport.y viewport) / Viewport.scale viewport |}.

(** ** Geometry kernel *)

Module TextSize.
Record t := mk { width : Q; height : Q }.
End TextSize.

(** [Math.min(...xs)] and [Math.max(...xs)] of a non-empty array, given as
    head and tail. *)
Fixpoint minOf (x : Q) (xs : list Q) : Q :=
  match xs with
  | [] => x
  | y :: ys => Qmin x (minOf y ys)
  end.

Fixpoint maxOf (x : Q) (xs : list Q) : Q :=
  match xs with
  | [] => x
  | y :: ys => Qmax x (maxOf y ys)
  end.

(** The eight resize handles. *)
Module Handle.
Inductive t := nw | n | ne | e | se | s | sw | w.
End Handle.

(** [handle.includes('w')], [handle.includes('n')] and the corner test
    [['nw', 'ne', 'se', 'sw'].includes(handle)]. *)
Definition includes_w (handle : Handle.t) : bool :=
  match handle with Handle.nw | Handle.sw | Handle.w => true | _ => false end.

Definition includes_n (handle : Handle.t) : bool :=
  match handle with Handle.nw | Handle.n | Handle.ne => true | _ => false end.

Definition isCornerHandle (handle : Handle.t) : bool :=
  match handle with
  | Handle.nw | Handle.ne | Handle.se | Handle.sw => true
  | _ => false
  end.

Section Canvas.

(** [measureText] asks the 2D drawing context (and caches the answer);
    the text metrics are a parameter of the model. *)
Variable measureText : string -> Q -> string -> TextSize.t.

(** [el.fontFamily || 'Arial']: the empty string is falsy. *)
Definition fontFamilyOrArial (fontFamily : string) : string :=
  if String.eqb fontFamily "" then "Arial"%string else fontFamily.

(** [getElementBounds]. *)
Definition getElementBounds (element : Element) : option Bounds.t :=
  match geom element with
  | rectangle x y width height
  | ellipse x y width height
  | diamond x y width height =>
      Some (Bounds.mk x y width height)
  | circle x y radius =>
      Some (Bounds.mk (x - radius) (y - radius) (radius * 2) (radius * 2))
  | line startX startY endX endY
  | arrow startX startY endX endY =>
      Some (Bounds.mk (Qmin startX endX) (Qmin startY endY)
                      (Qabs (endX - startX)) (Qabs (endY - startY)))
  | text x y content fontSize fontFamily _ =>
      let textSize := measureText content fontSize (fontFamilyOrArial fontFamily) in
      Some (Bounds.mk x (y - TextSize.height textSize)
                      (TextSize.width textSize) (TextSize.height textSize))
  | path points =>
      match points with
      | [] => None
      | p :: ps =>
          let xs := List.map Point.x ps in
          let ys := List.map Point.y ps in
          Some (Bounds.mk (minOf (Point.x p) xs) (minOf (Point.y p) ys)
                          (maxOf (Point.x p) xs - minOf (Point.x p) xs)
                          (maxOf (Point.y p) ys - minOf (Point.y p) ys))
      end
  | image x y width height _ _ => Some (Bounds.mk x y width height)
  end.

(** [isPointInElement]: point-in-bounding-box. *)
Definition isPointInElement (point : Point.t) (element : Element) : bool :=
  match getElementBounds element with
  | None => false
  | Some bounds =>
      Qle_bool (Bounds.x bounds) (Point.x point) &&
      Qle_bool (Point.x point) (Bounds.x bounds + Bounds.width bounds) &&
      Qle_bool (Bounds.y bounds) (Point.y point) &&
      Qle_bool (Point.y point) (Bounds.y bounds + Bounds.height bounds)
  end.

End Canvas.

(** The tools of the toolbar. *)
Module Tool.
Inductive t :=
| select | hand | pen | rectangle | circle | ellipse | diamond
| line | arrow | text | image | eraser.
End Tool.

(** ** Drawing ([handleMouseDown], [handleMouseMove], [handleMouseUp]) *)

(** The draft a pointer-down creates for a shape tool; [None] for the
    tools that do not start a draft here. *)
Definition handleMouseDown_draw (tool : Tool.t) (baseElement : CanvasElement)
    (canvasPoint : Point.t) : option Element :=
  let px := Point.x canvasPoint in
  let py := Point.y canvasPoint in
  match tool with
  | Tool.pen => Some (mkElement baseElement (path [canvasPoint]))
  | Tool.rectangle => Some (mkElement baseElement (rectangle px py 0 0))
  | Tool.circle => Some (mkElement baseElement (circle px py 0))
  | Tool.ellipse => Some (mkElement baseElement (ellipse px py 0 0))
  | Tool.diamond => Some (mkElement baseElement (diamond px py 0 0))
  | Tool.line => Some (mkElement baseElement (line px py px py))
  | Tool.arrow => Some (mkElement baseElement (arrow px py px py))
  | _ => None
  end.

(** The draft after a pointer-move: the [switch (currentElement.type)].
    The radius of a Circle is a square root, which the rationals do not
    have: that case is [None]. *)
Definition handleMouseMove_draw (canvasPoint : Point.t) (currentElement : Element)
  : option Element :=
  let px := Point.x canvasPoint in
  let py := Point.y canvasPoint in
  match geom currentElement with
  | path points =>
      Some (mkElement (base currentElement) (path (points ++ [canvasPoint])))
  | rectangle x y _ _ =>
      Some (mkElement (base currentElement) (rectangle x y (px - x) (py - y)))
  | ellipse x y _ _ =>
      Some (mkElement (base currentElement) (ellipse x y (px - x) (py - y)))
  | diamond x y _ _ =>
      Some (mkElement (base currentElement) (diamond x y (px - x) (py - y)))
  | circle _ _ _ => None
  | line startX startY _ _ =>
      Some (mkElement (base currentElement) (line startX startY px py))
  | arrow startX startY _ _ =>
      Some (mkElement (base currentElement) (arrow startX startY px py))
  | text _ _ _ _ _ _ | image _ _ _ _ _ _ => Some currentElement
  end.

(** Pointer-up commits the draft: [[...prev, currentElement]]. *)
Definition handleMouseUp_draw (currentElement : Element) (prev : list Element) : list Element :=
  prev ++ [currentElement].

(** ** Resize ([handleMouseMove], the [resizeHandle] branch) *)

(** New bounds from the dragged handle: the first [switch (handle)]. *)
Definition handleBounds (handle : Handle.t) (startBounds : Bounds.t) (dx dy : Q) : Bounds.t :=
  let x0 := Bounds.x startBounds in
  let y0 := Bounds.y startBounds in
  let w0 := Bounds.width startBounds in
  let h0 := Bounds.height startBounds in
  match handle with
  | Handle.nw => Bounds.mk (x0 + dx) (y0 + dy) (w0 - dx) (h0 - dy)
  | Handle.n => Bounds.mk x0 (y0 + dy) w0 (h0 - dy)
  | Handle.ne => Bounds.mk x0 (y0 + dy) (w0 + dx) (h0 - dy)
  | Handle.e => Bounds.mk x0 y0 (w0 + dx) h0
  | Handle.se => Bounds.mk x0 y0 (w0 + dx) (h0 + dy)
  | Handle.s => Bounds.mk x0 y0 w0 (h0 + dy)
  | Handle.sw => Bounds.mk (x0 + dx) y0 (w0 - dx) (h0 + dy)
  | Handle.w => Bounds.mk (x0 + dx) y0 (w0 - dx) h0
  end.

Definition minSize : Q := 10.

(** "Ensure minimum size": the two [if]s after the switch. *)
Definition ensureMinimumSize (handle : Handle.t) (startBounds new : Bounds.t) : Bounds.t :=
  let '(newX, newWidth) :=
    if Qlt_le_dec (Bounds.width new) minSize then
      ((if includes_w handle
        then Bounds.x startBounds + Bounds.width startBounds - minSize
        else Bounds.x new), minSize)
    else (Bounds.x new, Bounds.width new) in
  let '(newY, newHeight) :=
    if Qlt_le_dec (Bounds.height new) minSize then
      ((if includes_n handle
        then Bounds.y startBounds + Bounds.height startBounds - minSize
        else Bounds.y new), minSize)
    else (Bounds.y new, Bounds.height new) in
  Bounds.mk newX newY newWidth newHeight.

(** The image branch for corner handles: the aspect ratio of the start
    bounds is kept, the dimension that changed more drives. *)
Definition lockAspect (handle : Handle.t) (startBounds new : Bounds.t) : Bounds.t :=
  let aspectRatio := Bounds.width startBounds / Bounds.height startBounds in
  let widthChange := Qabs (Bounds.width new - Bounds.width startBounds) in
  let heightChange := Qabs (Bounds.height new - Bounds.height startBounds) in
  let '(finalWidth, finalHeight) :=
    if Qlt_le_dec heightChange widthChange
    then (Bounds.width new, Bounds.width new / aspectRatio)
    else (Bounds.height new * aspectRatio, Bounds.height new) in
  let right := Bounds.x startBounds + Bounds.width startBounds in
  let bottom := Bounds.y startBounds + Bounds.height startBounds in
  match handle with
  | Handle.nw => Bounds.mk (right - finalWidth) (bottom - finalHeight) finalWidth finalHeight
  | Handle.ne => Bounds.mk (Bounds.x new) (bottom - finalHeight) finalWidth finalHeight
  | Handle.sw => Bounds.mk (right - finalWidth) (Bounds.y new) finalWidth finalHeight
  | _ => Bounds.mk (Bounds.x new) (Bounds.y new) finalWidth finalHeight
  end.

(** "Apply resize based on element type": the second switch.  [new] is
    the clamped bounds [(newX, newY, newWidth, newHeight)]. *)
Definition applyResize (handle : Handle.t) (startBounds new : Bounds.t)
    (el : Element) : Element :=
  let newX := Bounds.x new in
  let newY := Bounds.y new in
  let newWidth := Bounds.width new in
  let newHeight := Bounds.height new in
  match geom el with
  | rectangle _ _ _ _ => mkElement (base el) (rectangle newX newY newWidth newHeight)
  | ellipse _ _ _ _ => mkElement (base el) (ellipse newX newY newWidth newHeight)
  | diamond _ _ _ _ => mkElement (base el) (diamond newX newY newWidth newHeight)
  | image _ _ _ _ src imageData =>
      if isCornerHandle handle then
        let final := lockAspect handle startBounds new in
        mkElement (base el)
          (image (Bounds.x final) (Bounds.y final)
                 (Bounds.width final) (Bounds.height final) src imageData)
      else mkElement (base el) (image newX newY newWidth newHeight src imageData)
  | circle _ _ _ =>
      let radius := Qmax newWidth newHeight / 2 in
      mkElement (base el) (circle (newX + radius) (newY + radius) radius)
  | line startX startY endX endY =>
      let scaleX := newWidth / Bounds.width startBounds in
      let scaleY := newHeight / Bounds.height startBounds in
      mkElement (base el)
        (line (newX + (startX - Bounds.x startBounds) * scaleX)
              (newY + (startY - Bounds.y startBounds) * scaleY)
              (newX + (endX - Bounds.x startBounds) * scaleX)
              (newY + (endY - Bounds.y startBounds) * scaleY))
  | arrow startX startY endX endY =>
      let scaleX := newWidth / Bounds.width startBounds in
      let scaleY := newHeight / Bounds.height startBounds in
      mkElement (base el)
        (arrow (newX + (startX - Bounds.x startBounds) * scaleX)
               (newY + (startY - Bounds.y startBounds) * scaleY)
               (newX + (endX - Bounds.x startBounds) * scaleX)
               (newY + (endY - Bounds.y startBounds) * scaleY))
  | text _ _ content fontSize fontFamily textDecorators =>
      let scale := newHeight / Bounds.height startBounds in
      mkElement (base el)
        (text newX (newY + newHeight) content (Qmax 8 (fontSize * scale))
              fontFamily textDecorators)
  | path points =>
      let scaleX := newWidth / Qmax (Bounds.width startBounds) 1 in
      let scaleY := newHeight / Qmax (Bounds.height startBounds) 1 in
      mkElement (base el)
        (path (List.map
                 (fun p => Point.mk (newX + (Point.x p - Bounds.x startBounds) * scaleX)
                                    (newY + (Point.y p - Bounds.y startBounds) * scaleY))
                 points))
  end.

(** The body of the [map] callback for the element being resized. *)
Definition resizeElement (handle : Handle.t) (startBounds : Bounds.t) (dx dy : Q)
    (el : Element) : Element :=
  applyResize handle startBounds
    (ensureMinimumSize handle startBounds (handleBounds handle startBounds dx dy)) el.

(** The [resizeHandle] state. *)
Record ResizeHandle := mkResizeHandle {
  handle : Handle.t;
  elementId_ : string;
  startBounds : Bounds.t;
  startPoint : Point.t
}.

(** [handleMouseMove] while a resize is in progress. *)
Definition handleMouseMove_resize (rh : ResizeHandle) (canvasPoint : Point.t)
    (elements : list Element) : list Element :=
  let dx := Point.x canvasPoint - Point.x (startPoint rh) in
  let dy := Point.y canvasPoint - Point.y (startPoint rh) in
  List.map
    (fun el =>
       if String.eqb (elementId el) (elementId_ rh)
       then resizeElement (handle rh) (startBounds rh) dx dy el
       else el)
    elements.

(** ** Marquee selection ([handleMouseUp], the [selectionBox] branch) *)

Record SelectionBox := mkSelectionBox { start : Point.t; end_ : Point.t }.

(** The test of the [filter] callback on the bounds of an element. *)
Definition insideSelection (minX maxX minY maxY : Q) (bounds : Bounds.t) : bool :=
  Qle_bool minX (Bounds.x bounds) &&
  Qle_bool (Bounds.x bounds + Bounds.width bounds) maxX &&
  Qle_bool minY (Bounds.y bounds) &&
  Qle_bool (Bounds.y bounds + Bounds.height bounds) maxY.

(** The new selection set: [new Set(selected)]. *)
Definition handleMouseUp_selectionBox (measureText : string -> Q -> string -> TextSize.t)
    (selectionBox : SelectionBox) (elements : list Element) : gset string :=
  let minX := Qmin (Point.x (start selectionBox)) (Point.x (end_ selectionBox)) in
  let maxX := Qmax (Point.x (start selectionBox)) (Point.x (end_ selectionBox)) in
  let minY := Qmin (Point.y (start selectionBox)) (Point.y (end_ selectionBox)) in
  let maxY := Qmax (Point.y (start selectionBox)) (Point.y (end_ selectionBox)) in
  let selected :=
    List.map elementId
      (List.filter
         (fun el =>
            match getElementBounds measureText el with
            | None => false
            | Some bounds => insideSelection minX maxX minY maxY bounds
            end)
         elements) in
  list_to_set selected.

(** ** Moving the selection ([handleMouseMove], the [isPanning] branch) *)

(** The body of the [map] callback for a selected element. *)
Definition moveElement (viewport : Viewport.t) (dx dy : Q) (el : Element) : Element :=
  let dxCanvas := dx / Viewport.scale viewport in
  let dyCanvas := dy / Viewport.scale viewport in
  match geom el with
  | rectangle x y width height =>
      mkElement (base el) (rectangle (x + dxCanvas) (y + dyCanvas) width height)
  | ellipse x y width height =>
      mkElement (base el) (ellipse (x + dxCanvas) (y + dyCanvas) width height)
  | diamond x y width height =>
      mkElement (base el) (diamond (x + dxCanvas) (y + dyCanvas) width height)
  | text x y content fontSize fontFamily textDecorators =>
      mkElement (base el)
        (text (x + dxCanvas) (y + dyCanvas) content fontSize fontFamily textDecorators)
  | image x y width height src imageData =>
      mkElement (base el) (image (x + dxCanvas) (y + dyCanvas) width height src imageData)
  | circle x y radius =>
      mkElement (base el) (circle (x + dxCanvas) (y + dyCanvas) radius)
  | line startX startY endX endY =>
      mkElement (base el)
        (line (startX + dxCanvas) (startY + dyCanvas) (endX + dxCanvas) (endY + dyCanvas))
  | arrow startX startY endX endY =>
      mkElement (base el)
        (arrow (startX + dxCanvas) (startY + dyCanvas) (endX + dxCanvas) (endY + dyCanvas))
  | path points =>
      mkElement (base el)
        (path (List.map (fun p => Point.mk (Point.x p + dxCanvas) (Point.y p + dyCanvas))
                        points))
  end.

(** "Move selected elements". *)
Definition moveSelected (selectedElements : gset string) (viewport : Viewport.t)
    (dx dy : Q) (elements : list Element) : list Element :=
  List.map
    (fun el =>
       if bool_decide (elementId el ∈ selectedElements)
       then moveElement viewport dx dy el
       else el)
    elements.

(** What a drag computes from one mouse-move event while [isPanning]:
    the elements, the viewport and the new [lastPanPoint]. *)
Definition handleMouseMove_pan (tool : Tool.t) (selectedElements : gset string)
    (lastPanPoint client : Point.t) (viewport : Viewport.t)
    (elements : list Element) : list Element * Viewport.t * Point.t :=
  let dx := Point.x client - Point.x lastPanPoint in
  let dy := Point.y client - Point.y lastPanPoint in
  match tool with
  | Tool.select =>
      if bool_decide (selectedElements ≠ ∅)
      then (moveSelected selectedElements viewport dx dy elements, viewport, client)
      else (elements,
            Viewport.mk (Viewport.x viewport + dx) (Viewport.y viewport + dy)
                        (Viewport.scale viewport),
            client)
  | _ =>
      (elements,
       Viewport.mk (Viewport.x viewport + dx) (Viewport.y viewport + dy)
                   (Viewport.scale viewport),
       client)
  end.

(** ** Duplicate and paste ([handleKeyDown]) *)

(** The six keys the clone literal writes. *)
Definition positionalKeys : list string :=
  ["x"; "y"; "startX"; "startY"; "endX"; "endY"]%string.

(** Whether the variant declares the key as one of its numeric fields. *)
Definition declares (g : Geometry) (k : string) : bool :=
  match g with
  | rectangle _ _ _ _ | circle _ _ _ | ellipse _ _ _ _ | diamond _ _ _ _
  | text _ _ _ _ _ _ | image _ _ _ _ _ _ =>
      String.eqb k "x" || String.eqb k "y"
  | line _ _ _ _ | arrow _ _ _ _ =>
      String.eqb k "startX" || String.eqb k "startY" ||
      String.eqb k "endX" || String.eqb k "endY"
  | path _ => false
  end.

(** [v + 20] on a value that is not a declared number. *)
Definition plus20 (v : JsExtra) : JsExtra :=
  match v with
  | JsUndefined => JsNaN
  | JsNaN => JsNaN
  | JsNull => JsNumber 20
  | JsNumber q => JsNumber (q + 20)
  end.

(** The declared fields after the clone literal: each declared key [k]
    among the six becomes [el.k + 20]; everything else is copied by the
    spread. *)
Definition offsetGeometry (g : Geometry) : Geometry :=
  match g with
  | path points => path points
  | rectangle x y width height => rectangle (x + 20) (y + 20) width height
  | circle x y radius => circle (x + 20) (y + 20) radius
  | ellipse x y width height => ellipse (x + 20) (y + 20) width height
  | diamond x y width height => diamond (x + 20) (y + 20) width height
  | line startX startY endX endY =>
      line (startX + 20) (startY + 20) (endX + 20) (endY + 20)
  | arrow startX startY endX endY =>
      arrow (startX + 20) (startY + 20) (endX + 20) (endY + 20)
  | text x y content fontSize fontFamily textDecorators =>
      text (x + 20) (y + 20) content fontSize fontFamily textDecorators
  | image x y width height src imageData =>
      image (x + 20) (y + 20) width height src imageData
  end.

(** One key [k] that the variant does not declare:
    ['k' in el ? el.k + 20 : undefined] is written under [k] either way. *)
Definition cloneKey (g : Geometry) (k : string) (m : gmap string JsExtra)
  : gmap string JsExtra :=
  if declares g k then m
  else <[k := match m !! k with
              | Some v => plus20 v
              | None => JsUndefined
              end]> m.

(** The object literal of duplicate and paste, with [newId] the value of
    [Date.now().toString() + Math.random()]. *)
Definition cloneElement (newId : string) (el : Element) : Element :=
  let b := base el in
  mkElement
    (mkCanvasElement newId (color b) (strokeWidth b) (fill b) (opacity b)
       (roughness b) (strokeStyle b) (seed b) (selected b) (rotation b)
       (foldr (cloneKey (geom el)) (extra b) positionalKeys))
    (offsetGeometry (geom el)).

(** Duplicate.  [freshId i] is the identifier drawn for the [i]-th clone;
    [elements] is the collection captured by the handler, [prev] the one
    the state updater receives. *)
Definition handleKeyDown_duplicate (freshId : nat -> string)
    (selectedElements : gset string) (elements prev : list Element) : list Element :=
  if bool_decide (selectedElements ≠ ∅) then
    let selected :=
      List.filter (fun el => bool_decide (elementId el ∈ selectedElements)) elements in
    let duplicated := imap (fun i el => cloneElement (freshId i) el) selected in
    prev ++ duplicated
  else prev.

(** Paste.  [copied] is the parsed content of the clipboard slot. *)
Definition handleKeyDown_paste (freshId : nat -> string)
    (copied prev : list Element) : list Element :=
  let pasted := imap (fun i el => cloneElement (freshId i) el) copied in
  prev ++ pasted.

(** ** History persistence (the page component) *)

Definition Snapshot := list Element.

(** What the page keeps in [localStorage] (before [JSON.stringify]). *)
Inductive StorageValue :=
| VHistory (snapshots : list Snapshot)
| VIndex (i : Z)
| VElements (elements : Snapshot)
| VText (s : string).

Inductive StorageError := QuotaExceededError | OtherError.

Section History.

(** Whether [localStorage.setItem] accepts a write is decided by the
    browser: [None] when it does, the exception otherwise. *)
Variable refuses : gmap string StorageValue -> string -> StorageValue -> option StorageError.

(** A sequence of storage calls either ends in a store or is cut short by
    an exception, which leaves the store as the earlier calls made it. *)
Definition Attempt : Type :=
  gmap string StorageValue + (gmap string StorageValue * StorageError).

Definition andThen (a : Attempt) (k : gmap string StorageValue -> Attempt) : Attempt :=
  match a with
  | inl st => k st
  | inr failure => inr failure
  end.

Definition setItem (st : gmap string StorageValue) (k : string) (v : StorageValue)
  : Attempt :=
  match refuses st k v with
  | None => inl (<[k := v]> st)
  | Some err => inr (st, err)
  end.

Definition removeItem (st : gmap string StorageValue) (k : string)
  : gmap string StorageValue :=
  delete k st.

(** [history.slice(-50)]. *)
Definition limitHistory (history : list Snapshot) : list Snapshot :=
  drop (length history - 50) history.

(** [Math.min(historyIndex, limitedHistory.length - 1)]. *)
Definition adjustIndex (history : list Snapshot) (historyIndex : Z) : Z :=
  Z.min historyIndex (Z.of_nat (length (limitHistory history)) - 1).

(** [history[historyIndex] || []]. *)
Definition currentSnapshot (history : list Snapshot) (historyIndex : Z) : Snapshot :=
  if (historyIndex <? 0)%Z then []
  else match history !! Z.to_nat historyIndex with
       | Some elements => elements
       | None => []
       end.

(** The body of the outer [try]. *)
Definition storeLimited (st : gmap string StorageValue)
    (history : list Snapshot) (historyIndex : Z) : Attempt :=
  andThen (setItem st "canvasHistory" (VHistory (limitHistory history)))
    (fun st1 => setItem st1 "canvasHistoryIndex"
                        (VIndex (adjustIndex history historyIndex))).

(** The body of the inner [try]: only the current snapshot, index 0. *)
Definition storeCurrentOnly (st : gmap string StorageValue)
    (history : list Snapshot) (historyIndex : Z) : Attempt :=
  let currentElements := currentSnapshot history historyIndex in
  andThen (setItem st "canvasHistory" (VHistory [currentElements]))
    (fun st1 => setItem st1 "canvasHistoryIndex" (VIndex 0)).

(** The [catch] clause of the outer [try]; its own [catch] removes both
    keys. *)
Definition onStoreError (st : gmap string StorageValue) (error : StorageError)
    (history : list Snapshot) (historyIndex : Z) : gmap string StorageValue :=
  match error with
  | QuotaExceededError =>
      match storeCurrentOnly st history historyIndex with
      | inl st1 => st1
      | inr (st1, _) => removeItem (removeItem st1 "canvasHistory") "canvasHistoryIndex"
      end
  | OtherError => st
  end.

(** The effect "Save history to localStorage with error handling". *)
Definition saveHistory (st : gmap string StorageValue)
    (history : list Snapshot) (historyIndex : Z) : gmap string StorageValue :=
  match storeLimited st history historyIndex with
  | inl st1 => st1
  | inr (st1, error) => onStoreError st1 error history historyIndex
  end.

End History.

(** ** The page component: history cursor, undo, redo *)

Module Page.
(** The [history] and [historyIndex] states of [Home]. *)
Record t := mk { history : list Snapshot; historyIndex : Z }.
End Page.

(** [l.slice(0, end)]: a negative [end] counts from the end of the array,
    an [end] past the length stops at the length. *)
Definition sliceTo {A : Type} (end_ : Z) (l : list A) : list A :=
  if (end_ <? 0)%Z
  then take (Z.to_nat (Z.max (Z.of_nat (length l) + end_) 0)) l
  else take (Z.to_nat end_) l.

(** [handleElementsChange]: drop the snapshots after the cursor, push the
    new collection, advance the cursor. *)
Definition handleElementsChange (p : Page.t) (elements : Snapshot) : Page.t :=
  Page.mk (sliceTo (Page.historyIndex p + 1) (Page.history p) ++ [elements])
          (Page.historyIndex p + 1)%Z.

(** The [canUndo] and [canRedo] props of the toolbar. *)
Definition canUndo (p : Page.t) : bool := (0 <? Page.historyIndex p)%Z.

Definition canRedo (p : Page.t) : bool :=
  (Page.historyIndex p <? Z.of_nat (length (Page.history p)) - 1)%Z.

(** [history[i]]: [None] is [undefined]. *)
Definition snapshotAt (history : list Snapshot) (i : Z) : option Snapshot :=
  if (i <? 0)%Z then None else history !! Z.to_nat i.

(** [JSON.stringify(elements)] handed to [setItem]: [undefined] is stored
    as the text "undefined". *)
Definition stringifySnapshot (elements : option Snapshot) : StorageValue :=
  match elements with
  | Some els => VElements els
  | None => VText "undefined"
  end.

Section PageHandlers.

Variable refuses : gmap string StorageValue -> string -> StorageValue -> option StorageError.

(** [handleUndo]: the new page state, the outcome of the write of
    [canvasElements], and whether [window.location.reload()] is reached. *)
Definition handleUndo (st : gmap string StorageValue) (p : Page.t)
  : Page.t * Attempt * bool :=
  if (0 <? Page.historyIndex p)%Z then
    let elements := snapshotAt (Page.history p) (Page.historyIndex p - 1) in
    let written := setItem refuses st "canvasElements" (stringifySnapshot elements) in
    (Page.mk (Page.history p) (Page.historyIndex p - 1)%Z, written,
     match written with inl _ => true | inr _ => false end)
  else (p, inl st, false).

(** [handleRedo]. *)
Definition handleRedo (st : gmap string StorageValue) (p : Page.t)
  : Page.t * Attempt * bool :=
  if (Page.historyIndex p <? Z.of_nat (length (Page.history p)) - 1)%Z then
    let elements := snapshotAt (Page.history p) (Page.historyIndex p + 1) in
    let written := setItem refuses st "canvasElements" (stringifySnapshot elements) in
    (Page.mk (Page.history p) (Page.historyIndex p + 1)%Z, written,
     match written with inl _ => true | inr _ => false end)
  else (p, inl st, false).

(** The effect "Save to localStorage when elements change" of the canvas:
    the outcome of the write and the collection handed to
    [onElementsChange], if any. *)
Definition saveElements (st : gmap string StorageValue) (elements : list Element)
  : Attempt * option (list Element) :=
  match elements with
  | [] => (inl st, None)
  | _ :: _ =>
      match setItem refuses st "canvasElements" (VElements elements) with
      | inl st1 => (inl st1, Some elements)
      | inr failure => (inr failure, None)
      end
  end.

End PageHandlers.

(** ** Delete ([handleKeyDown]) *)

(** Delete or Backspace: the elements and the selection afterwards. *)
Definition handleKeyDown_delete (selectedElements : gset string) (textInputShow : bool)
    (prev : list Element) : list Element * gset string :=
  if bool_decide (selectedElements ≠ ∅) && negb textInputShow
  then (List.filter (fun el => negb (bool_decide (elementId el ∈ selectedElements))) prev,
        ∅)
  else (prev, selectedElements).

(** ** Resize handles ([getResizeHandles], [getHandleAtPoint]) *)

Module HandlePosition.
Record t := mk { x : Q; y : Q; cursor : string }.
End HandlePosition.

(** [getResizeHandles]: the eight handles in the order of the object
    literal, which is the order [Object.entries] visits them in. *)
Definition getResizeHandles (bounds : Bounds.t) : list (Handle.t * HandlePosition.t) :=
  let handleSize := 8 in
  let x := Bounds.x bounds in
  let y := Bounds.y bounds in
  let width := Bounds.width bounds in
  let height := Bounds.height bounds in
  [ (Handle.nw, HandlePosition.mk (x - handleSize / 2) (y - handleSize / 2) "nwse-resize");
    (Handle.n, HandlePosition.mk (x + width / 2 - handleSize / 2) (y - handleSize / 2)
                                 "ns-resize");
    (Handle.ne, HandlePosition.mk (x + width - handleSize / 2) (y - handleSize / 2)
                                  "nesw-resize");
    (Handle.e, HandlePosition.mk (x + width - handleSize / 2)
                                 (y + height / 2 - handleSize / 2) "ew-resize");
    (Handle.se, HandlePosition.mk (x + width - handleSize / 2)
                                  (y + height - handleSize / 2) "nwse-resize");
    (Handle.s, HandlePosition.mk (x + width / 2 - handleSize / 2)
                                 (y + height - handleSize / 2) "ns-resize");
    (Handle.sw, HandlePosition.mk (x - handleSize / 2) (y + height - handleSize / 2)
                                  "nesw-resize");
    (Handle.w, HandlePosition.mk (x - handleSize / 2) (y + height / 2 - handleSize / 2)
                                 "ew-resize") ].

(** The test of the loop of [getHandleAtPoint] for one handle. *)
Definition onHandle (point : Point.t) (handle : HandlePosition.t) : bool :=
  let handleSize := 12 in
  Qle_bool (HandlePosition.x handle - handleSize / 2) (Point.x point) &&
  Qle_bool (Point.x point) (HandlePosition.x handle + handleSize) &&
  Qle_bool (HandlePosition.y handle - handleSize / 2) (Point.y point) &&
  Qle_bool (Point.y point) (HandlePosition.y handle + handleSize).

(** [getHandleAtPoint]: the first handle whose hit area has the point. *)
Definition getHandleAtPoint (point : Point.t) (bounds : Bounds.t) : option Handle.t :=
  match List.find (fun entry => onHandle point (snd entry)) (getResizeHandles bounds) with
  | Some (key, _) => Some key
  | None => None
  end.

(** ** The canvas component: state and pointer handlers *)

Module TextInput.
Record t := mk { x : Q; y : Q; show : bool }.
End TextInput.

Module CanvasState.
(** The [useState] cells of [InfiniteCanvas]. *)
Record t := mk {
  elements : list Element;
  isDrawing : bool;
  isPanning : bool;
  currentElement : option Element;
  viewport : Viewport.t;
  lastPanPoint : option Point.t;
  textInput : TextInput.t;
  selectedElements : gset string;
  selectionBox : option SelectionBox;
  resizeHandle : option ResizeHandle;
  hoveredHandle : option Handle.t
}.

(** The state setters. *)
Definition setElements (v : list Element) (s : t) : t :=
  mk v (isDrawing s) (isPanning s) (currentElement s) (viewport s) (lastPanPoint s)
     (textInput s) (selectedElements s) (selectionBox s) (resizeHandle s) (hoveredHandle s).

Definition setIsDrawing (v : bool) (s : t) : t :=
  mk (elements s) v (isPanning s) (currentElement s) (viewport s) (lastPanPoint s)
     (textInput s) (selectedElements s) (selectionBox s) (resizeHandle s) (hoveredHandle s).

Definition setIsPanning (v : bool) (s : t) : t :=
  mk (elements s) (isDrawing s) v (currentElement s) (viewport s) (lastPanPoint s)
     (textInput s) (selectedElements s) (selectionBox s) (resizeHandle s) (hoveredHandle s).

Definition setCurrentElement (v : option Element) (s : t) : t :=
  mk (elements s) (isDrawing s) (isPanning s) v (viewport s) (lastPanPoint s)
     (textInput s) (selectedElements s) (selectionBox s) (resizeHandle s) (hoveredHandle s).

Definition setViewport (v : Viewport.t) (s : t) : t :=
  mk (elements s) (isDrawing s) (isPanning s) (currentElement s) v (lastPanPoint s)
     (textInput s) (selectedElements s) (selectionBox s) (resizeHandle s) (hoveredHandle s).

Definition setLastPanPoint (v : option Point.t) (s : t) : t :=
  mk (elements s) (isDrawing s) (isPanning s) (currentElement s) (viewport s) v
     (textInput s) (selectedElements s) (selectionBox s) (resizeHandle s) (hoveredHandle s).

Definition setTextInput (v : TextInput.t) (s : t) : t :=
  mk (elements s) (isDrawing s) (isPanning s) (currentElement s) (viewport s)
     (lastPanPoint s) v (selectedElements s) (selectionBox s) (resizeHandle s)
     (hoveredHandle s).

Definition setSelectedElements (v : gset string) (s : t) : t :=
  mk (elements s) (isDrawing s) (isPanning s) (currentElement s) (viewport s)
     (lastPanPoint s) (textInput s) v (selectionBox s) (resizeHandle s) (hoveredHandle s).

Definition setSelectionBox (v : option SelectionBox) (s : t) : t :=
  mk (elements s) (isDrawing s) (isPanning s) (currentElement s) (viewport s)
     (lastPanPoint s) (textInput s) (selectedElements s) v (resizeHandle s)
     (hoveredHandle s).

Definition setResizeHandle (v : option ResizeHandle) (s : t) : t :=
  mk (elements s) (isDrawing s) (isPanning s) (currentElement s) (viewport s)
     (lastPanPoint s) (textInput s) (selectedElements s) (selectionBox s) v
     (hoveredHandle s).

Definition setHoveredHandle (v : option Handle.t) (s : t) : t :=
  mk (elements s) (isDrawing s) (isPanning s) (currentElement s) (viewport s)
     (lastPanPoint s) (textInput s) (selectedElements s) (selectionBox s)
     (resizeHandle s) v.
End CanvasState.

Module Props.
(** The props of [InfiniteCanvas] the pointer handlers read, with their
    defaults applied. *)
Record t := mk {
  tool : Tool.t;
  color : string;
  strokeWidth : Q;
  fill : option string;
  opacity : Q;
  roughness : Q;
  strokeStyle : StrokeStyle;
  fontFamily : string;
  fontSize : Q;
  textDecorators : TextDecorators
}.
End Props.

Module MouseEvent.
(** A mouse event, with [rect] the left and top of
    [canvasRef.current?.getBoundingClientRect()], [None] when the canvas
    is not mounted. *)
Record t := mk {
  button : Z;
  shiftKey : bool;
  ctrlKey : bool;
  metaKey : bool;
  clientX : Q;
  clientY : Q;
  rect : option Point.t
}.
End MouseEvent.

(** The canvas point of a mouse event. *)
Definition eventCanvasPoint (viewport : Viewport.t) (e : MouseEvent.t) (r : Point.t)
  : Point.t :=
  let screenX := MouseEvent.clientX e - Point.x r in
  let screenY := MouseEvent.clientY e - Point.y r in
  screenToCanvas viewport screenX screenY.

(** [[...elements].reverse().find(el => isPointInElement(canvasPoint, el))]. *)
Definition findTopmost (measureText : string -> Q -> string -> TextSize.t)
    (canvasPoint : Point.t) (elements : list Element) : option Element :=
  List.find (isPointInElement measureText canvasPoint) (rev elements).

(** "Check if clicking on a resize handle (only when single element is
    selected)": the resize state to enter, if any. *)
Definition resizeStart (measureText : string -> Q -> string -> TextSize.t)
    (canvasPoint : Point.t) (st : CanvasState.t) : option ResizeHandle :=
  match elements (CanvasState.selectedElements st) with
  | [selectedId] =>
      match List.find (fun el => String.eqb (elementId el) selectedId)
                      (CanvasState.elements st) with
      | Some selectedElement =>
          match getElementBounds measureText selectedElement with
          | Some bounds =>
              let padding := 5 in
              let selectionBounds :=
                Bounds.mk (Bounds.x bounds - padding) (Bounds.y bounds - padding)
                          (Bounds.width bounds + padding * 2)
                          (Bounds.height bounds + padding * 2) in
              match getHandleAtPoint canvasPoint selectionBounds with
              | Some handle =>
                  Some (mkResizeHandle handle selectedId bounds canvasPoint)
              | None => None
              end
          | None => None
          end
      | None => None
      end
  | _ => None
  end.

(** The selection after a press on [clicked]: replaced, or toggled when
    Ctrl or Meta is held. *)
Definition clickSelection (e : MouseEvent.t) (clicked : Element) (prev : gset string)
  : gset string :=
  if negb (MouseEvent.ctrlKey e) && negb (MouseEvent.metaKey e)
  then {[ elementId clicked ]}
  else if bool_decide (elementId clicked ∈ prev)
       then prev ∖ {[ elementId clicked ]}
       else prev ∪ {[ elementId clicked ]}.

(** [baseElement] of a new draft; [timestamp] is [Date.now().toString()]
    and [random] is [Math.random()]. *)
Definition baseElement (props : Props.t) (timestamp : string) (random : Q) : CanvasElement :=
  mkCanvasElement timestamp (Props.color props) (Props.strokeWidth props)
    (match Props.fill props with
     | Some f => if String.eqb f "" || String.eqb f "transparent" then None else Some f
     | None => None
     end)
    (Some (Props.opacity props)) (Some (Props.roughness props))
    (Some (Props.strokeStyle props)) (Some (random * 1000)) None None ∅.

Definition isEraser (tool : Tool.t) : bool :=
  match tool with Tool.eraser => true | _ => false end.

Definition isHand (tool : Tool.t) : bool :=
  match tool with Tool.hand => true | _ => false end.

(** [handleMouseDown]. *)
Definition handleMouseDown (measureText : string -> Q -> string -> TextSize.t)
    (props : Props.t) (timestamp : string) (random : Q)
    (e : MouseEvent.t) (st : CanvasState.t) : CanvasState.t :=
  match MouseEvent.rect e with
  | None => st
  | Some r =>
      let screenX := MouseEvent.clientX e - Point.x r in
      let screenY := MouseEvent.clientY e - Point.y r in
      let canvasPoint := eventCanvasPoint (CanvasState.viewport st) e r in
      let client := Point.mk (MouseEvent.clientX e) (MouseEvent.clientY e) in
      if (MouseEvent.button e =? 1)%Z
         || ((MouseEvent.button e =? 0)%Z && MouseEvent.shiftKey e)
         || isHand (Props.tool props)
      then CanvasState.setLastPanPoint (Some client) (CanvasState.setIsPanning true st)
      else
        match resizeStart measureText canvasPoint st with
        | Some rh => CanvasState.setResizeHandle (Some rh) st
        | None =>
            match (if isEraser (Props.tool props) then None
                   else findTopmost measureText canvasPoint (CanvasState.elements st)) with
            | Some clickedElement =>
                CanvasState.setLastPanPoint (Some client)
                  (CanvasState.setIsPanning true
                     (CanvasState.setSelectedElements
                        (clickSelection e clickedElement (CanvasState.selectedElements st))
                        st))
            | None =>
                match Props.tool props with
                | Tool.select =>
                    CanvasState.setSelectionBox
                      (Some (mkSelectionBox canvasPoint canvasPoint))
                      (if negb (MouseEvent.ctrlKey e) && negb (MouseEvent.metaKey e)
                       then CanvasState.setSelectedElements ∅ st
                       else st)
                | Tool.text =>
                    CanvasState.setTextInput (TextInput.mk screenX screenY true) st
                | Tool.eraser =>
                    match findTopmost measureText canvasPoint (CanvasState.elements st) with
                    | Some clickedElement =>
                        CanvasState.setElements
                          (List.filter
                             (fun el => negb (String.eqb (elementId el)
                                                         (elementId clickedElement)))
                             (CanvasState.elements st))
                          st
                    | None => st
                    end
                | tool =>
                    let started := CanvasState.setIsDrawing true st in
                    match handleMouseDown_draw tool (baseElement props timestamp random)
                                               canvasPoint with
                    | Some draft => CanvasState.setCurrentElement (Some draft) started
                    | None => started
                    end
                end
            end
        end
  end.

(** The drawing [switch] of [handleMouseMove], with [Math.sqrt] as
    [sqrt]. *)
Definition drawDraft (sqrt : Q -> Q) (canvasPoint : Point.t) (currentElement : Element)
  : Element :=
  match geom currentElement with
  | circle x y _ =>
      let radius :=
        sqrt ((Point.x canvasPoint - x) * (Point.x canvasPoint - x)
              + (Point.y canvasPoint - y) * (Point.y canvasPoint - y)) in
      mkElement (base currentElement) (circle x y radius)
  | _ =>
      match handleMouseMove_draw canvasPoint currentElement with
      | Some draft => draft
      | None => currentElement
      end
  end.

(** [handleMouseMove]. *)
Definition handleMouseMove (sqrt : Q -> Q) (props : Props.t)
    (e : MouseEvent.t) (st : CanvasState.t) : CanvasState.t :=
  match MouseEvent.rect e with
  | None => st
  | Some r =>
      let canvasPoint := eventCanvasPoint (CanvasState.viewport st) e r in
      let client := Point.mk (MouseEvent.clientX e) (MouseEvent.clientY e) in
      match CanvasState.resizeHandle st with
      | Some rh =>
          CanvasState.setElements
            (handleMouseMove_resize rh canvasPoint (CanvasState.elements st)) st
      | None =>
          match CanvasState.isPanning st, CanvasState.lastPanPoint st with
          | true, Some lastPanPoint =>
              let '(els, v, p) :=
                handleMouseMove_pan (Props.tool props) (CanvasState.selectedElements st)
                  lastPanPoint client (CanvasState.viewport st) (CanvasState.elements st) in
              CanvasState.setLastPanPoint (Some p)
                (CanvasState.setViewport v (CanvasState.setElements els st))
          | _, _ =>
              match CanvasState.selectionBox st with
              | Some box =>
                  CanvasState.setSelectionBox
                    (Some (mkSelectionBox (start box) canvasPoint)) st
              | None =>
                  match CanvasState.isDrawing st, CanvasState.currentElement st with
                  | true, Some currentElement =>
                      CanvasState.setHoveredHandle None
                        (CanvasState.setCurrentElement
                           (Some (drawDraft sqrt canvasPoint currentElement)) st)
                  | _, _ => st
                  end
              end
          end
      end
  end.

(** [handleMouseUp] (also the handler of mouse-leave). *)
Definition handleMouseUp (measureText : string -> Q -> string -> TextSize.t)
    (st : CanvasState.t) : CanvasState.t :=
  match CanvasState.resizeHandle st with
  | Some _ => CanvasState.setResizeHandle None st
  | None =>
      match CanvasState.selectionBox st with
      | Some box =>
          CanvasState.setSelectionBox None
            (CanvasState.setSelectedElements
               (handleMouseUp_selectionBox measureText box (CanvasState.elements st)) st)
      | None =>
          if CanvasState.isPanning st
          then CanvasState.setLastPanPoint None (CanvasState.setIsPanning false st)
          else
            CanvasState.setIsDrawing false
              (match CanvasState.isDrawing st, CanvasState.currentElement st with
               | true, Some currentElement =>
                   CanvasState.setCurrentElement None
                     (CanvasState.setElements
                        (handleMouseUp_draw currentElement (CanvasState.elements st)) st)
               | _, _ => st
               end)
      end
  end.

(** [handleTextSubmit]: the key handler of the text input.  [key] is
    [e.key], [value] the content of the input, [trim] is
    [String.prototype.trim] and [timestamp] is [Date.now().toString()].
    (The handler also empties the input field, which is not part of the
    state.) *)
Definition handleTextSubmit (trim : string -> string) (props : Props.t)
    (timestamp : string) (key value : string) (st : CanvasState.t) : CanvasState.t :=
  if String.eqb key "Enter" then
    let added :=
      if negb (String.eqb (trim value) "") then
        let canvasPoint :=
          screenToCanvas (CanvasState.viewport st)
                         (TextInput.x (CanvasState.textInput st))
                         (TextInput.y (CanvasState.textInput st)) in
        let textElement :=
          mkElement
            (mkCanvasElement timestamp (Props.color props) (Props.strokeWidth props)
               (Props.fill props) (Some (Props.opacity props))
               (Some (Props.roughness props)) (Some (Props.strokeStyle props))
               None None None ∅)
            (text (Point.x canvasPoint) (Point.y canvasPoint) value
                  (Props.fontSize props) (Props.fontFamily props)
                  (Some (Props.textDecorators props))) in
        CanvasState.setElements (CanvasState.elements st ++ [textElement]) st
      else st in
    CanvasState.setTextInput (TextInput.mk 0 0 false) added
  else if String.eqb key "Escape" then
    CanvasState.setTextInput (TextInput.mk 0 0 false) st
  else st.

(** ** Double precision *)

(** A JavaScript [number] is an IEEE 754 binary64 value, and every
    arithmetic operation of the program returns the exact result rounded
    to the nearest such value, ties to the even one.  A finite double is a
    rational number; [Double] has that rounding on the rationals
    ([round64], subnormal numbers included), the four operations, and the
    numeric functions of the canvas written with them, operation by
    operation as in the source.  [Math.min], [Math.max], [Math.abs] and the
    comparisons are exact.  Two things are outside the model: a result
    beyond [maxDouble], which is an infinity in the program, and a
    division by zero. *)
Module Double.

(** Nearest integer, ties to the even one. *)
Definition roundHalfEven (q : Q) : Z :=
  let f := Qfloor q in
  match Qcompare (q - inject_Z f) (1 # 2) with
  | Lt => f
  | Gt => (f + 1)%Z
  | Eq => if Z.even f then f else (f + 1)%Z
  end.

(** The binade of a positive rational in lowest terms: the [k] with
    [2 ^ k <= q < 2 ^ (k + 1)]. *)
Definition binade (q : Q) : Z :=
  let k := (Z.log2 (Qnum q) - Z.log2 (Zpos (Qden q)))%Z in
  if Qle_bool (2 ^ k) q then k else (k - 1)%Z.

(** The exponent of the least subnormal double. *)
Definition emin : Z := -1074.

(** Rounding to binary64: 53 significant bits, or a multiple of
    [2 ^ emin] below the normal range. *)
Definition round64 (q : Q) : Q :=
  let r := Qred q in
  if Qeq_bool r 0 then 0
  else
    let e := Z.max (binade (Qabs r) - 52) emin in
    Qred (inject_Z (Z.sgn (Qnum r) * roundHalfEven (Qabs r / 2 ^ e)) * 2 ^ e).

(** [Number.MAX_VALUE]. *)
Definition maxDouble : Q := inject_Z (2 ^ 53 - 1) * 2 ^ 971.

(** A decimal literal of the source denotes the nearest double. *)
Definition lit (q : Q) : Q := round64 q.

Definition add (a b : Q) : Q := round64 (a + b).
Definition sub (a b : Q) : Q := round64 (a - b).
Definition mul (a b : Q) : Q := round64 (a * b).
Definition div (a b : Q) : Q := round64 (a / b).

Arguments round64 : simpl never.
Arguments lit : simpl never.
Arguments add : simpl never.
Arguments sub : simpl never.
Arguments mul : simpl never.
Arguments div : simpl never.

(** *** The kernel's binary64 numbers

    Rocq's primitive floating-point numbers are IEEE 754 binary64 values
    with the operations of the processor.  [ofFloat] reads a finite one as
    a rational, and [agrees] compares the four primitive operations on two
    of them with the operations above. *)
Definition ofFloat (f : PrimFloat.float) : option Q :=
  match FloatOps.Prim2SF f with
  | SpecFloat.S754_zero _ => Some 0
  | SpecFloat.S754_finite s m e =>
      Some (Qred (inject_Z (if s then Z.neg m else Z.pos m) * 2 ^ e))
  | _ => None
  end.

Definition agrees (a b : PrimFloat.float) : bool :=
  match ofFloat a, ofFloat b,
        ofFloat (PrimFloat.add a b), ofFloat (PrimFloat.sub a b),
        ofFloat (PrimFloat.mul a b), ofFloat (PrimFloat.div a b) with
  | Some x, Some y, Some s, Some d, Some p, Some q =>
      Qeq_bool s (add x y) && Qeq_bool d (sub x y) &&
      Qeq_bool p (mul x y) && Qeq_bool q (div x y)
  | _, _, _, _, _, _ => false
  end.

(** The double nearest to the quotient of two integers below [2 ^ 53],
    as the processor computes it. *)
Definition floatOfRatio (n d : Z) : PrimFloat.float :=
  PrimFloat.div (PrimFloat.of_uint63 (Uint63.of_Z (Z.abs n)))
                (if (n <? 0)%Z
                 then PrimFloat.opp (PrimFloat.of_uint63 (Uint63.of_Z d))
                 else PrimFloat.of_uint63 (Uint63.of_Z d)).

(** Pairs of doubles on which the two are compared: the operands of the
    examples of this development, ties, numbers of very different
    magnitude and subnormal numbers. *)
Definition samples : list (PrimFloat.float * PrimFloat.float) :=
  let tiny :=
    PrimFloat.ldshiftexp (floatOfRatio 3 1) (Uint63.of_Z (FloatOps.shift - 1074)) in
  let huge :=
    PrimFloat.ldshiftexp (floatOfRatio 3 1) (Uint63.of_Z (FloatOps.shift + 1000)) in
  [ (floatOfRatio 1 10, floatOfRatio 3 1);
    (floatOfRatio 1 10, floatOfRatio 2 10);
    (floatOfRatio 11 10, floatOfRatio 400 1);
    (floatOfRatio 9 10, floatOfRatio 11 10);
    (floatOfRatio 25 2, floatOfRatio 11 10);
    (floatOfRatio 3 10, floatOfRatio 6 10);
    (floatOfRatio 1003 10, floatOfRatio 33 1);
    (floatOfRatio 2001 10, floatOfRatio 33 1);
    (floatOfRatio 505 10, floatOfRatio 17 10);
    (floatOfRatio 1 10, floatOfRatio 17 10);
    (floatOfRatio 107 1, floatOfRatio 100 240);
    (floatOfRatio 123 1, floatOfRatio 7 1);
    (floatOfRatio 116 3, floatOfRatio 27 10);
    (floatOfRatio (-40) 1, floatOfRatio 11 10);
    (floatOfRatio 9007199254740992 1, floatOfRatio 1 1);
    (floatOfRatio 9007199254740991 1, floatOfRatio 1 2);
    (floatOfRatio 1 3, floatOfRatio (-1) 7);
    (floatOfRatio (-5) 7, floatOfRatio 13 11);
    (tiny, floatOfRatio 1 3); (tiny, tiny);
    (floatOfRatio 1 3, huge); (huge, floatOfRatio 7 10) ].

Declare Scope double_scope.
Delimit Scope double_scope with double.

Module Notations.
Infix "⊕" := add (at level 50, left associativity) : double_scope.
Infix "⊖" := sub (at level 50, left associativity) : double_scope.
Infix "⊗" := mul (at level 40, left associativity) : double_scope.
Infix "⊘" := div (at level 40, left associativity) : double_scope.
End Notations.
Import Notations.
Local Open Scope double_scope.

(** *** Viewport transform *)

(** [screenToCanvas]. *)
Definition screenToCanvas (viewport : Viewport.t) (screenX screenY : Q) : Point.t :=
  {| Point.x := (screenX ⊖ Viewport.x viewport) ⊘ Viewport.scale viewport;
     Point.y := (screenY ⊖ Viewport.y viewport) ⊘ Viewport.scale viewport |}.

(** The transform [draw] installs, [ctx.translate(viewport.x, viewport.y)]
    then [ctx.scale(viewport.scale, viewport.scale)], applied to a world
    point: [p * scale + (x, y)]. *)
Definition worldToScreen (viewport : Viewport.t) (p : Point.t) : Point.t :=
  {| Point.x := Point.x p ⊗ Viewport.scale viewport ⊕ Viewport.x viewport;
     Point.y := Point.y p ⊗ Viewport.scale viewport ⊕ Viewport.y viewport |}.

(** [e.deltaY < 0 ? 1.1 : 0.9]. *)
Definition zoomFactor (deltaY : Q) : Q :=
  if Qlt_le_dec deltaY 0 then lit 1.1 else lit 0.9.

(** [handleWheel].  [viewport] is the state captured by the handler (it
    fixes [newScale]); [prev] is the argument of the state updater. *)
Definition handleWheel (deltaY mouseX mouseY : Q)
    (viewport prev : Viewport.t) : Viewport.t :=
  let zoom := zoomFactor deltaY in
  let newScale := Qmax (lit 0.1) (Qmin 10 (Viewport.scale viewport ⊗ zoom)) in
  {| Viewport.x :=
       mouseX ⊖ ((mouseX ⊖ Viewport.x prev) ⊗ newScale) ⊘ Viewport.scale prev;
     Viewport.y :=
       mouseY ⊖ ((mouseY ⊖ Viewport.y prev) ⊗ newScale) ⊘ Viewport.scale prev;
     Viewport.scale := newScale |}.

(** One wheel step on a rendered viewport: the captured state is the
    current one. *)
Definition wheelStep (deltaY mouseX mouseY : Q) (v : Viewport.t) : Viewport.t :=
  handleWheel deltaY mouseX mouseY v v.

(** *** Bounds *)

Section Canvas.

Variable measureText : string -> Q -> string -> TextSize.t.

(** [getElementBounds]. *)
Definition getElementBounds (element : Element) : option Bounds.t :=
  match geom element with
  | rectangle x y width height
  | ellipse x y width height
  | diamond x y width height =>
      Some (Bounds.mk x y width height)
  | circle x y radius =>
      Some (Bounds.mk (x ⊖ radius) (y ⊖ radius) (radius ⊗ 2) (radius ⊗ 2))
  | line startX startY endX endY
  | arrow startX startY endX endY =>
      Some (Bounds.mk (Qmin startX endX) (Qmin startY endY)
                      (Qabs (endX ⊖ startX)) (Qabs (endY ⊖ startY)))
  | text x y content fontSize fontFamily _ =>
      let textSize := measureText content fontSize (fontFamilyOrArial fontFamily) in
      Some (Bounds.mk x (y ⊖ TextSize.height textSize)
                      (TextSize.width textSize) (TextSize.height textSize))
  | path points =>
      match points with
      | [] => None
      | p :: ps =>
          let xs := List.map Point.x ps in
          let ys := List.map Point.y ps in
          Some (Bounds.mk (minOf (Point.x p) xs) (minOf (Point.y p) ys)
                          (maxOf (Point.x p) xs ⊖ minOf (Point.x p) xs)
                          (maxOf (Point.y p) ys ⊖ minOf (Point.y p) ys))
      end
  | image x y width height _ _ => Some (Bounds.mk x y width height)
  end.

End Canvas.

(** *** Resize *)

(** New bounds from the dragged handle: the first [switch (handle)]. *)
Definition handleBounds (handle : Handle.t) (startBounds : Bounds.t) (dx dy : Q) : Bounds.t :=
  let x0 := Bounds.x startBounds in
  let y0 := Bounds.y startBounds in
  let w0 := Bounds.width startBounds in
  let h0 := Bounds.height startBounds in
  match handle with
  | Handle.nw => Bounds.mk (x0 ⊕ dx) (y0 ⊕ dy) (w0 ⊖ dx) (h0 ⊖ dy)
  | Handle.n => Bounds.mk x0 (y0 ⊕ dy) w0 (h0 ⊖ dy)
  | Handle.ne => Bounds.mk x0 (y0 ⊕ dy) (w0 ⊕ dx) (h0 ⊖ dy)
  | Handle.e => Bounds.mk x0 y0 (w0 ⊕ dx) h0
  | Handle.se => Bounds.mk x0 y0 (w0 ⊕ dx) (h0 ⊕ dy)
  | Handle.s => Bounds.mk x0 y0 w0 (h0 ⊕ dy)
  | Handle.sw => Bounds.mk (x0 ⊕ dx) y0 (w0 ⊖ dx) (h0 ⊕ dy)
  | Handle.w => Bounds.mk (x0 ⊕ dx) y0 (w0 ⊖ dx) h0
  end.

(** "Ensure minimum size": the two [if]s after the switch. *)
Definition ensureMinimumSize (handle : Handle.t) (startBounds new : Bounds.t) : Bounds.t :=
  let '(newX, newWidth) :=
    if Qlt_le_dec (Bounds.width new) minSize then
      ((if includes_w handle
        then Bounds.x startBounds ⊕ Bounds.width startBounds ⊖ minSize
        else Bounds.x new), minSize)
    else (Bounds.x new, Bounds.width new) in
  let '(newY, newHeight) :=
    if Qlt_le_dec (Bounds.height new) minSize then
      ((if includes_n handle
        then Bounds.y startBounds ⊕ Bounds.height startBounds ⊖ minSize
        else Bounds.y new), minSize)
    else (Bounds.y new, Bounds.height new) in
  Bounds.mk newX newY newWidth newHeight.

(** The image branch for corner handles. *)
Definition lockAspect (handle : Handle.t) (startBounds new : Bounds.t) : Bounds.t :=
  let aspectRatio := Bounds.width startBounds ⊘ Bounds.height startBounds in
  let widthChange := Qabs (Bounds.width new ⊖ Bounds.width startBounds) in
  let heightChange := Qabs (Bounds.height new ⊖ Bounds.height startBounds) in
  let '(finalWidth, finalHeight) :=
    if Qlt_le_dec heightChange widthChange
    then (Bounds.width new, Bounds.width new ⊘ aspectRatio)
    else (Bounds.height new ⊗ aspectRatio, Bounds.height new) in
  let right := Bounds.x startBounds ⊕ Bounds.width startBounds in
  let bottom := Bounds.y startBounds ⊕ Bounds.height startBounds in
  match handle with
  | Handle.nw => Bounds.mk (right ⊖ finalWidth) (bottom ⊖ finalHeight) finalWidth finalHeight
  | Handle.ne => Bounds.mk (Bounds.x new) (bottom ⊖ finalHeight) finalWidth finalHeight
  | Handle.sw => Bounds.mk (right ⊖ finalWidth) (Bounds.y new) finalWidth finalHeight
  | _ => Bounds.mk (Bounds.x new) (Bounds.y new) finalWidth finalHeight
  end.

(** "Apply resize based on element type": the second switch.  [new] is
    the clamped bounds [(newX, newY, newWidth, newHeight)]. *)
Definition applyResize (handle : Handle.t) (startBounds new : Bounds.t)
    (el : Element) : Element :=
  let newX := Bounds.x new in
  let newY := Bounds.y new in
  let newWidth := Bounds.width new in
  let newHeight := Bounds.height new in
  match geom el with
  | rectangle _ _ _ _ => mkElement (base el) (rectangle newX newY newWidth newHeight)
  | ellipse _ _ _ _ => mkElement (base el) (ellipse newX newY newWidth newHeight)
  | diamond _ _ _ _ => mkElement (base el) (diamond newX newY newWidth newHeight)
  | image _ _ _ _ src imageData =>
      if isCornerHandle handle then
        let final := lockAspect handle startBounds new in
        mkElement (base el)
          (image (Bounds.x final) (Bounds.y final)
                 (Bounds.width final) (Bounds.height final) src imageData)
      else mkElement (base el) (image newX newY newWidth newHeight src imageData)
  | circle _ _ _ =>
      let radius := Qmax newWidth newHeight ⊘ 2 in
      mkElement (base el) (circle (newX ⊕ radius) (newY ⊕ radius) radius)
  | line startX startY endX endY =>
      let scaleX := newWidth ⊘ Bounds.width startBounds in
      let scaleY := newHeight ⊘ Bounds.height startBounds in
      mkElement (base el)
        (line (newX ⊕ (startX ⊖ Bounds.x startBounds) ⊗ scaleX)
              (newY ⊕ (startY ⊖ Bounds.y startBounds) ⊗ scaleY)
              (newX ⊕ (endX ⊖ Bounds.x startBounds) ⊗ scaleX)
              (newY ⊕ (endY ⊖ Bounds.y startBounds) ⊗ scaleY))
  | arrow startX startY endX endY =>
      let scaleX := newWidth ⊘ Bounds.width startBounds in
      let scaleY := newHeight ⊘ Bounds.height startBounds in
      mkElement (base el)
        (arrow (newX ⊕ (startX ⊖ Bounds.x startBounds) ⊗ scaleX)
               (newY ⊕ (startY ⊖ Bounds.y startBounds) ⊗ scaleY)
               (newX ⊕ (endX ⊖ Bounds.x startBounds) ⊗ scaleX)
               (newY ⊕ (endY ⊖ Bounds.y startBounds) ⊗ scaleY))
  | text _ _ content fontSize fontFamily textDecorators =>
      let scale := newHeight ⊘ Bounds.height startBounds in
      mkElement (base el)
        (text newX (newY ⊕ newHeight) content (Qmax 8 (fontSize ⊗ scale))
              fontFamily textDecorators)
  | path points =>
      let scaleX := newWidth ⊘ Qmax (Bounds.width startBounds) 1 in
      let scaleY := newHeight ⊘ Qmax (Bounds.height startBounds) 1 in
      mkElement (base el)
        (path (List.map
                 (fun p => Point.mk (newX ⊕ (Point.x p ⊖ Bounds.x startBounds) ⊗ scaleX)
                                    (newY ⊕ (Point.y p ⊖ Bounds.y startBounds) ⊗ scaleY))
                 points))
  end.

(** The body of the [map] callback for the element being resized. *)
Definition resizeElement (handle : Handle.t) (startBounds : Bounds.t) (dx dy : Q)
    (el : Element) : Element :=
  applyResize handle startBounds
    (ensureMinimumSize handle startBounds (handleBounds handle startBounds dx dy)) el.

(** [handleMouseMove] while a resize is in progress. *)
Definition handleMouseMove_resize (rh : ResizeHandle) (canvasPoint : Point.t)
    (elements : list Element) : list Element :=
  let dx := Point.x canvasPoint ⊖ Point.x (startPoint rh) in
  let dy := Point.y canvasPoint ⊖ Point.y (startPoint rh) in
  List.map
    (fun el =>
       if String.eqb (elementId el) (elementId_ rh)
       then resizeElement (handle rh) (startBounds rh) dx dy el
       else el)
    elements.

End Double.

(* ===================================================================== *)
(** * Part II: vocabulary of the statements *)
(* ===================================================================== *)

(** The rectangle stored in the variants that have [x], [y], [width] and
    [height] fields. *)
Definition boxOf (g : Geometry) : option Bounds.t :=
  match g with
  | rectangle x y width height
  | ellipse x y width height
  | diamond x y width height
  | image x y width height _ _ => Some (Bounds.mk x y width height)
  | _ => None
  end.

(** Replace the rectangle of such a variant; tag and the other fields
    stay. *)
Definition setBox (b : Bounds.t) (g : Geometry) : Geometry :=
  match g with
  | rectangle _ _ _ _ =>
      rectangle (Bounds.x b) (Bounds.y b) (Bounds.width b) (Bounds.height b)
  | ellipse _ _ _ _ =>
      ellipse (Bounds.x b) (Bounds.y b) (Bounds.width b) (Bounds.height b)
  | diamond _ _ _ _ =>
      diamond (Bounds.x b) (Bounds.y b) (Bounds.width b) (Bounds.height b)
  | image _ _ _ _ src imageData =>
      image (Bounds.x b) (Bounds.y b) (Bounds.width b) (Bounds.height b) src imageData
  | g => g
  end.

(** Variants that adopt the clamped bounds as they are. *)
Definition adoptsBounds (handle : Handle.t) (g : Geometry) : bool :=
  match g with
  | rectangle _ _ _ _ | ellipse _ _ _ _ | diamond _ _ _ _ => true
  | image _ _ _ _ _ _ => negb (isCornerHandle handle)
  | _ => false
  end.

(** Sample data for the concrete scenarios. *)
Definition sampleBase : CanvasElement :=
  mkCanvasElement "1700000000000" "#1e1e1e" 2 None (Some 1) (Some 1)
                  (Some solid) (Some 421) None None ∅.

(** Sample text metrics: every text is 100 wide and 1.2 font sizes
    high. *)
Definition sampleMeasure (content : string) (fontSize : Q) (fontFamily : string)
  : TextSize.t :=
  TextSize.mk 100 (fontSize * 1.2).

(** The points of the plane a bounding box covers: between its two
    corners [(x, y)] and [(x + width, y + height)]. *)
Definition covers (bb : Bounds.t) (p : Point.t) : Prop :=
  Qmin (Bounds.x bb) (Bounds.x bb + Bounds.width bb) <= Point.x p /\
  Point.x p <= Qmax (Bounds.x bb) (Bounds.x bb + Bounds.width bb) /\
  Qmin (Bounds.y bb) (Bounds.y bb + Bounds.height bb) <= Point.y p /\
  Point.y p <= Qmax (Bounds.y bb) (Bounds.y bb + Bounds.height bb).

(** The points inside the marquee. *)
Definition inMarquee (box : SelectionBox) (p : Point.t) : Prop :=
  Qmin (Point.x (start box)) (Point.x (end_ box)) <= Point.x p /\
  Point.x p <= Qmax (Point.x (start box)) (Point.x (end_ box)) /\
  Qmin (Point.y (start box)) (Point.y (end_ box)) <= Point.y p /\
  Point.y p <= Qmax (Point.y (start box)) (Point.y (end_ box)).

(** The geometry of an element after a translation by [(ddx, ddy)]: the
    tag and every field that is not a position are the same. *)
Inductive translated (ddx ddy : Q) : Geometry -> Geometry -> Prop :=
| translated_rectangle x y width height :
    translated ddx ddy (rectangle x y width height)
                       (rectangle (x + ddx) (y + ddy) width height)
| translated_ellipse x y width height :
    translated ddx ddy (ellipse x y width height)
                       (ellipse (x + ddx) (y + ddy) width height)
| translated_diamond x y width height :
    translated ddx ddy (diamond x y width height)
                       (diamond (x + ddx) (y + ddy) width height)
| translated_circle x y radius :
    translated ddx ddy (circle x y radius) (circle (x + ddx) (y + ddy) radius)
| translated_line x1 y1 x2 y2 :
    translated ddx ddy (line x1 y1 x2 y2)
                       (line (x1 + ddx) (y1 + ddy) (x2 + ddx) (y2 + ddy))
| translated_arrow x1 y1 x2 y2 :
    translated ddx ddy (arrow x1 y1 x2 y2)
                       (arrow (x1 + ddx) (y1 + ddy) (x2 + ddx) (y2 + ddy))
| translated_text x y content fontSize fontFamily textDecorators :
    translated ddx ddy (text x y content fontSize fontFamily textDecorators)
                       (text (x + ddx) (y + ddy) content fontSize fontFamily textDecorators)
| translated_image x y width height src imageData :
    translated ddx ddy (image x y width height src imageData)
                       (image (x + ddx) (y + ddy) width height src imageData)
| translated_path points :
    translated ddx ddy (path points)
      (path (List.map (fun p => Point.mk (Point.x p + ddx) (Point.y p + ddy)) points)).


(** A browser that refuses, for quota, any history of more than one
    snapshot. *)
Definition smallQuota (st : gmap string StorageValue) (k : string) (v : StorageValue)
  : option StorageError :=
  match v with
  | VHistory (_ :: _ :: _) => Some QuotaExceededError
  | _ => None
  end.

(** A rational that is a double: rounding leaves it as it is, and it is
    within the finite range. *)
Definition representable (q : Q) : Prop :=
  Double.round64 q == q /\ Qabs q <= Double.maxDouble.

(** Two rationals at most [eps] apart. *)
Definition near (eps a b : Q) : Prop := Qabs (a - b) <= eps.

(** The distance to an exact value of magnitude at most [B] after one
    more rounding, from a distance [eps] before it: a rounding moves a
    number by at most [2 ^ (-53)] of its magnitude, or by [2 ^ (-1075)]
    in the subnormal range. *)
Definition rounded (B eps : Q) : Q := eps + ((B + eps) * 2 ^ (-53) + 2 ^ (-1075)).

(** None of the operations of a zoom step about [cursor], nor of
    projecting the world point under the cursor before and after it,
    rounds: the cursor, its distance to the offset, that distance in
    world units, its product with the new scale, the quotient by the old
    scale and the new offset are doubles. *)
Definition unroundedZoom (cursor offset scale scale' : Q) : Prop :=
  representable cursor /\
  representable (cursor - offset) /\
  representable ((cursor - offset) / scale) /\
  representable ((cursor - offset) * scale') /\
  representable ((cursor - offset) * scale' / scale) /\
  representable (cursor - (cursor - offset) * scale' / scale).

(** The bounds of a drag after the minimum-size step. *)
Definition clampedBounds (handle : Handle.t) (startBounds : Bounds.t) (dx dy : Q)
  : Bounds.t :=
  Double.ensureMinimumSize handle startBounds (Double.handleBounds handle startBounds dx dy).

(** [g'] is [g] with new numbers: the same variant, and the fields that
    are not numbers of the geometry (text content, font family,
    decorators, image source and bitmap) are the same. *)
Definition regeometrized (g g' : Geometry) : Prop :=
  match g, g' with
  | path ps, path ps' => length ps' = length ps
  | rectangle _ _ _ _, rectangle _ _ _ _
  | ellipse _ _ _ _, ellipse _ _ _ _
  | diamond _ _ _ _, diamond _ _ _ _
  | circle _ _ _, circle _ _ _
  | line _ _ _ _, line _ _ _ _
  | arrow _ _ _ _, arrow _ _ _ _ => True
  | text _ _ c _ ff td, text _ _ c' _ ff' td' => c' = c /\ ff' = ff /\ td' = td
  | image _ _ _ _ src data, image _ _ _ _ src' data' => src' = src /\ data' = data
  | _, _ => False
  end.

(** What a resize may do to one element of the collection when the
    element being resized is [target]. *)
Definition resizedOnly (target : string) (el el' : Element) : Prop :=
  base el' = base el /\
  regeometrized (geom el) (geom el') /\
  (elementId el <> target -> el' = el).

(** The variants whose resize reads nothing of the current geometry. *)
Definition cursorDetermined (g : Geometry) : bool :=
  match g with
  | rectangle _ _ _ _ | ellipse _ _ _ _ | diamond _ _ _ _
  | image _ _ _ _ _ _ | circle _ _ _ => true
  | _ => false
  end.

(** The cursor designates a snapshot of the history. *)
Definition validCursor (p : Page.t) : Prop :=
  (0 <= Page.historyIndex p < Z.of_nat (length (Page.history p)))%Z.



(** No pointer gesture is in progress. *)
Definition idle (st : CanvasState.t) : Prop :=
  CanvasState.isPanning st = false /\ CanvasState.resizeHandle st = None /\
  CanvasState.selectionBox st = None /\ CanvasState.isDrawing st = false.

(** At most one of the four gesture modes (dragging, resizing, marquee,
    drawing) is on. *)
Definition atMostOneMode (st : CanvasState.t) : Prop :=
  match CanvasState.resizeHandle st, CanvasState.selectionBox st with
  | Some _, Some _ => False
  | Some _, None | None, Some _ =>
      CanvasState.isPanning st = false /\ CanvasState.isDrawing st = false
  | None, None => CanvasState.isPanning st = false \/ CanvasState.isDrawing st = false
  end.

(** The press is one that pans: middle button, Shift with the left
    button, or the hand tool. *)
Definition pansOnPress (props : Props.t) (e : MouseEvent.t) : bool :=
  (MouseEvent.button e =? 1)%Z
  || ((MouseEvent.button e =? 0)%Z && MouseEvent.shiftKey e)
  || isHand (Props.tool props).

(** The geometry a drawing gesture leaves for a tool: [a] is the canvas
    point of the press, [moves] the canvas points of the move events. *)
Definition drawnGeometry (sqrt : Q -> Q) (tool : Tool.t) (a : Point.t)
    (moves : list Point.t) : option Geometry :=
  let ax := Point.x a in
  let ay := Point.y a in
  match tool, last moves with
  | Tool.pen, _ => Some (path (a :: moves))
  | Tool.rectangle, None => Some (rectangle ax ay 0 0)
  | Tool.rectangle, Some m => Some (rectangle ax ay (Point.x m - ax) (Point.y m - ay))
  | Tool.ellipse, None => Some (ellipse ax ay 0 0)
  | Tool.ellipse, Some m => Some (ellipse ax ay (Point.x m - ax) (Point.y m - ay))
  | Tool.diamond, None => Some (diamond ax ay 0 0)
  | Tool.diamond, Some m => Some (diamond ax ay (Point.x m - ax) (Point.y m - ay))
  | Tool.line, None => Some (line ax ay ax ay)
  | Tool.line, Some m => Some (line ax ay (Point.x m) (Point.y m))
  | Tool.arrow, None => Some (arrow ax ay ax ay)
  | Tool.arrow, Some m => Some (arrow ax ay (Point.x m) (Point.y m))
  | Tool.circle, None => Some (circle ax ay 0)
  | Tool.circle, Some m =>
      Some (circle ax ay (sqrt ((Point.x m - ax) * (Point.x m - ax)
                                + (Point.y m - ay) * (Point.y m - ay))))
  | _, _ => None
  end.

(** Sample props, state and events of the canvas component. *)
Definition sampleProps (tool : Tool.t) : Props.t :=
  Props.mk tool "#1e1e1e" 2 None 1 1 solid "Arial" 20
           (mkTextDecorators None None None None).

Definition sampleRectangle : Element := mkElement sampleBase (rectangle 10 10 30 20).

Definition sampleState : CanvasState.t :=
  CanvasState.mk [sampleRectangle] false false None (Viewport.mk 0 0 1) None
                 (TextInput.mk 0 0 false) ∅ None None None.

(** A plain left-button event at client position [(x, y)], the canvas
    sitting at the origin of the page. *)
Definition sampleEvent (x y : Q) : MouseEvent.t :=
  MouseEvent.mk 0 false false false x y (Some (Point.mk 0 0)).

(** A stand-in for [Math.sqrt] on the samples. *)
Definition sampleSqrt (q : Q) : Q := q.

(** A stand-in for [trim] on the samples (which carry no white space). *)
Definition sampleTrim (s : string) : string := s.

(** A sample identifier generator: a different string for each call. *)
Fixpoint sampleId (i : nat) : string :=
  match i with
  | O => "copy"
  | S j => String Ascii.one (sampleId j)
  end.

(* ===================================================================== *)
(** * Part III: properties *)
(* ===================================================================== *)

(** Reduce record projections applied to constructors, and nothing else
    (the rationals stay folded). *)
Ltac fields :=
  cbn [Bounds.x Bounds.y Bounds.width Bounds.height Point.x Point.y
       Viewport.x Viewport.y Viewport.scale TextSize.width TextSize.height
       start end_].

(** ** Rounding *)

Import Double.Notations.
Local Open Scope double_scope.

Lemma round64_wd (q q' : Q) : q == q' -> Double.round64 q = Double.round64 q'.
Proof.
  intros H. unfold Double.round64. rewrite (Qred_complete q q' H). reflexivity.
Qed.

#[export] Instance round64_Proper : Proper (Qeq ==> Qeq) Double.round64.
Proof. intros q q' H. rewrite (round64_wd q q' H). reflexivity. Qed.

#[export] Instance add_Proper : Proper (Qeq ==> Qeq ==> Qeq) Double.add.
Proof. intros a a' Ha b b' Hb. unfold Double.add. rewrite Ha, Hb. reflexivity. Qed.

#[export] Instance sub_Proper : Proper (Qeq ==> Qeq ==> Qeq) Double.sub.
Proof. intros a a' Ha b b' Hb. unfold Double.sub. rewrite Ha, Hb. reflexivity. Qed.

#[export] Instance mul_Proper : Proper (Qeq ==> Qeq ==> Qeq) Double.mul.
Proof. intros a a' Ha b b' Hb. unfold Double.mul. rewrite Ha, Hb. reflexivity. Qed.

#[export] Instance div_Proper : Proper (Qeq ==> Qeq ==> Qeq) Double.div.
Proof. intros a a' Ha b b' Hb. unfold Double.div. rewrite Ha, Hb. reflexivity. Qed.

(** An operation whose exact result is a double does not round. *)
Lemma add_exact (a b c : Q) : a + b == c -> representable c -> a ⊕ b == c.
Proof. intros E [R _]. unfold Double.add. rewrite E. exact R. Qed.

Lemma sub_exact (a b c : Q) : a - b == c -> representable c -> a ⊖ b == c.
Proof. intros E [R _]. unfold Double.sub. rewrite E. exact R. Qed.

Lemma mul_exact (a b c : Q) : a * b == c -> representable c -> a ⊗ b == c.
Proof. intros E [R _]. unfold Double.mul. rewrite E. exact R. Qed.

Lemma div_exact (a b c : Q) : a / b == c -> representable c -> a ⊘ b == c.
Proof. intros E [R _]. unfold Double.div. rewrite E. exact R. Qed.

(** *** Rounding error

    The rounded value is an integer multiple of [2 ^ e] nearest to the
    exact one, so half of [2 ^ e] away at most; [e] is 52 below the
    binade, or [emin]. *)
Lemma roundHalfEven_near (t : Q) :
  Qabs (inject_Z (Double.roundHalfEven t) - t) <= 1 # 2.
Proof.
  unfold Double.roundHalfEven.
  pose proof (Qfloor_le t) as Hl. pose proof (Qlt_floor t) as Hu.
  rewrite inject_Z_plus in Hu. change (inject_Z 1) with 1 in Hu.
  set (f := Qfloor t) in *.
  destruct (Qcompare_spec (t - inject_Z f) (1 # 2)) as [E|L|G];
    [destruct (Z.even f)| |];
    rewrite ?inject_Z_plus; change (inject_Z 1) with 1;
    apply Qabs_Qle_condition; split; lra.
Qed.

Lemma pow2_pos (k : Z) : 0 < 2 ^ k.
Proof. apply Qpower_0_lt. reflexivity. Qed.

Lemma binade_lower (a : Q) : 0 < a -> 2 ^ Double.binade a <= a.
Proof.
  intros Ha. unfold Double.binade.
  set (ln := Z.log2 (Qnum a)). set (ld := Z.log2 (Zpos (Qden a))).
  destruct (Qle_bool (2 ^ (ln - ld)) a) eqn:E.
  - apply Qle_bool_iff. exact E.
  - assert (Hn : (0 < Qnum a)%Z).
    { destruct a as [n d]. unfold Qlt in Ha. simpl in *. lia. }
    assert (Hln : (2 ^ ln <= Qnum a)%Z) by (apply Z.log2_spec; exact Hn).
    assert (Hld : (Zpos (Qden a) < 2 ^ (ld + 1))%Z).
    { replace (ld + 1)%Z with (Z.succ ld) by lia. apply Z.log2_spec. lia. }
    assert (Hln0 : (0 <= ln)%Z) by apply Z.log2_nonneg.
    assert (Hld0 : (0 <= ld)%Z) by apply Z.log2_nonneg.
    replace (ln - ld - 1)%Z with (ln + - (ld + 1))%Z by lia.
    rewrite Qpower_plus by (intros H; discriminate H).
    rewrite Qpower_opp.
    rewrite <- (Zpower_Qpower 2 ln) by exact Hln0.
    rewrite <- (Zpower_Qpower 2 (ld + 1)) by lia.
    set (A := (2 ^ ln)%Z) in *. set (B := (2 ^ (ld + 1))%Z) in *.
    assert (HB : (0 < B)%Z) by lia.
    assert (HA : (0 < A)%Z) by (apply Z.pow_pos_nonneg; lia).
    destruct a as [n d]. simpl in *.
    apply Qle_shift_div_r.
    + unfold Qlt. simpl. lia.
    + unfold Qle, Qmult, inject_Z. simpl. nia.
Qed.



Lemma round_scaled_near (a : Q) :
  0 < a ->
  let e := Z.max (Double.binade a - 52) Double.emin in
  Qabs (inject_Z (Double.roundHalfEven (a / 2 ^ e)) * 2 ^ e - a)
  <= a * 2 ^ (-53) + 2 ^ (-1075).
Proof.
  intros Ha e.
  pose proof (pow2_pos e) as HP.
  pose proof (roundHalfEven_near (a / 2 ^ e)) as Hm.
  set (m := inject_Z (Double.roundHalfEven (a / 2 ^ e))) in *.
  assert (Hhalf : Qabs (m * 2 ^ e - a) <= (1 # 2) * 2 ^ e).
  { assert (E : m * 2 ^ e - a == (m - a / 2 ^ e) * 2 ^ e).
    { field. intros H. rewrite H in HP. discriminate HP. }
    rewrite E, Qabs_Qmult, (Qabs_pos (2 ^ e)) by (apply Qlt_le_weak; exact HP).
    apply Qmult_le_compat_r; [exact Hm | apply Qlt_le_weak; exact HP]. }
  eapply Qle_trans; [exact Hhalf|].
  assert (Hu : 0 < 2 ^ (-53)) by apply pow2_pos.
  assert (Ht : 0 < 2 ^ (-1075)) by apply pow2_pos.
  destruct (Z.max_spec (Double.binade a - 52) Double.emin) as [[_ E]|[_ E]];
    fold e in E; rewrite E.
  - change ((1 # 2) * 2 ^ Double.emin) with (2 ^ (-1075)) at 1.
    assert (0 <= a * 2 ^ (-53)).
    { apply Qmult_le_0_compat; apply Qlt_le_weak; assumption. }
    set (u := a * 2 ^ (-53)) in *. set (t := 2 ^ (-1075)) in *. lra.
  - replace (Double.binade a - 52)%Z with (Double.binade a + (-52))%Z by lia.
    rewrite Qpower_plus by (intros H; discriminate H).
    pose proof (binade_lower a Ha) as Hk.
    assert (E53 : (1 # 2) * (2 ^ Double.binade a * 2 ^ (-52))
                  == 2 ^ Double.binade a * 2 ^ (-53)).
    { assert (E2 : 2 ^ (-52) == 2 * 2 ^ (-53)) by reflexivity.
      rewrite E2. ring. }
    rewrite E53.
    apply Qle_trans with (a * 2 ^ (-53)).
    + apply Qmult_le_compat_r; [exact Hk | apply Qlt_le_weak; exact Hu].
    + set (u := a * 2 ^ (-53)) in *. set (t := 2 ^ (-1075)) in *. lra.
Qed.

Lemma round64_near (q : Q) :
  Qabs (Double.round64 q - q) <= Qabs q * 2 ^ (-53) + 2 ^ (-1075).
Proof.
  unfold Double.round64.
  assert (Hr : Qred q == q) by apply Qred_correct.
  set (r := Qred q) in *. clearbody r. rewrite <- Hr. clear q Hr.
  assert (Ht : 0 < 2 ^ (-1075)) by apply pow2_pos.
  assert (Hu : 0 < 2 ^ (-53)) by apply pow2_pos.
  destruct (Qeq_bool r 0) eqn:E0.
  - apply Qeq_bool_iff in E0. rewrite E0.
    change (Qabs (0 - 0)) with 0. change (Qabs 0) with 0.
    set (u := 2 ^ (-53)) in *. set (t := 2 ^ (-1075)) in *. lra.
  - rewrite Qred_correct.
    destruct r as [[|p|p] d].
    + discriminate E0.
    + change (Qabs (Z.pos p # d)) with (Z.pos p # d).
      change (Z.sgn (Qnum (Z.pos p # d))) with 1%Z.
      rewrite Z.mul_1_l.
      apply (round_scaled_near (Z.pos p # d)). reflexivity.
    + change (Qabs (Z.neg p # d)) with (Z.pos p # d).
      change (Z.sgn (Qnum (Z.neg p # d))) with (-1)%Z.
      pose proof (round_scaled_near (Z.pos p # d) eq_refl) as H.
      cbv zeta in H.
      set (e := Z.max (Double.binade (Z.pos p # d) - 52) Double.emin) in *.
      set (m := Double.roundHalfEven ((Z.pos p # d) / 2 ^ e)) in *.
      assert (E : inject_Z (-1 * m) * 2 ^ e - (Z.neg p # d)
                  == - (inject_Z m * 2 ^ e - (Z.pos p # d))).
      { replace (-1 * m)%Z with (- m)%Z by lia. rewrite inject_Z_opp.
        change (Z.neg p # d) with (- (Z.pos p # d)). ring. }
      rewrite E, Qabs_opp. exact H.
Qed.

(** *** Propagation

    How the distance to an exact value grows through the operations of
    the program. *)
Lemma near_refl (a : Q) : near 0 a a.
Proof.
  unfold near. assert (E : a - a == 0) by ring. rewrite E. apply Qle_refl.
Qed.

Lemma near_eq (eps a b b' : Q) : near eps a b -> b == b' -> near eps a b'.
Proof. unfold near. intros H E. rewrite <- E. exact H. Qed.

Lemma near_weaken (eps eps' a b : Q) : near eps a b -> eps <= eps' -> near eps' a b.
Proof. unfold near. intros H E. eapply Qle_trans; eassumption. Qed.

Lemma near_round (eps B a b : Q) :
  near eps a b -> Qabs b <= B -> near (rounded B eps) (Double.round64 a) b.
Proof.
  unfold near, rounded. intros H Hb.
  pose proof (round64_near a) as Hr.
  assert (Ha : Qabs a <= B + eps).
  { assert (E : a == (a - b) + b) by ring. rewrite E.
    eapply Qle_trans; [apply Qabs_triangle | lra]. }
  assert (Hu : 0 <= 2 ^ (-53)) by (apply Qlt_le_weak, pow2_pos).
  assert (Hm : Qabs a * 2 ^ (-53) <= (B + eps) * 2 ^ (-53))
    by (apply Qmult_le_compat_r; assumption).
  assert (E : Double.round64 a - b == (Double.round64 a - a) + (a - b)) by ring.
  rewrite E. eapply Qle_trans; [apply Qabs_triangle |].
  set (x := Qabs (Double.round64 a - a)) in *. set (y := Qabs (a - b)) in *.
  set (z := Qabs a * 2 ^ (-53)) in *. lra.
Qed.

Lemma near_add (e1 e2 a b c d : Q) :
  near e1 a b -> near e2 c d -> near (e1 + e2) (a + c) (b + d).
Proof.
  unfold near. intros H1 H2.
  assert (E : a + c - (b + d) == (a - b) + (c - d)) by ring. rewrite E.
  eapply Qle_trans; [apply Qabs_triangle | lra].
Qed.

Lemma near_sub (e1 e2 a b c d : Q) :
  near e1 a b -> near e2 c d -> near (e1 + e2) (a - c) (b - d).
Proof.
  unfold near. intros H1 H2.
  assert (E : a - c - (b - d) == (a - b) + - (c - d)) by ring. rewrite E.
  eapply Qle_trans; [apply Qabs_triangle |]. rewrite Qabs_opp. lra.
Qed.

Lemma near_via (e1 e2 a b c : Q) :
  near e1 a c -> near e2 b c -> near (e1 + e2) a b.
Proof.
  unfold near. intros H1 H2.
  assert (E : a - b == (a - c) + - (b - c)) by ring. rewrite E.
  eapply Qle_trans; [apply Qabs_triangle |]. rewrite Qabs_opp. lra.
Qed.

Lemma abs_mul_le (a B t T : Q) :
  Qabs a <= B -> Qabs t <= T -> Qabs (a * t) <= B * T.
Proof.
  intros Ha Ht. rewrite Qabs_Qmult.
  pose proof (Qabs_nonneg a). pose proof (Qabs_nonneg t).
  apply Qle_trans with (B * Qabs t).
  - apply Qmult_le_compat_r; assumption.
  - rewrite (Qmult_comm B (Qabs t)), (Qmult_comm B T).
    apply Qmult_le_compat_r; [assumption | lra].
Qed.

Lemma abs_div_le (a B s k : Q) :
  Qabs a <= B -> 0 < s -> 1 <= k * s -> Qabs (a / s) <= B * k.
Proof.
  intros Ha Hs Hk.
  assert (Hinv : 0 < / s) by (apply Qinv_lt_0_compat; exact Hs).
  assert (Hk' : / s <= k).
  { assert (E : / s == 1 * / s) by ring. rewrite E.
    apply Qle_shift_div_r; assumption. }
  unfold Qdiv. apply abs_mul_le; [exact Ha |].
  rewrite Qabs_pos; [exact Hk' | apply Qlt_le_weak; exact Hinv].
Qed.

Lemma near_mul_r (eps a b t T : Q) :
  near eps a b -> Qabs t <= T -> near (eps * T) (a * t) (b * t).
Proof.
  unfold near. intros H Ht.
  assert (E : a * t - b * t == (a - b) * t) by ring. rewrite E.
  apply abs_mul_le; assumption.
Qed.

Lemma near_div_r (eps a b s k : Q) :
  near eps a b -> 0 < s -> 1 <= k * s -> near (eps * k) (a / s) (b / s).
Proof.
  unfold near. intros H Hs Hk.
  assert (E : a / s - b / s == (a - b) / s).
  { field. intros Z. rewrite Z in Hs. discriminate Hs. }
  rewrite E. apply abs_div_le; assumption.
Qed.

Lemma scale_facts (s : Q) :
  Double.lit 0.1 <= s -> s <= 10 -> 0 < s /\ 1 <= 10 * s /\ Qabs s <= 10.
Proof.
  intros Hlo Hhi.
  assert (H0 : 0 < Double.lit 0.1) by reflexivity.
  assert (H1 : 1 <= 10 * Double.lit 0.1) by (vm_compute; discriminate).
  split; [lra |]. split; [lra |]. rewrite Qabs_pos; lra.
Qed.

(** On the samples, [round64] after the exact operation is what the
    processor's binary64 operation returns. *)
Lemma round64_agrees_with_binary64 :
  forallb (fun ab => Double.agrees (fst ab) (snd ab)) Double.samples = true.
Proof. vm_compute. reflexivity. Qed.

(** ** Viewport *)

(** The round trip through the screen on one axis, within the zoom
    range of the canvas. *)
Lemma roundTrip_near (x s p M : Q) :
  1 <= M -> Qabs p <= M -> Qabs x <= M ->
  Double.lit 0.1 <= s -> s <= 10 ->
  near (M * 2 ^ (-44)) (((p ⊗ s ⊕ x) ⊖ x) ⊘ s) p.
Proof.
  intros HM Hp Hx Hlo Hhi.
  unfold Double.div, Double.sub, Double.add, Double.mul.
  assert (Hs : 0 < s).
  { eapply Qlt_le_trans; [| exact Hlo]. reflexivity. }
  assert (Hk : 1 <= 10 * s).
  { assert (1 <= 10 * Double.lit 0.1) by (vm_compute; discriminate). lra. }
  assert (Hsa : Qabs s <= 10) by (rewrite Qabs_pos; lra).
  assert (B1 : Qabs (p * s) <= M * 10) by (apply abs_mul_le; assumption).
  pose proof (near_round 0 (M * 10) (p * s) (p * s) (near_refl _) B1) as N1.
  pose proof (near_add _ _ _ _ _ _ N1 (near_refl x)) as N2.
  assert (B2 : Qabs (p * s + x) <= M * 10 + M).
  { eapply Qle_trans; [apply Qabs_triangle | lra]. }
  pose proof (near_round _ _ _ _ N2 B2) as N3.
  pose proof (near_sub _ _ _ _ _ _ N3 (near_refl x)) as N4.
  assert (E4 : p * s + x - x == p * s) by ring.
  pose proof (near_eq _ _ _ _ N4 E4) as N5.
  pose proof (near_round _ _ _ _ N5 B1) as N6.
  pose proof (near_div_r _ _ _ s 10 N6 Hs Hk) as N7.
  assert (E7 : p * s / s == p).
  { field. intros Z. rewrite Z in Hs. discriminate Hs. }
  pose proof (near_eq _ _ _ _ N7 E7) as N8.
  pose proof (near_round _ _ _ _ N8 Hp) as N9.
  eapply near_weaken; [exact N9 |].
  unfold rounded. lra.
Qed.

(** C8 (amended).  [screenToCanvas] is [((sx - x) / scale, (sy - y) / scale)]
    and the transform of [draw] is [(wx * scale + x, wy * scale + y)],
    each operation rounded to a double.  For a viewport whose scale is
    not zero, mapping a point to the screen and back returns the point
    whenever, on each axis, the coordinate, its product with the scale
    and the sum of that product and the offset are doubles, that is
    whenever no operation of the round trip rounds.  Whether they round
    or not, with the scale in [[0.1, 10]] and coordinates and offsets of
    magnitude at most [M] (between 1 and [2 ^ 1000], so that no result
    leaves the finite range), the point that comes back is within
    [M * 2 ^ (-44)] of the one sent, on each axis. *)
Theorem screenToCanvas_worldToScreen (v : Viewport.t) (p : Point.t) :
  ~ Viewport.scale v == 0 ->
  let back := Double.screenToCanvas v (Point.x (Double.worldToScreen v p))
                                      (Point.y (Double.worldToScreen v p)) in
  (forall sx sy,
     Double.screenToCanvas v sx sy
     = Point.mk ((sx ⊖ Viewport.x v) ⊘ Viewport.scale v)
                ((sy ⊖ Viewport.y v) ⊘ Viewport.scale v)) /\
  Double.worldToScreen v p
  = Point.mk (Point.x p ⊗ Viewport.scale v ⊕ Viewport.x v)
             (Point.y p ⊗ Viewport.scale v ⊕ Viewport.y v) /\
  (representable (Point.x p) ->
   representable (Point.x p * Viewport.scale v) ->
   representable (Point.x p * Viewport.scale v + Viewport.x v) ->
   representable (Point.y p) ->
   representable (Point.y p * Viewport.scale v) ->
   representable (Point.y p * Viewport.scale v + Viewport.y v) ->
   Point.equiv back p) /\
  (forall M,
     Double.lit 0.1 <= Viewport.scale v <= 10 ->
     1 <= M -> M <= 2 ^ 1000 ->
     Qabs (Point.x p) <= M -> Qabs (Viewport.x v) <= M ->
     Qabs (Point.y p) <= M -> Qabs (Viewport.y v) <= M ->
     Qabs (Point.x back - Point.x p) <= M * 2 ^ (-44) /\
     Qabs (Point.y back - Point.y p) <= M * 2 ^ (-44)).
Proof.
  intros Hs back.
  split; [reflexivity |]. split; [reflexivity |]. split.
  - intros X1 X2 X3 Y1 Y2 Y3.
    subst back. unfold Point.equiv, Double.screenToCanvas, Double.worldToScreen.
    cbn [Point.x Point.y]. split.
    + rewrite (mul_exact _ _ _ (Qeq_refl _) X2).
      rewrite (add_exact _ _ _ (Qeq_refl _) X3).
      rewrite (sub_exact _ _ (Point.x p * Viewport.scale v)) by (try ring; exact X2).
      apply div_exact; [field; exact Hs | exact X1].
    + rewrite (mul_exact _ _ _ (Qeq_refl _) Y2).
      rewrite (add_exact _ _ _ (Qeq_refl _) Y3).
      rewrite (sub_exact _ _ (Point.y p * Viewport.scale v)) by (try ring; exact Y2).
      apply div_exact; [field; exact Hs | exact Y1].
  - intros M [Hlo Hhi] HM _ Px Vx Py Vy.
    subst back. unfold Double.screenToCanvas, Double.worldToScreen.
    cbn [Point.x Point.y].
    split; apply roundTrip_near; assumption.
Qed.

Lemma screenToCanvas_worldToScreen_witness :
  let v := Viewport.mk 30 (-12) 2.5 in
  let p := Point.mk 7 (-3) in
  let back := Double.screenToCanvas v (Point.x (Double.worldToScreen v p))
                                      (Point.y (Double.worldToScreen v p)) in
  Point.equiv back p /\
  Qabs (Point.x back - 7) <= 30 * 2 ^ (-44).
Proof.
  intros v p back.
  destruct (screenToCanvas_worldToScreen v p) as (_ & _ & H & B).
  - intros H. vm_compute in H. discriminate H.
  - split.
    + apply H; split; vm_compute; try reflexivity; discriminate.
    + apply (B 30); try (vm_compute; discriminate).
      split; vm_compute; discriminate.
Defined.

(** C8, as stated, fails on doubles.  With the viewport (0, 0, 3) the
    point of abscissa 0.1 comes back as 0.10000000000000002: the product
    0.1 * 3 rounds up and the division by 3 does not undo it.  With the
    viewport (12.5, 0, 1.1) the point of abscissa 1 comes back as
    0.9999999999999996. *)
Lemma screenToCanvas_worldToScreen_counterexample :
  (let v := Viewport.mk 0 0 3 in
   let p := Point.mk (Double.lit 0.1) 0 in
   let back := Double.screenToCanvas v (Point.x (Double.worldToScreen v p))
                                       (Point.y (Double.worldToScreen v p)) in
   ~ Viewport.scale v == 0 /\
   Point.x back == Double.lit 0.10000000000000002 /\
   ~ Point.equiv back p) /\
  (let v := Viewport.mk 12.5 0 (Double.lit 1.1) in
   let p := Point.mk 1 0 in
   let back := Double.screenToCanvas v (Point.x (Double.worldToScreen v p))
                                       (Point.y (Double.worldToScreen v p)) in
   ~ Viewport.scale v == 0 /\
   Point.x back == Double.lit 0.9999999999999996 /\
   ~ Point.equiv back p).
Proof.
  split.
  - split; [intros H; vm_compute in H; discriminate H |].
    split; [vm_compute; reflexivity |].
    intros [H _]. vm_compute in H. discriminate H.
  - split; [intros H; vm_compute in H; discriminate H |].
    split; [vm_compute; reflexivity |].
    intros [H _]. vm_compute in H. discriminate H.
Qed.

Lemma clamp_scale_range (t : Q) :
  Double.lit 0.1 <= Qmax (Double.lit 0.1) (Qmin 10 t) <= 10.
Proof.
  assert (H : Double.lit 0.1 <= 10) by (vm_compute; discriminate).
  split.
  - apply Q.le_max_l.
  - apply Q.max_lub; [exact H | apply Q.le_min_l].
Qed.

Lemma zoom_projection (c x s s' : Q) :
  ~ s == 0 -> unroundedZoom c x s s' ->
  ((c ⊖ x) ⊘ s) ⊗ s' ⊕ (c ⊖ ((c ⊖ x) ⊗ s') ⊘ s) == c /\
  ((c ⊖ x) ⊘ s) ⊗ s ⊕ x == c.
Proof.
  intros Hs (Rc & Rd & Rw & Rm & Rq & Ro).
  rewrite (sub_exact c x (c - x)) by (try reflexivity; exact Rd).
  rewrite (div_exact (c - x) s ((c - x) / s)) by (try reflexivity; exact Rw).
  rewrite (mul_exact (c - x) s' ((c - x) * s')) by (try reflexivity; exact Rm).
  rewrite (div_exact ((c - x) * s') s ((c - x) * s' / s)) by (try reflexivity; exact Rq).
  rewrite (sub_exact c ((c - x) * s' / s) (c - (c - x) * s' / s))
    by (try reflexivity; exact Ro).
  rewrite (mul_exact ((c - x) / s) s' ((c - x) * s' / s)) by (try (field; exact Hs); exact Rq).
  rewrite (mul_exact ((c - x) / s) s (c - x)) by (try (field; exact Hs); exact Rd).
  split; apply add_exact; try ring; exact Rc.
Qed.

(** The projection of the world point under the cursor, after a zoom
    step and before it, on one axis. *)
Lemma zoom_projection_near (c x s s' M : Q) :
  1 <= M -> Qabs c <= M -> Qabs x <= M ->
  Double.lit 0.1 <= s -> s <= 10 ->
  Double.lit 0.1 <= s' -> s' <= 10 ->
  near (M * 2 ^ (-42)) (((c ⊖ x) ⊘ s) ⊗ s' ⊕ (c ⊖ ((c ⊖ x) ⊗ s') ⊘ s)) c /\
  near (M * 2 ^ (-44)) (((c ⊖ x) ⊘ s) ⊗ s ⊕ x) c.
Proof.
  intros HM Hc Hx Hlo Hhi Hlo' Hhi'.
  unfold Double.div, Double.sub, Double.add, Double.mul.
  destruct (scale_facts s Hlo Hhi) as (Hs & Hk & Hsa).
  destruct (scale_facts s' Hlo' Hhi') as (Hs' & Hk' & Hsa').
  assert (Hs0 : ~ s == 0) by (intros Z; rewrite Z in Hs; discriminate Hs).
  (* the distance to the offset *)
  assert (Bd : Qabs (c - x) <= M + M).
  { assert (E : c - x == c + - x) by ring. rewrite E.
    eapply Qle_trans; [apply Qabs_triangle |]. rewrite Qabs_opp. lra. }
  pose proof (near_round _ _ _ _ (near_refl (c - x)) Bd) as Nd.
  (* the world point *)
  assert (Bw : Qabs ((c - x) / s) <= (M + M) * 10) by (apply abs_div_le; assumption).
  pose proof (near_round _ _ _ _ (near_div_r _ _ _ s 10 Nd Hs Hk) Bw) as Nw.
  (* its projection after the step *)
  assert (Bp : Qabs ((c - x) / s * s') <= (M + M) * 10 * 10) by (apply abs_mul_le; assumption).
  pose proof (near_round _ _ _ _ (near_mul_r _ _ _ s' 10 Nw Hsa') Bp) as Np.
  (* the new offset *)
  assert (Bn : Qabs ((c - x) * s') <= (M + M) * 10) by (apply abs_mul_le; assumption).
  pose proof (near_round _ _ _ _ (near_mul_r _ _ _ s' 10 Nd Hsa') Bn) as Nn.
  assert (Bq : Qabs ((c - x) * s' / s) <= (M + M) * 10 * 10) by (apply abs_div_le; assumption).
  pose proof (near_round _ _ _ _ (near_div_r _ _ _ s 10 Nn Hs Hk) Bq) as Nq.
  assert (Bo : Qabs (c - (c - x) * s' / s) <= M + (M + M) * 10 * 10).
  { assert (E : c - (c - x) * s' / s == c + - ((c - x) * s' / s)) by ring. rewrite E.
    eapply Qle_trans; [apply Qabs_triangle |]. rewrite Qabs_opp. lra. }
  pose proof (near_round _ _ _ _ (near_sub _ _ _ _ _ _ (near_refl c) Nq) Bo) as No.
  split.
  - pose proof (near_add _ _ _ _ _ _ Np No) as Na.
    assert (E : (c - x) / s * s' + (c - (c - x) * s' / s) == c) by (field; exact Hs0).
    pose proof (near_round _ _ _ _ (near_eq _ _ _ _ Na E) Hc) as Nr.
    eapply near_weaken; [exact Nr |]. unfold rounded. lra.
  - assert (E : (c - x) / s * s == c - x) by (field; exact Hs0).
    pose proof (near_round _ _ _ _
                  (near_eq _ _ _ _ (near_mul_r _ _ _ s 10 Nw Hsa) E) Bd) as Nb.
    pose proof (near_add _ _ _ _ _ _ Nb (near_refl x)) as Na.
    assert (E' : c - x + x == c) by ring.
    pose proof (near_round _ _ _ _ (near_eq _ _ _ _ Na E') Hc) as Nr.
    eapply near_weaken; [exact Nr |]. unfold rounded. lra.
Qed.

(** C1 (amended).  One wheel step, every operation rounded to a double,
    from a viewport whose scale lies in [[0.1, 10]]: the scale is
    multiplied by 1.1 (negative wheel delta) or by 0.9 and clamped to
    [[0.1, 10]]; the pan offset is
    [cursor - (cursor - offset) * scale' / scale] on both axes; and the
    world point under the cursor has the same screen projection before
    and after the step, the cursor position, whenever none of the
    operations involved rounds.  Whether they round or not, with cursor
    and offset of magnitude at most [M] (between 1 and [2 ^ 1000], so
    that no result leaves the finite range), the projection is within
    [M * 2 ^ (-44)] of the cursor before the step and within
    [M * 2 ^ (-42)] of it after, on each axis, so that it moves by
    [M * 2 ^ (-41)] at most. *)
Theorem wheelStep_zoom_about_cursor (deltaY mouseX mouseY : Q) (v : Viewport.t) :
  Double.lit 0.1 <= Viewport.scale v <= 10 ->
  let v' := Double.wheelStep deltaY mouseX mouseY v in
  let world := Double.screenToCanvas v mouseX mouseY in
  let before := Double.worldToScreen v world in
  let after := Double.worldToScreen v' world in
  ((deltaY < 0 /\
    Viewport.scale v'
    = Qmax (Double.lit 0.1) (Qmin 10 (Viewport.scale v ⊗ Double.lit 1.1))) \/
   (0 <= deltaY /\
    Viewport.scale v'
    = Qmax (Double.lit 0.1) (Qmin 10 (Viewport.scale v ⊗ Double.lit 0.9)))) /\
  Double.lit 0.1 <= Viewport.scale v' <= 10 /\
  Viewport.x v'
  = mouseX ⊖ ((mouseX ⊖ Viewport.x v) ⊗ Viewport.scale v') ⊘ Viewport.scale v /\
  Viewport.y v'
  = mouseY ⊖ ((mouseY ⊖ Viewport.y v) ⊗ Viewport.scale v') ⊘ Viewport.scale v /\
  (unroundedZoom mouseX (Viewport.x v) (Viewport.scale v) (Viewport.scale v') ->
   unroundedZoom mouseY (Viewport.y v) (Viewport.scale v) (Viewport.scale v') ->
   Point.equiv after before /\
   Point.equiv after (Point.mk mouseX mouseY)) /\
  (forall M,
     1 <= M -> M <= 2 ^ 1000 ->
     Qabs mouseX <= M -> Qabs (Viewport.x v) <= M ->
     Qabs mouseY <= M -> Qabs (Viewport.y v) <= M ->
     Qabs (Point.x before - mouseX) <= M * 2 ^ (-44) /\
     Qabs (Point.y before - mouseY) <= M * 2 ^ (-44) /\
     Qabs (Point.x after - mouseX) <= M * 2 ^ (-42) /\
     Qabs (Point.y after - mouseY) <= M * 2 ^ (-42) /\
     Qabs (Point.x after - Point.x before) <= M * 2 ^ (-41) /\
     Qabs (Point.y after - Point.y before) <= M * 2 ^ (-41)).
Proof.
  intros [Hlo Hhi] v' world before after.
  assert (Hpos : 0 < Double.lit 0.1) by (vm_compute; reflexivity).
  assert (Hs : ~ Viewport.scale v == 0) by (intros E; rewrite E in Hlo; lra).
  assert (Hr : Double.lit 0.1 <= Viewport.scale v' <= 10) by apply clamp_scale_range.
  split.
  { subst v'. unfold Double.wheelStep, Double.handleWheel, Double.zoomFactor.
    cbn [Viewport.scale].
    destruct (Qlt_le_dec deltaY 0); [left | right]; split; auto. }
  split; [exact Hr |].
  split; [reflexivity |]. split; [reflexivity |]. split.
  - intros Zx Zy.
    destruct (zoom_projection mouseX (Viewport.x v) (Viewport.scale v) (Viewport.scale v')
                Hs Zx) as [Ax Bx].
    destruct (zoom_projection mouseY (Viewport.y v) (Viewport.scale v) (Viewport.scale v')
                Hs Zy) as [Ay By].
    assert (After : Point.equiv after (Point.mk mouseX mouseY))
      by (split; [exact Ax | exact Ay]).
    assert (Before : Point.equiv before (Point.mk mouseX mouseY))
      by (split; [exact Bx | exact By]).
    split; [| exact After].
    destruct After as [A1 A2], Before as [B1 B2].
    split; [rewrite A1, B1 | rewrite A2, B2]; reflexivity.
  - intros M HM _ Cx Vx Cy Vy. destruct Hr as [Hlo' Hhi'].
    destruct (zoom_projection_near mouseX (Viewport.x v) (Viewport.scale v)
                (Viewport.scale v') M HM Cx Vx Hlo Hhi Hlo' Hhi') as [Ax Bx].
    destruct (zoom_projection_near mouseY (Viewport.y v) (Viewport.scale v)
                (Viewport.scale v') M HM Cy Vy Hlo Hhi Hlo' Hhi') as [Ay By].
    assert (Ax' : near (M * 2 ^ (-42)) (Point.x after) mouseX) by exact Ax.
    assert (Bx' : near (M * 2 ^ (-44)) (Point.x before) mouseX) by exact Bx.
    assert (Ay' : near (M * 2 ^ (-42)) (Point.y after) mouseY) by exact Ay.
    assert (By' : near (M * 2 ^ (-44)) (Point.y before) mouseY) by exact By.
    clearbody before after. clear Ax Bx Ay By.
    split; [exact Bx' |]. split; [exact By' |].
    split; [exact Ax' |]. split; [exact Ay' |].
    split.
    + eapply near_weaken; [exact (near_via _ _ _ _ _ Ax' Bx') | lra].
    + eapply near_weaken; [exact (near_via _ _ _ _ _ Ay' By') | lra].
Qed.

Lemma unroundedZoom_sample :
  let v' := Double.wheelStep (-1) 512 256 (Viewport.mk 0 0 1) in
  unroundedZoom 512 0 1 (Viewport.scale v') /\ unroundedZoom 256 0 1 (Viewport.scale v').
Proof.
  split; repeat split; vm_compute; try reflexivity; discriminate.
Qed.

(** Zooming in at the screen point (512, 256) from the viewport
    (0, 0, 1). *)
Lemma wheelStep_zoom_about_cursor_witness :
  let v := Viewport.mk 0 0 1 in
  let v' := Double.wheelStep (-1) 512 256 v in
  let world := Double.screenToCanvas v 512 256 in
  Viewport.scale v' = Double.lit 1.1 /\
  Point.equiv (Double.worldToScreen v' world) (Point.mk 512 256) /\
  Qabs (Point.x (Double.worldToScreen v' world) - Point.x (Double.worldToScreen v world))
  <= 512 * 2 ^ (-41).
Proof.
  intros v v' world.
  destruct (wheelStep_zoom_about_cursor (-1) 512 256 v) as (_ & _ & _ & _ & H & B).
  - split; vm_compute; discriminate.
  - split; [vm_compute; reflexivity |]. split.
    + apply H; apply unroundedZoom_sample.
    + apply (B 512); vm_compute; discriminate.
Defined.

(** C1, as stated, fails on doubles.  From the viewport (7, 9, 3), a
    zoom-out step at the cursor (123, 456): the world point under the
    cursor is projected at 123 before the step and at 122.99999999999999
    after it.  From the initial viewport (0, 0, 1), two zoom-in steps at
    the cursor (400, 300): after the second one the point that was under
    the cursor is projected at 399.9999999999999. *)
Lemma wheelStep_zoom_about_cursor_counterexample :
  (let v := Viewport.mk 7 9 3 in
   let v' := Double.wheelStep 1 123 456 v in
   let world := Double.screenToCanvas v 123 456 in
   Double.lit 0.1 <= Viewport.scale v <= 10 /\
   Point.x (Double.worldToScreen v world) == 123 /\
   Point.x (Double.worldToScreen v' world) == Double.lit 122.99999999999999 /\
   ~ Point.equiv (Double.worldToScreen v' world) (Double.worldToScreen v world)) /\
  (let v := Double.wheelStep (-1) 400 300 (Viewport.mk 0 0 1) in
   let v' := Double.wheelStep (-1) 400 300 v in
   let world := Double.screenToCanvas v 400 300 in
   Double.lit 0.1 <= Viewport.scale v <= 10 /\
   Viewport.x v == Double.lit (-40.00000000000006) /\
   Point.x (Double.worldToScreen v world) == 400 /\
   Point.x (Double.worldToScreen v' world) == Double.lit 399.9999999999999 /\
   ~ Point.equiv (Double.worldToScreen v' world) (Double.worldToScreen v world)).
Proof.
  split.
  - split; [split; vm_compute; discriminate |].
    split; [vm_compute; reflexivity |]. split; [vm_compute; reflexivity |].
    intros [H _]. vm_compute in H. discriminate H.
  - split; [split; vm_compute; discriminate |].
    split; [vm_compute; reflexivity |].
    split; [vm_compute; reflexivity |]. split; [vm_compute; reflexivity |].
    intros [H _]. vm_compute in H. discriminate H.
Qed.

(** ** Resize *)

Lemma resizeElement_base (handle : Handle.t) (sb : Bounds.t) (dx dy : Q) (el : Element) :
  base (resizeElement handle sb dx dy el) = base el.
Proof.
  unfold resizeElement, applyResize.
  destruct (geom el); try reflexivity.
  destruct (isCornerHandle handle); reflexivity.
Qed.

Import Double.Notations.
Local Open Scope double_scope.

Lemma ensureMinimumSize_width (handle : Handle.t) (sb nb : Bounds.t) :
  (Bounds.width nb < 10 /\
   Bounds.width (Double.ensureMinimumSize handle sb nb) = 10 /\
   Bounds.x (Double.ensureMinimumSize handle sb nb) =
     if includes_w handle then Bounds.x sb ⊕ Bounds.width sb ⊖ 10 else Bounds.x nb) \/
  (10 <= Bounds.width nb /\
   Bounds.width (Double.ensureMinimumSize handle sb nb) = Bounds.width nb /\
   Bounds.x (Double.ensureMinimumSize handle sb nb) = Bounds.x nb).
Proof.
  unfold Double.ensureMinimumSize, minSize.
  destruct (Qlt_le_dec (Bounds.width nb) 10), (Qlt_le_dec (Bounds.height nb) 10);
    cbn [Bounds.x Bounds.width]; auto.
Qed.

Lemma ensureMinimumSize_height (handle : Handle.t) (sb nb : Bounds.t) :
  (Bounds.height nb < 10 /\
   Bounds.height (Double.ensureMinimumSize handle sb nb) = 10 /\
   Bounds.y (Double.ensureMinimumSize handle sb nb) =
     if includes_n handle then Bounds.y sb ⊕ Bounds.height sb ⊖ 10 else Bounds.y nb) \/
  (10 <= Bounds.height nb /\
   Bounds.height (Double.ensureMinimumSize handle sb nb) = Bounds.height nb /\
   Bounds.y (Double.ensureMinimumSize handle sb nb) = Bounds.y nb).
Proof.
  unfold Double.ensureMinimumSize, minSize.
  destruct (Qlt_le_dec (Bounds.width nb) 10), (Qlt_le_dec (Bounds.height nb) 10);
    cbn [Bounds.y Bounds.height]; auto.
Qed.

Lemma ensureMinimumSize_floor (handle : Handle.t) (sb nb : Bounds.t) :
  10 <= Bounds.width (Double.ensureMinimumSize handle sb nb) /\
  10 <= Bounds.height (Double.ensureMinimumSize handle sb nb).
Proof.
  destruct (ensureMinimumSize_width handle sb nb) as [(_ & -> & _) | (H & -> & _)];
    destruct (ensureMinimumSize_height handle sb nb) as [(_ & -> & _) | (H' & -> & _)];
    split; lra.
Qed.

Lemma ensureMinimumSize_id (handle : Handle.t) (sb nb : Bounds.t) :
  10 <= Bounds.width nb -> 10 <= Bounds.height nb ->
  Double.ensureMinimumSize handle sb nb = nb.
Proof.
  intros Hw Hh. unfold Double.ensureMinimumSize, minSize.
  destruct (Qlt_le_dec (Bounds.width nb) 10); [lra |].
  destruct (Qlt_le_dec (Bounds.height nb) 10); [lra |].
  destruct nb; reflexivity.
Qed.

Lemma resizeElement64_base (handle : Handle.t) (sb : Bounds.t) (dx dy : Q) (el : Element) :
  base (Double.resizeElement handle sb dx dy el) = base el.
Proof.
  unfold Double.resizeElement, Double.applyResize.
  destruct (geom el); try reflexivity.
  destruct (isCornerHandle handle); reflexivity.
Qed.

Lemma handleMouseMove_resize64_self (h : Handle.t) (sb : Bounds.t) (p0 p : Point.t)
    (el : Element) :
  Double.handleMouseMove_resize (mkResizeHandle h (elementId el) sb p0) p [el]
  = [Double.resizeElement h sb (Point.x p ⊖ Point.x p0) (Point.y p ⊖ Point.y p0) el].
Proof.
  unfold Double.handleMouseMove_resize.
  cbn [List.map handle elementId_ startBounds startPoint].
  rewrite String.eqb_refl. reflexivity.
Qed.

(** The side opposite to a moved one, as the sum of the new origin and
    the new dimension. *)
Lemma opposite_side_near (X W d M : Q) :
  1 <= M -> Qabs X <= M -> Qabs W <= M -> Qabs d <= M ->
  near (M * 2 ^ (-50)) ((X ⊕ d) + (W ⊖ d)) (X + W).
Proof.
  intros HM HX HW Hd. unfold Double.add, Double.sub.
  assert (B1 : Qabs (X + d) <= M + M)
    by (eapply Qle_trans; [apply Qabs_triangle | lra]).
  assert (B2 : Qabs (W - d) <= M + M).
  { assert (E : W - d == W + - d) by ring. rewrite E.
    eapply Qle_trans; [apply Qabs_triangle |]. rewrite Qabs_opp. lra. }
  pose proof (near_round _ _ _ _ (near_refl (X + d)) B1) as N1.
  pose proof (near_round _ _ _ _ (near_refl (W - d)) B2) as N2.
  assert (E : X + d + (W - d) == X + W) by ring.
  eapply near_weaken; [exact (near_eq _ _ _ _ (near_add _ _ _ _ _ _ N1 N2) E) |].
  unfold rounded. lra.
Qed.


(** A dimension derived from the other one and the aspect ratio. *)
Lemma derived_height_near (w r : Q) :
  0 < w -> 0 < r ->
  Qabs ((w ⊘ r) * r - w) <= w * 2 ^ (-53) + r * 2 ^ (-1075).
Proof.
  intros Hw Hr. unfold Double.div.
  assert (Hr0 : ~ r == 0) by (intros Z; rewrite Z in Hr; discriminate Hr).
  pose proof (round64_near (w / r)) as N.
  assert (Hq : 0 < w / r) by (apply Qlt_shift_div_l; lra).
  rewrite (Qabs_pos (w / r)) in N by (apply Qlt_le_weak; exact Hq).
  assert (E : Double.round64 (w / r) * r - w == (Double.round64 (w / r) - w / r) * r)
    by (field; exact Hr0).
  rewrite E, Qabs_Qmult, (Qabs_pos r) by (apply Qlt_le_weak; exact Hr).
  apply Qle_trans with ((w / r * 2 ^ (-53) + 2 ^ (-1075)) * r).
  - apply Qmult_le_compat_r; [exact N | apply Qlt_le_weak; exact Hr].
  - assert (E' : (w / r * 2 ^ (-53) + 2 ^ (-1075)) * r
                 == w * 2 ^ (-53) + r * 2 ^ (-1075)) by (field; exact Hr0).
    rewrite E'. apply Qle_refl.
Qed.

Lemma derived_width_near (h r : Q) :
  0 < h -> 0 < r ->
  Qabs (h ⊗ r - h * r) <= h * r * 2 ^ (-53) + 2 ^ (-1075).
Proof.
  intros Hh Hr. unfold Double.mul.
  pose proof (round64_near (h * r)) as N.
  assert (Hq : 0 < h * r) by (apply Qmult_lt_0_compat; assumption).
  rewrite (Qabs_pos (h * r)) in N by (apply Qlt_le_weak; exact Hq).
  exact N.
Qed.

Lemma aspect_ratio_near (W H : Q) :
  0 < W -> 0 < H ->
  Qabs (W ⊘ H - W / H) <= W / H * 2 ^ (-53) + 2 ^ (-1075).
Proof.
  intros HW HH. unfold Double.div.
  pose proof (round64_near (W / H)) as N.
  assert (Hq : 0 < W / H) by (apply Qlt_shift_div_l; lra).
  rewrite (Qabs_pos (W / H)) in N by (apply Qlt_le_weak; exact Hq).
  exact N.
Qed.


Section ResizeProperties.

Variable measureText : string -> Q -> string -> TextSize.t.

Lemma getElementBounds_adopts (handle : Handle.t) (sb : Bounds.t) (dx dy : Q) (el : Element) :
  adoptsBounds handle (geom el) = true ->
  Double.getElementBounds measureText (Double.resizeElement handle sb dx dy el)
  = Some (clampedBounds handle sb dx dy) /\
  geom (Double.resizeElement handle sb dx dy el)
  = setBox (clampedBounds handle sb dx dy) (geom el).
Proof.
  intros H. unfold Double.resizeElement, Double.applyResize, clampedBounds.
  set (nb := Double.ensureMinimumSize _ _ _).
  destruct (geom el); try discriminate H.
  - destruct nb; split; reflexivity.
  - destruct nb; split; reflexivity.
  - destruct nb; split; reflexivity.
  - cbn [adoptsBounds] in H. apply negb_true_iff in H. rewrite H.
    destruct nb; split; reflexivity.
Qed.

(** C5 (amended).  The bounds computed from the dragged handle, every
    operation rounded to a double: a corner handle changes width and
    height by the cursor delta, an edge handle changes only the dimension
    across that edge.  The sides the handle does not touch keep their
    coordinates as they are; a side opposite to a moved one (the right
    side under [nw], [w], [sw], the bottom under [nw], [n], [ne]) is the
    sum of the moved origin and the changed dimension, which is where it
    was whenever these two were computed without rounding, and within
    [M * 2 ^ (-50)] of where it was in any case, [M] (between 1 and
    [2 ^ 1000]) bounding the magnitudes of the start's origin and
    dimension and of the delta.
    When neither
    dimension falls under the minimum, a Rectangle, Ellipse or Diamond
    (and an Image dragged by an edge) takes exactly these bounds.  The
    Rectangle (0, 0, 100, 50) dragged by its [se] handle by (+20, +20)
    becomes (0, 0, 120, 70). *)
Theorem resize_handle_policy :
  (forall (sb : Bounds.t) (dx dy : Q),
     let X := Bounds.x sb in
     let Y := Bounds.y sb in
     let W := Bounds.width sb in
     let H := Bounds.height sb in
     let nb h := Double.handleBounds h sb dx dy in
     (Bounds.width (nb Handle.se) = W ⊕ dx /\ Bounds.height (nb Handle.se) = H ⊕ dy /\
      Bounds.x (nb Handle.se) = X /\ Bounds.y (nb Handle.se) = Y) /\
     (Bounds.width (nb Handle.nw) = W ⊖ dx /\ Bounds.height (nb Handle.nw) = H ⊖ dy /\
      Bounds.x (nb Handle.nw) = X ⊕ dx /\ Bounds.y (nb Handle.nw) = Y ⊕ dy) /\
     (Bounds.width (nb Handle.ne) = W ⊕ dx /\ Bounds.height (nb Handle.ne) = H ⊖ dy /\
      Bounds.x (nb Handle.ne) = X /\ Bounds.y (nb Handle.ne) = Y ⊕ dy) /\
     (Bounds.width (nb Handle.sw) = W ⊖ dx /\ Bounds.height (nb Handle.sw) = H ⊕ dy /\
      Bounds.x (nb Handle.sw) = X ⊕ dx /\ Bounds.y (nb Handle.sw) = Y) /\
     (Bounds.width (nb Handle.n) = W /\ Bounds.height (nb Handle.n) = H ⊖ dy /\
      Bounds.x (nb Handle.n) = X /\ Bounds.y (nb Handle.n) = Y ⊕ dy) /\
     (Bounds.width (nb Handle.s) = W /\ Bounds.height (nb Handle.s) = H ⊕ dy /\
      Bounds.x (nb Handle.s) = X /\ Bounds.y (nb Handle.s) = Y) /\
     (Bounds.width (nb Handle.e) = W ⊕ dx /\ Bounds.height (nb Handle.e) = H /\
      Bounds.x (nb Handle.e) = X /\ Bounds.y (nb Handle.e) = Y) /\
     (Bounds.width (nb Handle.w) = W ⊖ dx /\ Bounds.height (nb Handle.w) = H /\
      Bounds.x (nb Handle.w) = X ⊕ dx /\ Bounds.y (nb Handle.w) = Y) /\
     (forall h, includes_w h = true ->
        representable (X + dx) -> representable (W - dx) ->
        Bounds.x (nb h) + Bounds.width (nb h) == X + W) /\
     (forall h, includes_n h = true ->
        representable (Y + dy) -> representable (H - dy) ->
        Bounds.y (nb h) + Bounds.height (nb h) == Y + H) /\
     (forall h M, includes_w h = true ->
        1 <= M -> M <= 2 ^ 1000 ->
        Qabs X <= M -> Qabs W <= M -> Qabs dx <= M ->
        Qabs (Bounds.x (nb h) + Bounds.width (nb h) - (X + W)) <= M * 2 ^ (-50)) /\
     (forall h M, includes_n h = true ->
        1 <= M -> M <= 2 ^ 1000 ->
        Qabs Y <= M -> Qabs H <= M -> Qabs dy <= M ->
        Qabs (Bounds.y (nb h) + Bounds.height (nb h) - (Y + H)) <= M * 2 ^ (-50)) /\
     (forall (h : Handle.t) (el : Element),
        adoptsBounds h (geom el) = true ->
        10 <= Bounds.width (nb h) -> 10 <= Bounds.height (nb h) ->
        geom (Double.resizeElement h sb dx dy el) = setBox (nb h) (geom el) /\
        base (Double.resizeElement h sb dx dy el) = base el /\
        Double.getElementBounds measureText (Double.resizeElement h sb dx dy el)
        = Some (nb h))) /\
  (forall (b : CanvasElement),
     let rect := mkElement b (rectangle 0 0 100 50) in
     exists sb,
       Double.getElementBounds measureText rect = Some sb /\
       Double.handleMouseMove_resize
         (mkResizeHandle Handle.se (id b) sb (Point.mk 100 50)) (Point.mk 120 70) [rect]
       = [mkElement b (rectangle 0 0 120 70)]).
Proof.
  split.
  - intros sb dx dy X Y W H nb. subst X Y W H nb.
    cbn [Double.handleBounds Bounds.x Bounds.y Bounds.width Bounds.height].
    repeat (split; [repeat split; reflexivity |]).
    split; [| split; [| split; [| split]]].
    + intros h Hw Rx Rw.
      assert (Ex : Bounds.x sb ⊕ dx == Bounds.x sb + dx)
        by (apply add_exact; [reflexivity | exact Rx]).
      assert (Ew : Bounds.width sb ⊖ dx == Bounds.width sb - dx)
        by (apply sub_exact; [reflexivity | exact Rw]).
      destruct h; try discriminate Hw;
        cbn [Double.handleBounds Bounds.x Bounds.width]; rewrite Ex, Ew; ring.
    + intros h Hn Ry Rh.
      assert (Ey : Bounds.y sb ⊕ dy == Bounds.y sb + dy)
        by (apply add_exact; [reflexivity | exact Ry]).
      assert (Eh : Bounds.height sb ⊖ dy == Bounds.height sb - dy)
        by (apply sub_exact; [reflexivity | exact Rh]).
      destruct h; try discriminate Hn;
        cbn [Double.handleBounds Bounds.y Bounds.height]; rewrite Ey, Eh; ring.
    + intros h M Hw HM _ BX BW Bd.
      pose proof (opposite_side_near _ _ _ _ HM BX BW Bd) as N.
      destruct h; try discriminate Hw; exact N.
    + intros h M Hn HM _ BY BH Bd.
      pose proof (opposite_side_near _ _ _ _ HM BY BH Bd) as N.
      destruct h; try discriminate Hn; exact N.
    + intros h el Ha Hw Hh.
      destruct (getElementBounds_adopts h sb dx dy el Ha) as [Hb Hg].
      unfold clampedBounds in Hb, Hg.
      rewrite ensureMinimumSize_id in Hb, Hg by assumption.
      split; [exact Hg |]. split; [apply resizeElement64_base | exact Hb].
  - intros b rect. exists (Bounds.mk 0 0 100 50). split; [reflexivity |].
    change (id b) with (elementId rect). rewrite handleMouseMove_resize64_self.
    vm_compute. reflexivity.
Qed.


Lemma image_se_scenario (b : CanvasElement) (src : string) (data : option nat) :
  let img := mkElement b (image 0 0 200 100 src data) in
  exists sb0 w' h',
    Double.getElementBounds measureText img = Some sb0 /\
    List.map geom
      (Double.handleMouseMove_resize
         (mkResizeHandle Handle.se (id b) sb0 (Point.mk 200 100)) (Point.mk 210 200) [img])
    = [image 0 0 w' h' src data] /\
    w' == 400 /\ h' == 200.
Proof.
  intros img. exists (Bounds.mk 0 0 200 100).
  change (id b) with (elementId img). rewrite handleMouseMove_resize64_self.
  eexists. eexists. split; [reflexivity |]. split.
  - vm_compute. reflexivity.
  - split; reflexivity.
Qed.

(** C3 (amended).  An Image dragged by a corner handle, from start bounds
    of positive width, height and ratio, every operation rounded to a
    double: the dimension whose change against the start
    bounds (in absolute value, after the minimum-size clamp) is larger
    keeps its clamped value, the height on a tie, and the other one is
    derived from the aspect ratio of the start bounds, as
    [width / ratio] or [height * ratio]; the position is recomputed from
    the start's right side under [nw] and [sw] and from its bottom under
    [nw] and [ne], and is the start's otherwise.  The resulting width to
    height ratio is the one of the start bounds whenever the ratio and
    the derived dimension are computed without rounding; in any case the
    computed ratio is within one rounding of the start's width over its
    height, and the derived dimension within one rounding of the quotient
    or product it stands for.  Dragged by an
    edge handle, the Image takes the clamped bounds as they are.  The
    Image 200 x 100 dragged by [se] by (+10, +100) becomes 400 x 200. *)
Theorem image_corner_resize_locks_aspect
    (h : Handle.t) (sb : Bounds.t) (dx dy : Q)
    (b : CanvasElement) (x y width height : Q) (src : string) (data : option nat) :
  0 < Bounds.width sb -> 0 < Bounds.height sb ->
  0 < Bounds.width sb ⊘ Bounds.height sb ->
  let X := Bounds.x sb in
  let Y := Bounds.y sb in
  let W := Bounds.width sb in
  let H := Bounds.height sb in
  let el' := Double.resizeElement h sb dx dy (mkElement b (image x y width height src data)) in
  let nb := clampedBounds h sb dx dy in
  let widthChange := Qabs (Bounds.width nb ⊖ W) in
  let heightChange := Qabs (Bounds.height nb ⊖ H) in
  (isCornerHandle h = true ->
   exists fb,
     geom el' = image (Bounds.x fb) (Bounds.y fb) (Bounds.width fb) (Bounds.height fb)
                      src data /\
     base el' = b /\
     (heightChange < widthChange ->
      Bounds.width fb = Bounds.width nb /\
      Bounds.height fb = Bounds.width nb ⊘ (W ⊘ H)) /\
     (widthChange <= heightChange ->
      Bounds.height fb = Bounds.height nb /\
      Bounds.width fb = Bounds.height nb ⊗ (W ⊘ H)) /\
     match h with
     | Handle.nw =>
         Bounds.x fb = X ⊕ W ⊖ Bounds.width fb /\ Bounds.y fb = Y ⊕ H ⊖ Bounds.height fb
     | Handle.ne => Bounds.x fb = X /\ Bounds.y fb = Y ⊕ H ⊖ Bounds.height fb
     | Handle.sw => Bounds.x fb = X ⊕ W ⊖ Bounds.width fb /\ Bounds.y fb = Y
     | _ => Bounds.x fb = X /\ Bounds.y fb = Y
     end /\
     (representable (W / H) ->
      representable (Bounds.width nb / (W / H)) ->
      representable (Bounds.height nb * (W / H)) ->
      0 < Bounds.height fb /\
      Bounds.width fb / Bounds.height fb == W / H) /\
     Qabs (W ⊘ H - W / H) <= W / H * 2 ^ (-53) + 2 ^ (-1075) /\
     (heightChange < widthChange ->
      Qabs (Bounds.height fb * (W ⊘ H) - Bounds.width fb)
      <= Bounds.width fb * 2 ^ (-53) + (W ⊘ H) * 2 ^ (-1075)) /\
     (widthChange <= heightChange ->
      Qabs (Bounds.width fb - Bounds.height fb * (W ⊘ H))
      <= Bounds.height fb * (W ⊘ H) * 2 ^ (-53) + 2 ^ (-1075))) /\
  (isCornerHandle h = false ->
   geom el' = image (Bounds.x nb) (Bounds.y nb) (Bounds.width nb) (Bounds.height nb)
                    src data) /\
  (let img := mkElement b (image 0 0 200 100 src data) in
   exists sb0 w' h',
     Double.getElementBounds measureText img = Some sb0 /\
     List.map geom
       (Double.handleMouseMove_resize
          (mkResizeHandle Handle.se (id b) sb0 (Point.mk 200 100)) (Point.mk 210 200) [img])
     = [image 0 0 w' h' src data] /\
     w' == 400 /\ h' == 200).
Proof.
  intros Hw Hh Hr X Y W H el' nb widthChange heightChange. subst X Y W H.
  destruct (ensureMinimumSize_floor h sb (Double.handleBounds h sb dx dy)) as [Fw Fh].
  pose proof (ensureMinimumSize_width h sb (Double.handleBounds h sb dx dy)) as Cw.
  pose proof (ensureMinimumSize_height h sb (Double.handleBounds h sb dx dy)) as Ch.
  change (Double.ensureMinimumSize h sb (Double.handleBounds h sb dx dy))
    with nb in Fw, Fh, Cw, Ch.
  split; [| split].
  - intros Hc. exists (Double.lockAspect h sb nb).
    split.
    { subst el'. unfold Double.resizeElement, Double.applyResize.
      cbn [geom]. rewrite Hc. reflexivity. }
    split; [apply resizeElement64_base |].
    unfold Double.lockAspect. fold widthChange heightChange.
    destruct (Qlt_le_dec heightChange widthChange) as [Hd | Hd].
    + split; [intros _; destruct h; split; reflexivity |].
      split; [intros Hle; lra |].
      split.
      { destruct h; try discriminate Hc; cbn [Bounds.x Bounds.y Bounds.width Bounds.height];
          repeat split; try reflexivity;
          cbn [includes_w includes_n] in Cw, Ch;
          [destruct Cw as [(_ & _ & E) | (_ & _ & E)]
          | destruct Cw as [(_ & _ & E) | (_ & _ & E)]
          | destruct Ch as [(_ & _ & E) | (_ & _ & E)]
          | destruct Ch as [(_ & _ & E) | (_ & _ & E)]];
          rewrite E; reflexivity. }
      split.
      { intros Ra Rw Rh.
      assert (Hnw : ~ Bounds.width sb == 0) by lra. assert (Hnh : ~ Bounds.height sb == 0) by lra.
      assert (E : Bounds.width nb ⊘ (Bounds.width sb ⊘ Bounds.height sb) == Bounds.width nb / (Bounds.width sb / Bounds.height sb)).
      { rewrite (div_exact (Bounds.width sb) (Bounds.height sb) (Bounds.width sb / Bounds.height sb)) by (try reflexivity; exact Ra).
        apply div_exact; [reflexivity | exact Rw]. }
      assert (Hpos : 0 < Bounds.width nb / (Bounds.width sb / Bounds.height sb)).
      { apply Qlt_shift_div_l; [apply Qlt_shift_div_l; lra | lra]. }
      split; [destruct h; cbn [Bounds.height]; rewrite E; exact Hpos |].
      destruct h; cbn [Bounds.width Bounds.height]; rewrite E; field;
        repeat split; try assumption; lra.
      }
      split; [apply aspect_ratio_near; assumption |].
      split; [| intros Hle; lra].
      intros _.
      assert (N : Qabs ((Bounds.width nb ⊘ (Bounds.width sb ⊘ Bounds.height sb))
                        * (Bounds.width sb ⊘ Bounds.height sb) - Bounds.width nb)
                  <= Bounds.width nb * 2 ^ (-53)
                     + (Bounds.width sb ⊘ Bounds.height sb) * 2 ^ (-1075))
        by (apply derived_height_near; [lra | exact Hr]).
      destruct h; exact N.
    + split; [intros Hlt; lra |].
      split; [intros _; destruct h; split; reflexivity |].
      split.
      { destruct h; try discriminate Hc; cbn [Bounds.x Bounds.y Bounds.width Bounds.height];
          repeat split; try reflexivity;
          cbn [includes_w includes_n] in Cw, Ch;
          [destruct Cw as [(_ & _ & E) | (_ & _ & E)]
          | destruct Cw as [(_ & _ & E) | (_ & _ & E)]
          | destruct Ch as [(_ & _ & E) | (_ & _ & E)]
          | destruct Ch as [(_ & _ & E) | (_ & _ & E)]];
          rewrite E; reflexivity. }
      split.
      { intros Ra Rw Rh.
      assert (Hnw : ~ Bounds.width sb == 0) by lra. assert (Hnh : ~ Bounds.height sb == 0) by lra.
      assert (E : Bounds.height nb ⊗ (Bounds.width sb ⊘ Bounds.height sb) == Bounds.height nb * (Bounds.width sb / Bounds.height sb)).
      { rewrite (div_exact (Bounds.width sb) (Bounds.height sb) (Bounds.width sb / Bounds.height sb)) by (try reflexivity; exact Ra).
        apply mul_exact; [reflexivity | exact Rh]. }
      split; [destruct h; cbn [Bounds.height]; lra |].
      destruct h; cbn [Bounds.width Bounds.height]; rewrite E; field;
        repeat split; try assumption; lra.
      }
      split; [apply aspect_ratio_near; assumption |].
      split; [intros Hlt; lra |].
      intros _.
      assert (N : Qabs (Bounds.height nb ⊗ (Bounds.width sb ⊘ Bounds.height sb)
                        - Bounds.height nb * (Bounds.width sb ⊘ Bounds.height sb))
                  <= Bounds.height nb * (Bounds.width sb ⊘ Bounds.height sb) * 2 ^ (-53)
                     + 2 ^ (-1075))
        by (apply derived_width_near; [lra | exact Hr]).
      destruct h; exact N.
  - intros Hc. subst el'. unfold Double.resizeElement, Double.applyResize.
    cbn [geom]. rewrite Hc. reflexivity.
  - apply image_se_scenario.
Qed.

End ResizeProperties.

Lemma resize_handle_policy_witness :
  let sb := Bounds.mk 5 5 100 50 in
  let nb := Double.handleBounds Handle.nw sb 20 (-10) in
  geom (Double.resizeElement Handle.nw sb 20 (-10) (mkElement sampleBase (ellipse 5 5 100 50)))
  = setBox nb (ellipse 5 5 100 50) /\
  Bounds.x nb + Bounds.width nb == 5 + 100 /\
  Qabs (Bounds.x nb + Bounds.width nb - (5 + 100)) <= 100 * 2 ^ (-50).
Proof.
  intros sb nb.
  destruct (resize_handle_policy sampleMeasure) as [H _].
  specialize (H sb 20 (-10)).
  destruct H as (_ & _ & _ & _ & _ & _ & _ & _ & Hx & _ & Bx & _ & H).
  split; [| split; [| apply (Bx Handle.nw 100); try reflexivity; vm_compute; discriminate]].
  - apply (H Handle.nw (mkElement sampleBase (ellipse 5 5 100 50))).
    + reflexivity.
    + vm_compute. discriminate.
    + vm_compute. discriminate.
  - apply (Hx Handle.nw).
    + reflexivity.
    + split; vm_compute; [reflexivity | discriminate].
    + split; vm_compute; [reflexivity | discriminate].
Defined.

(** C5, as stated, fails on doubles.  The Rectangle (0.1, 0, 50.5, 40)
    dragged by its [nw] handle by (1.7, 0) becomes (1.8, 0, 48.8, 40): its
    right side, the side of the opposite corner, was at 0.1 + 50.5 and is
    at 1.8 + 48.8, which is less; computed by the program, 50.6 before
    and 50.599999999999994 after. *)
Lemma resize_handle_policy_counterexample :
  let sb := Bounds.mk (Double.lit 0.1) 0 50.5 40 in
  let rect := mkElement sampleBase (rectangle (Double.lit 0.1) 0 50.5 40) in
  Double.getElementBounds sampleMeasure rect = Some sb /\
  exists x' w',
    geom (Double.resizeElement Handle.nw sb (Double.lit 1.7) 0 rect)
    = rectangle x' 0 w' 40 /\
    x' == Double.lit 1.8 /\ w' == Double.lit 48.8 /\
    x' + w' < Bounds.x sb + Bounds.width sb /\
    Bounds.x sb ⊕ Bounds.width sb == Double.lit 50.6 /\
    x' ⊕ w' == Double.lit 50.599999999999994.
Proof.
  split; [reflexivity |].
  eexists. eexists. split; [vm_compute; reflexivity |].
  split; [vm_compute; reflexivity |]. split; [vm_compute; reflexivity |].
  split; [vm_compute; reflexivity |]. split; vm_compute; reflexivity.
Qed.



Lemma image_corner_resize_locks_aspect_witness :
  exists fb,
    geom (Double.resizeElement Handle.nw (Bounds.mk 0 0 200 100) (-40) (-10)
            (mkElement sampleBase (image 0 0 200 100 "data:image/png" None)))
    = image (Bounds.x fb) (Bounds.y fb) (Bounds.width fb) (Bounds.height fb)
            "data:image/png" None /\
    Bounds.width fb / Bounds.height fb == 200 / 100.
Proof.
  destruct (image_corner_resize_locks_aspect sampleMeasure Handle.nw
              (Bounds.mk 0 0 200 100) (-40) (-10) sampleBase 0 0 200 100
              "data:image/png" None) as [H _].
  - reflexivity.
  - reflexivity.
  - vm_compute. reflexivity.
  - destruct (H eq_refl) as (fb & Hg & _ & _ & _ & _ & Hr & _).
    exists fb. split; [exact Hg |].
    apply Hr.
    + split; vm_compute; [reflexivity | discriminate].
    + split; vm_compute; [reflexivity | discriminate].
    + split; vm_compute; [reflexivity | discriminate].
Defined.

(** C3, as stated, fails on doubles.  An Image 100 x 240 dragged by [se]
    by (+7, +1): the width changes more and drives, and the derived
    height is 107 / (100 / 240), which rounds to 256.80000000000001.  The
    ratio of the result is not the ratio of the start; computed by the
    program, 0.41666666666666663 against 0.4166666666666667. *)
Lemma image_corner_resize_locks_aspect_counterexample :
  let sb := Bounds.mk 0 0 100 240 in
  let img := mkElement sampleBase (image 0 0 100 240 "data:image/png" None) in
  Double.getElementBounds sampleMeasure img = Some sb /\
  exists w' h',
    geom (Double.resizeElement Handle.se sb 7 1 img)
    = image 0 0 w' h' "data:image/png" None /\
    w' == 107 /\ h' == Double.lit 256.8 /\
    ~ w' / h' == 100 / 240 /\
    w' ⊘ h' == Double.lit 0.41666666666666663 /\
    100 ⊘ 240 == Double.lit 0.4166666666666667.
Proof.
  split; [reflexivity |].
  eexists. eexists. split; [vm_compute; reflexivity |].
  split; [vm_compute; reflexivity |]. split; [vm_compute; reflexivity |].
  split; [intros H; vm_compute in H; discriminate H |].
  split; vm_compute; reflexivity.
Qed.


(** ** Bounds *)

Section BoundsProperties.

Variable measureText : string -> Q -> string -> TextSize.t.

(** A Line or an Arrow has normalized bounds: the minimum corner and
    non-negative extents. *)
Lemma getElementBounds_segment_normalized (b : CanvasElement) (x1 y1 x2 y2 : Q) (g : Geometry) :
  g = line x1 y1 x2 y2 \/ g = arrow x1 y1 x2 y2 ->
  exists bb,
    getElementBounds measureText (mkElement b g) = Some bb /\
    0 <= Bounds.width bb /\ 0 <= Bounds.height bb /\
    Bounds.x bb == Qmin x1 x2 /\ Bounds.y bb == Qmin y1 y2.
Proof.
  intros [-> | ->]; eexists; (split; [reflexivity |]); fields;
    repeat split; try apply Qabs_nonneg; reflexivity.
Qed.

(** A Rectangle, Ellipse, Diamond or Image gives back its stored fields,
    whatever their sign. *)
Lemma getElementBounds_box (el : Element) (bb : Bounds.t) :
  boxOf (geom el) = Some bb ->
  getElementBounds measureText el = Some bb.
Proof.
  unfold getElementBounds. destruct (geom el); simpl; congruence.
Qed.

End BoundsProperties.

(** C7, on the code.  A Rectangle drawn from (100, 100) to (50, 70) is
    committed with width -50 and height -30; [getElementBounds] returns
    these signed values with (100, 100) as origin instead of the box
    (50, 70, 50, 30), and no point, not even its centre, is inside it for
    [isPointInElement]. *)
Theorem getElementBounds_rectangle_not_normalized :
  let draft := mkElement sampleBase (rectangle 100 100 (-50) (-30)) in
  (exists d0, handleMouseDown_draw Tool.rectangle sampleBase (Point.mk 100 100) = Some d0 /\
              handleMouseMove_draw (Point.mk 50 70) d0 = Some draft /\
              handleMouseUp_draw draft [] = [draft]) /\
  (exists bb, getElementBounds sampleMeasure draft = Some bb /\
              bb = Bounds.mk 100 100 (-50) (-30) /\
              Bounds.width bb < 0 /\ Bounds.height bb < 0 /\
              ~ Bounds.x bb == 50 /\ ~ Bounds.y bb == 70) /\
  isPointInElement sampleMeasure (Point.mk 75 85) draft = false /\
  (forall p, isPointInElement sampleMeasure p draft = false).
Proof.
  intros draft. split.
  { eexists. split; [reflexivity |]. split; [vm_compute; reflexivity | reflexivity]. }
  split; [| split].
  - exists (Bounds.mk 100 100 (-50) (-30)). fields.
    repeat split; try reflexivity; intros H; discriminate H.
  - vm_compute. reflexivity.
  - intros p. unfold isPointInElement.
    change (getElementBounds sampleMeasure draft)
      with (Some (Bounds.mk 100 100 (-50) (-30))).
    fields.
    destruct (Qle_bool 100 (Point.x p)) eqn:E1; [| reflexivity].
    destruct (Qle_bool (Point.x p) (100 + -50)) eqn:E2; [| reflexivity].
    apply Qle_bool_iff in E1, E2. exfalso.
    assert (H : 100 + -50 == 50) by reflexivity. rewrite H in E2. lra.
Qed.

(** ** Marquee selection *)

Section MarqueeProperties.

Variable measureText : string -> Q -> string -> TextSize.t.

Lemma handleMouseUp_selectionBox_elem (box : SelectionBox) (elements : list Element) (i : string) :
  i ∈ handleMouseUp_selectionBox measureText box elements <->
  exists el bb,
    In el elements /\ elementId el = i /\
    getElementBounds measureText el = Some bb /\
    insideSelection
      (Qmin (Point.x (start box)) (Point.x (end_ box)))
      (Qmax (Point.x (start box)) (Point.x (end_ box)))
      (Qmin (Point.y (start box)) (Point.y (end_ box)))
      (Qmax (Point.y (start box)) (Point.y (end_ box))) bb = true.
Proof.
  unfold handleMouseUp_selectionBox. rewrite elem_of_list_to_set, list_elem_of_In, in_map_iff.
  split.
  - intros (el & Hid & Hin). apply filter_In in Hin as [Hin Hf].
    destruct (getElementBounds measureText el) as [bb |] eqn:Hb; [| discriminate].
    exists el, bb. auto.
  - intros (el & bb & Hin & Hid & Hb & Hf). exists el. split; [exact Hid |].
    apply filter_In. split; [exact Hin |]. rewrite Hb. exact Hf.
Qed.


End MarqueeProperties.

(** C4, on the code.  A Rectangle drawn from x = 200 leftwards to x = 100
    (width -100) covers the abscissas 100 to 200 and so crosses the right
    edge (x = 150) of the marquee from (0, 0) to (150, 50); the marquee
    selects it all the same. *)
Theorem handleMouseUp_selectionBox_selects_crossing_rectangle :
  let el := mkElement sampleBase (rectangle 200 10 (-100) 20) in
  let box := mkSelectionBox (Point.mk 0 0) (Point.mk 150 50) in
  elementId el ∈ handleMouseUp_selectionBox sampleMeasure box [el] /\
  (exists bb p, getElementBounds sampleMeasure el = Some bb /\
                covers bb p /\ ~ inMarquee box p).
Proof.
  intros el box. split.
  - apply handleMouseUp_selectionBox_elem. exists el, (Bounds.mk 200 10 (-100) 20).
    split; [left; reflexivity |]. split; [reflexivity |].
    split; [reflexivity |]. vm_compute. reflexivity.
  - exists (Bounds.mk 200 10 (-100) 20), (Point.mk 200 10).
    split; [reflexivity |]. split.
    + unfold covers. fields. repeat split; vm_compute; discriminate.
    + unfold inMarquee. fields. intros (_ & H & _). vm_compute in H. apply H. reflexivity.
Qed.

(** ** Moving the selection *)






(** ** Duplicate and paste *)

(** For the variants that store an origin or two endpoints, the clone has
    these positions offset by (20, 20) and its other declared fields
    copied. *)
Lemma cloneElement_geometry (newId : string) (el : Element) :
  elementId (cloneElement newId el) = newId /\
  geom (cloneElement newId el) = offsetGeometry (geom el) /\
  (forall points, geom el = path points -> geom (cloneElement newId el) = path points).
Proof.
  split; [reflexivity |]. split; [reflexivity |].
  intros points H. unfold cloneElement. cbn [geom]. rewrite H. reflexivity.
Qed.

(** A key that the variant does not declare is present in the clone. *)
Lemma cloneKey_lookup (g : Geometry) (k : string) (m : gmap string JsExtra) :
  declares g k = false ->
  cloneKey g k m !! k =
    Some (match m !! k with Some v => plus20 v | None => JsUndefined end).
Proof.
  intros H. unfold cloneKey. rewrite H. apply lookup_insert_eq.
Qed.

(** C6, on the code.  A pen stroke that is the whole selection is
    duplicated (and pasted) with its points where they were: the clone
    lies exactly on the original.  The clone also owns the keys [x], [y],
    [startX], [startY], [endX], [endY], holding [undefined], which the
    stroke did not have. *)
Theorem handleKeyDown_duplicate_path_not_offset (freshId : nat -> string) :
  let stroke := mkElement sampleBase (path [Point.mk 0 0; Point.mk 30 40]) in
  exists clone,
    handleKeyDown_duplicate freshId {[ elementId stroke ]} [stroke] [stroke]
    = [stroke; clone] /\
    handleKeyDown_paste freshId [stroke] [stroke] = [stroke; clone] /\
    elementId clone = freshId 0%nat /\
    geom clone = path [Point.mk 0 0; Point.mk 30 40] /\
    geom clone = geom stroke /\
    Forall (fun k => extra (base stroke) !! k = None /\
                     extra (base clone) !! k = Some JsUndefined)
           positionalKeys.
Proof.
  intros stroke. exists (cloneElement (freshId 0%nat) stroke).
  split.
  { unfold handleKeyDown_duplicate.
    rewrite bool_decide_eq_true_2 by apply non_empty_singleton_L.
    cbn [List.filter]. rewrite bool_decide_eq_true_2 by set_solver.
    reflexivity. }
  split; [reflexivity |]. split; [reflexivity |].
  split; [reflexivity |]. split; [reflexivity |].
  unfold positionalKeys. repeat constructor; vm_compute; reflexivity.
Qed.

(** ** History persistence *)

Section HistoryProperties.

Variable refuses : gmap string StorageValue -> string -> StorageValue -> option StorageError.

(** Two writes in a row, first the history then the index. *)
Lemma two_writes (st : gmap string StorageValue) (v1 v2 : StorageValue) :
  match andThen (setItem refuses st "canvasHistory" v1)
                (fun st1 => setItem refuses st1 "canvasHistoryIndex" v2) with
  | inl st2 => st2 = <["canvasHistoryIndex" := v2]> (<["canvasHistory" := v1]> st)
  | inr (st1, _) => st1 = st \/ st1 = <["canvasHistory" := v1]> st
  end.
Proof.
  unfold andThen, setItem.
  destruct (refuses st "canvasHistory" v1); [left; reflexivity |].
  destruct (refuses (<["canvasHistory" := v1]> st) "canvasHistoryIndex" v2);
    [right; reflexivity | reflexivity].
Qed.

Lemma two_writes_frame (st : gmap string StorageValue) (v1 v2 : StorageValue) (k : string) :
  k <> "canvasHistory"%string -> k <> "canvasHistoryIndex"%string ->
  match andThen (setItem refuses st "canvasHistory" v1)
                (fun st1 => setItem refuses st1 "canvasHistoryIndex" v2) with
  | inl st2 => st2 !! k = st !! k
  | inr (st1, _) => st1 !! k = st !! k
  end.
Proof.
  intros H1 H2. pose proof (two_writes st v1 v2) as H.
  destruct (andThen _ _) as [st2 | [st1 err]].
  - subst st2. rewrite !lookup_insert_ne by congruence. reflexivity.
  - destruct H as [-> | ->]; [reflexivity |].
    rewrite lookup_insert_ne by congruence. reflexivity.
Qed.

Lemma saveHistory_frame (st : gmap string StorageValue)
    (history : list Snapshot) (historyIndex : Z) (k : string) :
  k <> "canvasHistory"%string -> k <> "canvasHistoryIndex"%string ->
  saveHistory refuses st history historyIndex !! k = st !! k.
Proof.
  intros H1 H2. unfold saveHistory, storeLimited.
  pose proof (two_writes_frame st (VHistory (limitHistory history))
                (VIndex (adjustIndex history historyIndex)) k H1 H2) as F.
  destruct (andThen _ _) as [st2 | [st1 err]]; [exact F |].
  destruct err; [| exact F].
  unfold onStoreError, storeCurrentOnly.
  pose proof (two_writes_frame st1
                (VHistory [currentSnapshot history historyIndex]) (VIndex 0) k H1 H2) as G.
  destruct (andThen _ _) as [st3 | [st3 err]].
  - rewrite G. exact F.
  - unfold removeItem. rewrite !lookup_delete_ne by congruence.
    rewrite G. exact F.
Qed.

Lemma removed_both (st0 st1 : gmap string StorageValue) :
  (forall k, k <> "canvasHistory"%string -> k <> "canvasHistoryIndex"%string ->
             st1 !! k = st0 !! k) ->
  removeItem (removeItem st1 "canvasHistory") "canvasHistoryIndex"
  = delete "canvasHistoryIndex" (delete "canvasHistory" st0).
Proof.
  intros F. unfold removeItem. apply map_eq. intros k.
  destruct (decide (k = "canvasHistoryIndex"%string)) as [-> | N2];
    [rewrite !lookup_delete_eq; reflexivity |].
  rewrite !(lookup_delete_ne _ "canvasHistoryIndex") by congruence.
  destruct (decide (k = "canvasHistory"%string)) as [-> | N1];
    [rewrite !lookup_delete_eq; reflexivity |].
  rewrite !(lookup_delete_ne _ "canvasHistory") by congruence.
  apply F; assumption.
Qed.

(** C9.  One run of the save effect, on a store that answers each write
    through [refuses].  The history offered is the last 50 snapshots,
    the whole history when it has no more, with the index lowered to the
    last of them if need be.  When the store accepts both writes it holds
    that history and that index.  When it refuses one of them for quota,
    the current snapshot alone is offered with index 0, and if the store
    refuses that too, both history keys are removed.  A refusal for
    another reason ends the effect with the store as the writes so far
    left it.  In every branch all other keys, [canvasElements] among
    them, hold what they held. *)
Theorem saveHistory_fallback_chain (st : gmap string StorageValue)
    (history : list Snapshot) (historyIndex : Z) :
  let st' := saveHistory refuses st history historyIndex in
  let limited := drop (length history - 50) history in
  let adjusted := Z.min historyIndex (Z.of_nat (length limited) - 1) in
  let current : Snapshot :=
    if (historyIndex <? 0)%Z then []
    else default [] (history !! Z.to_nat historyIndex) in
  let st1 := <["canvasHistory" := VHistory limited]> st in
  (length limited = Nat.min 50 (length history) /\
   (exists older, history = older ++ limited) /\
   ((length history <= 50)%nat -> limited = history)) /\
  (forall k, k <> "canvasHistory"%string -> k <> "canvasHistoryIndex"%string ->
             st' !! k = st !! k) /\
  st' !! "canvasElements" = st !! "canvasElements" /\
  (refuses st "canvasHistory" (VHistory limited) = None ->
   refuses st1 "canvasHistoryIndex" (VIndex adjusted) = None ->
   st' = <["canvasHistoryIndex" := VIndex adjusted]> st1) /\
  (refuses st "canvasHistory" (VHistory limited) = Some OtherError -> st' = st) /\
  (refuses st "canvasHistory" (VHistory limited) = None ->
   refuses st1 "canvasHistoryIndex" (VIndex adjusted) = Some OtherError ->
   st' = st1) /\
  (forall st2,
     (refuses st "canvasHistory" (VHistory limited) = Some QuotaExceededError /\
      st2 = st) \/
     (refuses st "canvasHistory" (VHistory limited) = None /\
      refuses st1 "canvasHistoryIndex" (VIndex adjusted) = Some QuotaExceededError /\
      st2 = st1) ->
     let st3 := <["canvasHistory" := VHistory [current]]> st2 in
     (refuses st2 "canvasHistory" (VHistory [current]) = None ->
      refuses st3 "canvasHistoryIndex" (VIndex 0) = None ->
      st' = <["canvasHistoryIndex" := VIndex 0]> st3) /\
     (refuses st2 "canvasHistory" (VHistory [current]) <> None \/
      (refuses st2 "canvasHistory" (VHistory [current]) = None /\
       refuses st3 "canvasHistoryIndex" (VIndex 0) <> None) ->
      st' = delete "canvasHistoryIndex" (delete "canvasHistory" st))).
Proof.
  intros st' limited adjusted current st1.
  assert (Ec : currentSnapshot history historyIndex = current).
  { subst current. unfold currentSnapshot.
    destruct (historyIndex <? 0)%Z; [reflexivity |].
    destruct (history !! Z.to_nat historyIndex); reflexivity. }
  assert (Hquota : forall st2,
            (forall k, k <> "canvasHistory"%string -> k <> "canvasHistoryIndex"%string ->
                       st2 !! k = st !! k) ->
            let st3 := <["canvasHistory" := VHistory [current]]> st2 in
            (refuses st2 "canvasHistory" (VHistory [current]) = None ->
             refuses st3 "canvasHistoryIndex" (VIndex 0) = None ->
             onStoreError refuses st2 QuotaExceededError history historyIndex
             = <["canvasHistoryIndex" := VIndex 0]> st3) /\
            (refuses st2 "canvasHistory" (VHistory [current]) <> None \/
             (refuses st2 "canvasHistory" (VHistory [current]) = None /\
              refuses st3 "canvasHistoryIndex" (VIndex 0) <> None) ->
             onStoreError refuses st2 QuotaExceededError history historyIndex
             = delete "canvasHistoryIndex" (delete "canvasHistory" st))).
  { intros st2 F st3. unfold onStoreError, storeCurrentOnly, andThen, setItem.
    cbv zeta. rewrite Ec. split.
    - intros A B. rewrite A. cbv beta iota. fold st3. rewrite B. reflexivity.
    - intros [N | [A N]].
      + destruct (refuses st2 "canvasHistory" (VHistory [current])); [| congruence].
        apply removed_both. exact F.
      + rewrite A. cbv beta iota. fold st3.
        destruct (refuses st3 "canvasHistoryIndex" (VIndex 0)); [| congruence].
        apply removed_both. intros k N1 N2. subst st3.
        rewrite lookup_insert_ne by congruence. apply F; assumption. }
  split.
  { subst limited. split; [rewrite length_drop; lia |].
    split; [exists (take (length history - 50) history); symmetry; apply take_drop |].
    intros H. replace (length history - 50)%nat with 0%nat by lia. reflexivity. }
  split; [intros k; apply saveHistory_frame |].
  split; [apply saveHistory_frame; discriminate |].
  subst st'. unfold saveHistory, storeLimited, andThen, setItem, adjustIndex.
  unfold limitHistory.
  fold limited. fold adjusted.
  split; [intros A B; rewrite A; cbv beta iota; fold st1; rewrite B; reflexivity |].
  split; [intros A; rewrite A; reflexivity |].
  split; [intros A B; rewrite A; cbv beta iota; fold st1; rewrite B; reflexivity |].
  intros st2 [[A ->] | (A & B & ->)].
  - rewrite A. cbv beta iota. apply Hquota. reflexivity.
  - rewrite A. cbv beta iota. fold st1. rewrite B. cbv beta iota.
    apply Hquota. intros k N1 N2. subst st1.
    rewrite lookup_insert_ne by congruence. reflexivity.
Qed.

End HistoryProperties.

(** A store that refuses for quota any history of more than one snapshot:
    the two snapshots are refused, and the current one is stored alone
    with index 0. *)
Lemma saveHistory_fallback_chain_witness :
  let first := [mkElement sampleBase (rectangle 0 0 100 50)] in
  let second := [mkElement sampleBase (rectangle 20 20 100 50)] in
  let st := <["canvasElements" := VElements second]> (∅ : gmap string StorageValue) in
  saveHistory smallQuota st [first; second] 1
  = <["canvasHistoryIndex" := VIndex 0]> (<["canvasHistory" := VHistory [second]]> st).
Proof.
  intros first second st.
  destruct (saveHistory_fallback_chain smallQuota st [first; second] 1)
    as (_ & _ & _ & _ & _ & _ & H).
  destruct (H st) as [H1 _].
  - left. split; reflexivity.
  - apply H1; reflexivity.
Defined.

(** ** Helpers shared by the properties below *)


(** ** Resize: frame, cursor-determined variants *)

Lemma regeometrized_refl (g : Geometry) : regeometrized g g.
Proof. destruct g; cbn; auto. Qed.

Lemma resizeElement_regeometrized (h : Handle.t) (sb : Bounds.t) (dx dy : Q) (el : Element) :
  regeometrized (geom el) (geom (resizeElement h sb dx dy el)).
Proof.
  unfold resizeElement, applyResize.
  destruct (geom el); cbn [geom regeometrized]; auto.
  - apply length_map.
  - destruct (isCornerHandle h); cbn [geom]; auto.
Qed.

(** X8.  A resize step keeps the collection in place: same length, same
    identifiers in the same order; every element keeps its shared
    attributes, its variant and its non-geometric fields; an element
    whose identifier is not the one being resized is the same element. *)
Theorem handleMouseMove_resize_frame (rh : ResizeHandle) (canvasPoint : Point.t)
    (els : list Element) :
  let els' := handleMouseMove_resize rh canvasPoint els in
  length els' = length els /\
  List.map elementId els' = List.map elementId els /\
  Forall2 (resizedOnly (elementId_ rh)) els els'.
Proof.
  intros els'.
  assert (HF : Forall2 (resizedOnly (elementId_ rh)) els els').
  { subst els'. unfold handleMouseMove_resize.
    induction els as [| el els IH]; cbn [List.map]; constructor; [| exact IH].
    unfold resizedOnly. destruct (String.eqb_spec (elementId el) (elementId_ rh)) as [E | N].
    - split; [apply resizeElement_base |].
      split; [apply resizeElement_regeometrized | intros C; contradiction].
    - split; [reflexivity |]. split; [apply regeometrized_refl | reflexivity]. }
  split; [symmetry; eapply Forall2_length; exact HF |].
  split; [| exact HF].
  clear -HF. induction HF as [| el el' els els' [Hb _] _ IH]; [reflexivity |].
  cbn [List.map]. unfold elementId at 1 3. rewrite Hb, IH. reflexivity.
Qed.

(** X9.  For a Rectangle, Ellipse, Diamond, Image or Circle the resize is
    a function of the start bounds and the cursor only: whatever earlier
    move events of the same drag did to the element, the element after an
    event is the one a single event at that cursor position produces. *)
Theorem resizeElement_cursor_determined (h : Handle.t) (sb : Bounds.t)
    (dx0 dy0 dx dy : Q) (el : Element) :
  cursorDetermined (geom el) = true ->
  resizeElement h sb dx dy (resizeElement h sb dx0 dy0 el) = resizeElement h sb dx dy el.
Proof.
  unfold resizeElement, applyResize.
  destruct el as [b g]. cbn [geom base].
  destruct g; cbn [cursorDetermined]; try discriminate; intros _; try reflexivity.
  destruct (isCornerHandle h); reflexivity.
Qed.

Lemma resizeElement_cursor_determined_witness :
  resizeElement Handle.se (Bounds.mk 0 0 200 100) 10 100
    (resizeElement Handle.se (Bounds.mk 0 0 200 100) (-30) 5
       (mkElement sampleBase (image 0 0 200 100 "data:image/png" None)))
  = resizeElement Handle.se (Bounds.mk 0 0 200 100) 10 100
      (mkElement sampleBase (image 0 0 200 100 "data:image/png" None)).
Proof.
  apply (resizeElement_cursor_determined Handle.se (Bounds.mk 0 0 200 100) (-30) 5 10 100
           (mkElement sampleBase (image 0 0 200 100 "data:image/png" None))).
  reflexivity.
Defined.

(** ** Duplicate and paste: what the clones are *)

Lemma offsetGeometry_translated (g : Geometry) :
  match g with
  | path _ => offsetGeometry g = g
  | _ => translated 20 20 g (offsetGeometry g)
  end.
Proof. destruct g; cbn [offsetGeometry]; try reflexivity; constructor. Qed.

Lemma imap_freshId_NoDup {A : Type} (g : nat -> string) (l : list A) :
  (forall i j, g i = g j -> i = j) -> NoDup (imap (fun i _ => g i) l).
Proof.
  revert g. induction l as [| x l IH]; intros g Hg; [constructor |].
  cbn [imap]. apply NoDup_cons. split.
  - intros Hin. apply elem_of_lookup_imap in Hin as (i & y & E & _).
    cbn in E. apply Hg in E. discriminate E.
  - apply (IH (g ∘ S)). intros i j E. cbn in E. apply Hg in E. congruence.
Qed.

Lemma imap_cloneElement_ids (freshId : nat -> string) (l : list Element) :
  List.map elementId (imap (fun i el => cloneElement (freshId i) el) l)
  = imap (fun i _ => freshId i) l.
Proof.
  revert freshId. induction l as [| x l IH]; intros freshId; [reflexivity |].
  cbn [imap List.map]. f_equal. apply (IH (freshId ∘ S)).
Qed.

(** X13.  Duplicate only appends: the collection the updater receives is
    a prefix of the result, followed by one clone per selected element of
    the captured collection, in order.  The i-th clone carries the string
    the identifier generator gives for it ([freshId i], in the source
    [Date.now().toString() + Math.random()]) and the colour, stroke, fill,
    opacity, roughness, stroke style and seed of its source; its geometry
    is the source's translated by (20, 20), except for a Path, whose
    points are the source's.  The code does not compare identifiers: the
    identifiers of the result are pairwise distinct provided those of the
    previous collection are and the generator gives strings that are
    distinct from one another and from those in use. *)
Theorem handleKeyDown_duplicate_appends (freshId : nat -> string)
    (sel : gset string) (els prev : list Element) :
  let selected := List.filter (fun el => bool_decide (elementId el ∈ sel)) els in
  exists duplicated,
    handleKeyDown_duplicate freshId sel els prev = prev ++ duplicated /\
    length duplicated = length selected /\
    (forall (i : nat) (el : Element),
       selected !! i = Some el ->
       exists clone,
         duplicated !! i = Some clone /\
         elementId clone = freshId i /\
         color (base clone) = color (base el) /\
         strokeWidth (base clone) = strokeWidth (base el) /\
         fill (base clone) = fill (base el) /\
         opacity (base clone) = opacity (base el) /\
         roughness (base clone) = roughness (base el) /\
         strokeStyle (base clone) = strokeStyle (base el) /\
         seed (base clone) = seed (base el) /\
         match geom el with
         | path _ => geom clone = geom el
         | _ => translated 20 20 (geom el) (geom clone)
         end) /\
    (NoDup (List.map elementId prev) ->
     (forall i j, freshId i = freshId j -> i = j) ->
     (forall i, freshId i ∉ List.map elementId prev) ->
     NoDup (List.map elementId (prev ++ duplicated))).
Proof.
  intros selected.
  exists (imap (fun i el => cloneElement (freshId i) el) selected).
  split.
  { unfold handleKeyDown_duplicate. case_bool_decide as Hs; [reflexivity |].
    assert (E : sel = ∅) by (destruct (decide (sel = ∅)); [assumption | contradiction]).
    subst selected. rewrite E.
    replace (List.filter (fun el => bool_decide (elementId el ∈ (∅ : gset string))) els)
      with (@nil Element).
    - cbn. rewrite app_nil_r. reflexivity.
    - clear. induction els as [| el els IH]; [reflexivity |].
      cbn [List.filter]. rewrite bool_decide_eq_false_2 by set_solver. exact IH. }
  split; [apply length_imap |].
  split.
  - intros i el Hi. exists (cloneElement (freshId i) el).
    split; [rewrite list_lookup_imap, Hi; reflexivity |].
    repeat (split; [reflexivity |]).
    cbn [cloneElement geom]. apply offsetGeometry_translated.
  - intros Hprev Hinj Hnew.
    rewrite List.map_app, imap_cloneElement_ids.
    apply NoDup_app. split; [exact Hprev |]. split.
    + intros x Hx Hin. apply elem_of_lookup_imap in Hin as (i & y & E & _).
      cbn in E. subst x. exact (Hnew i Hx).
    + apply imap_freshId_NoDup. exact Hinj.
Qed.

Lemma sampleId_inj (i j : nat) : sampleId i = sampleId j -> i = j.
Proof.
  revert j. induction i as [| i IH]; intros [| j] E; cbn in E;
    try reflexivity; try discriminate E.
  injection E as E. f_equal. apply IH. exact E.
Qed.

(** Duplicating the only element, with a generator that numbers the
    copies. *)
Lemma handleKeyDown_duplicate_appends_witness :
  let a := mkElement sampleBase (rectangle 0 0 100 50) in
  exists duplicated clone,
    handleKeyDown_duplicate sampleId {[ "1700000000000"%string ]} [a] [a]
    = [a] ++ duplicated /\
    duplicated !! 0%nat = Some clone /\
    translated 20 20 (geom a) (geom clone) /\
    NoDup (List.map elementId ([a] ++ duplicated)).
Proof.
  intros a.
  destruct (handleKeyDown_duplicate_appends sampleId
              {[ "1700000000000"%string ]} [a] [a])
    as (duplicated & Hd & _ & H & Hn).
  destruct (H 0%nat a) as (clone & Hc & _ & _ & _ & _ & _ & _ & _ & _ & Ht).
  - vm_compute. reflexivity.
  - exists duplicated, clone. split; [exact Hd |]. split; [exact Hc |].
    split; [exact Ht |]. apply Hn.
    + apply NoDup_singleton.
    + exact sampleId_inj.
    + intros i Hin. apply list_elem_of_singleton in Hin.
      destruct i; cbn in Hin; discriminate Hin.
Defined.

Lemma foldr_cloneKey_other (g : Geometry) (m : gmap string JsExtra)
    (keys : list string) (k : string) :
  ~ In k keys -> foldr (cloneKey g) m keys !! k = m !! k.
Proof.
  induction keys as [| k' ks IH]; intros Hn; [reflexivity |].
  cbn [foldr]. unfold cloneKey at 1.
  assert (Hk : k' <> k) by (intros ->; apply Hn; left; reflexivity).
  assert (Hn' : ~ In k ks) by (intros C; apply Hn; right; exact C).
  destruct (declares g k'); [apply IH; exact Hn' |].
  rewrite lookup_insert_ne by exact Hk. apply IH. exact Hn'.
Qed.

Lemma foldr_cloneKey_lookup (g : Geometry) (m : gmap string JsExtra)
    (keys : list string) (k : string) :
  List.NoDup keys -> In k keys -> declares g k = false ->
  foldr (cloneKey g) m keys !! k
  = Some (match m !! k with Some v => plus20 v | None => JsUndefined end).
Proof.
  induction keys as [| k' ks IH]; intros Hnd Hin Hd; [destruct Hin |].
  apply List.NoDup_cons_iff in Hnd as [Hnotin Hnd].
  cbn [foldr]. destruct Hin as [-> | Hin].
  - rewrite cloneKey_lookup by exact Hd.
    rewrite foldr_cloneKey_other by exact Hnotin. reflexivity.
  - assert (Hk : k' <> k) by (intros ->; contradiction).
    unfold cloneKey at 1.
    destruct (declares g k'); [apply IH; assumption |].
    rewrite lookup_insert_ne by exact Hk. apply IH; assumption.
Qed.

Lemma declares_offsetGeometry (g : Geometry) (k : string) :
  declares (offsetGeometry g) k = declares g k.
Proof. destruct g; reflexivity. Qed.

Lemma positionalKeys_NoDup : List.NoDup positionalKeys.
Proof.
  unfold positionalKeys.
  repeat (apply List.NoDup_cons; [cbn; intros H; intuition discriminate |]).
  apply List.NoDup_nil.
Qed.

(** X15.  The clone owns every one of the six positional keys: a key the
    variant does not declare, absent from the source, holds [undefined]
    in the clone, and since the key is then present, [NaN] in a clone of
    that clone. *)
Theorem cloneElement_undeclared_keys (id1 id2 k : string) (el : Element) :
  In k positionalKeys ->
  declares (geom el) k = false ->
  extra (base el) !! k = None ->
  extra (base (cloneElement id1 el)) !! k = Some JsUndefined /\
  extra (base (cloneElement id2 (cloneElement id1 el))) !! k = Some JsNaN.
Proof.
  intros Hin Hd Hn.
  assert (H1 : extra (base (cloneElement id1 el)) !! k = Some JsUndefined).
  { unfold cloneElement. cbn [base extra].
    rewrite foldr_cloneKey_lookup by (assumption || apply positionalKeys_NoDup).
    rewrite Hn. reflexivity. }
  split; [exact H1 |].
  unfold cloneElement at 1. cbn [base extra geom].
  rewrite foldr_cloneKey_lookup.
  - rewrite H1. reflexivity.
  - apply positionalKeys_NoDup.
  - exact Hin.
  - unfold cloneElement. cbn [geom]. rewrite declares_offsetGeometry. exact Hd.
Qed.

Lemma cloneElement_undeclared_keys_witness :
  let stroke := mkElement sampleBase (line 0 0 10 10) in
  extra (base (cloneElement "b" (cloneElement "a" stroke))) !! "x" = Some JsNaN.
Proof.
  intros stroke.
  apply (cloneElement_undeclared_keys "a" "b" "x" stroke).
  - left. reflexivity.
  - reflexivity.
  - reflexivity.
Defined.

(** ** Marquee: direction of the drag, containment *)

Section MarqueeMore.

Variable measureText : string -> Q -> string -> TextSize.t.

(** X16.  The marquee selects the same elements whichever corner the
    drag started from: exchanging start and end, or only their abscissas
    or only their ordinates, does not change the selection. *)
Theorem handleMouseUp_selectionBox_direction (a b : Point.t) (els : list Element) :
  handleMouseUp_selectionBox measureText (mkSelectionBox b a) els
  = handleMouseUp_selectionBox measureText (mkSelectionBox a b) els /\
  handleMouseUp_selectionBox measureText
    (mkSelectionBox (Point.mk (Point.x b) (Point.y a)) (Point.mk (Point.x a) (Point.y b))) els
  = handleMouseUp_selectionBox measureText (mkSelectionBox a b) els.
Proof.
  unfold handleMouseUp_selectionBox. fields.
  split; f_equal; f_equal; apply List.filter_ext; intros el;
    destruct (getElementBounds measureText el) as [bb |]; try reflexivity;
    unfold insideSelection;
    rewrite (Q.min_comm (Point.x b) (Point.x a)), (Q.max_comm (Point.x b) (Point.x a));
    rewrite ?(Q.min_comm (Point.y b) (Point.y a)), ?(Q.max_comm (Point.y b) (Point.y a));
    reflexivity.
Qed.


End MarqueeMore.


(** ** History cursor *)

Lemma sliceTo_take {A : Type} (i : Z) (l : list A) :
  (0 <= i)%Z -> sliceTo i l = take (Z.to_nat i) l.
Proof.
  intros H. unfold sliceTo. destruct (Z.ltb_spec i 0); [lia | reflexivity].
Qed.

(** X18.  Recording a change at a valid cursor keeps the snapshots up to
    the cursor, drops the ones after it, and puts the new collection last
    with the cursor on it: afterwards undo is available and redo is
    not. *)
Theorem handleElementsChange_truncates (p : Page.t) (elements : Snapshot) :
  validCursor p ->
  let p' := handleElementsChange p elements in
  Page.history p'
  = take (S (Z.to_nat (Page.historyIndex p))) (Page.history p) ++ [elements] /\
  length (Page.history p') = S (S (Z.to_nat (Page.historyIndex p))) /\
  (forall j, (j <= Z.to_nat (Page.historyIndex p))%nat ->
             Page.history p' !! j = Page.history p !! j) /\
  snapshotAt (Page.history p') (Page.historyIndex p') = Some elements /\
  validCursor p' /\
  canUndo p' = true /\ canRedo p' = false.
Proof.
  intros [Hlo Hhi] p'.
  assert (Hlen : (S (Z.to_nat (Page.historyIndex p)) <= length (Page.history p))%nat) by lia.
  assert (Eh : Page.history p'
               = take (S (Z.to_nat (Page.historyIndex p))) (Page.history p) ++ [elements]).
  { subst p'. unfold handleElementsChange. cbn [Page.history].
    rewrite sliceTo_take by lia. f_equal. f_equal. lia. }
  assert (El : length (Page.history p') = S (S (Z.to_nat (Page.historyIndex p)))).
  { rewrite Eh, length_app, length_take. cbn [length]. lia. }
  assert (Ei : Page.historyIndex p' = (Page.historyIndex p + 1)%Z) by reflexivity.
  split; [exact Eh |]. split; [exact El |].
  split; [| split; [| split; [| split]]].
  - intros j Hj. rewrite Eh. rewrite lookup_app_l by (rewrite length_take; lia).
    apply lookup_take_lt. lia.
  - unfold snapshotAt. rewrite Ei.
    destruct (Z.ltb_spec (Page.historyIndex p + 1) 0); [lia |].
    rewrite Eh.
    replace (Z.to_nat (Page.historyIndex p + 1))
      with (length (take (S (Z.to_nat (Page.historyIndex p))) (Page.history p)) + 0)%nat
      by (rewrite length_take; lia).
    rewrite lookup_app_r by lia.
    replace (_ + 0 - _)%nat with 0%nat by lia. reflexivity.
  - unfold validCursor. rewrite Ei, El. lia.
  - unfold canUndo. rewrite Ei. apply Z.ltb_lt. lia.
  - unfold canRedo. rewrite Ei, El. apply Z.ltb_ge. lia.
Qed.

Lemma handleElementsChange_truncates_witness :
  let one := [mkElement sampleBase (rectangle 0 0 100 50)] in
  let two := [mkElement sampleBase (rectangle 20 20 100 50)] in
  let three := [mkElement sampleBase (circle 0 0 5)] in
  Page.history (handleElementsChange (Page.mk [[]; one; two] 1) three)
  = take (S (Z.to_nat 1)) [[]; one; two] ++ [three].
Proof.
  intros one two three.
  apply (handleElementsChange_truncates (Page.mk [[]; one; two] 1) three).
  unfold validCursor. cbn. lia.
Defined.

Section PageProperties.

Variable refuses : gmap string StorageValue -> string -> StorageValue -> option StorageError.

(** X19.  Undo and redo keep the cursor on a snapshot and never change
    the history.  At the first snapshot undo does nothing at all, at the
    last one redo does nothing at all.  Otherwise the cursor moves by one
    and the snapshot under the new cursor is offered to the store under
    [canvasElements]: when the store accepts it, that key holds the
    snapshot, every other key is as before and the page reloads; when the
    store refuses it, the store is unchanged, the exception is the
    store's and the page does not reload. *)
Theorem handleUndo_handleRedo_cursor (st : gmap string StorageValue) (p : Page.t) :
  validCursor p ->
  (let '(p', written, reload) := handleUndo refuses st p in
   validCursor p' /\ Page.history p' = Page.history p /\
   (canUndo p = false -> p' = p /\ written = inl st /\ reload = false) /\
   (canUndo p = true ->
    Page.historyIndex p' = (Page.historyIndex p - 1)%Z /\
    exists els,
      Page.history p !! Z.to_nat (Page.historyIndex p - 1) = Some els /\
      (refuses st "canvasElements" (VElements els) = None ->
       written = inl (<["canvasElements" := VElements els]> st) /\ reload = true) /\
      (forall err,
         refuses st "canvasElements" (VElements els) = Some err ->
         written = inr (st, err) /\ reload = false))) /\
  (let '(p', written, reload) := handleRedo refuses st p in
   validCursor p' /\ Page.history p' = Page.history p /\
   (canRedo p = false -> p' = p /\ written = inl st /\ reload = false) /\
   (canRedo p = true ->
    Page.historyIndex p' = (Page.historyIndex p + 1)%Z /\
    exists els,
      Page.history p !! Z.to_nat (Page.historyIndex p + 1) = Some els /\
      (refuses st "canvasElements" (VElements els) = None ->
       written = inl (<["canvasElements" := VElements els]> st) /\ reload = true) /\
      (forall err,
         refuses st "canvasElements" (VElements els) = Some err ->
         written = inr (st, err) /\ reload = false))).
Proof.
  intros [Hlo Hhi].
  assert (Hat : forall i, (0 <= i < Z.of_nat (length (Page.history p)))%Z ->
                exists els, Page.history p !! Z.to_nat i = Some els /\
                            snapshotAt (Page.history p) i = Some els).
  { intros i Hi. unfold snapshotAt. destruct (Z.ltb_spec i 0); [lia |].
    destruct (lookup_lt_is_Some_2 (Page.history p) (Z.to_nat i)) as [els E]; [lia |].
    exists els. split; exact E. }
  split.
  - unfold handleUndo, canUndo.
    destruct (Z.ltb_spec 0 (Page.historyIndex p)) as [Hpos | Hz].
    + split; [unfold validCursor; cbn [Page.history Page.historyIndex]; lia |].
      split; [reflexivity |]. split; [discriminate |]. intros _.
      split; [reflexivity |].
      destruct (Hat (Page.historyIndex p - 1)%Z) as (els & Hl & Hels); [lia |].
      exists els. split; [exact Hl |]. rewrite Hels. cbn [stringifySnapshot].
      unfold setItem. split.
      * intros ->. split; reflexivity.
      * intros err ->. split; reflexivity.
    + split; [unfold validCursor; lia |]. split; [reflexivity |].
      split; [intros _; repeat split | discriminate].
  - unfold handleRedo, canRedo.
    destruct (Z.ltb_spec (Page.historyIndex p) (Z.of_nat (length (Page.history p)) - 1))
      as [Hlt | Hge].
    + split; [unfold validCursor; cbn [Page.history Page.historyIndex]; lia |].
      split; [reflexivity |]. split; [discriminate |]. intros _.
      split; [reflexivity |].
      destruct (Hat (Page.historyIndex p + 1)%Z) as (els & Hl & Hels); [lia |].
      exists els. split; [exact Hl |]. rewrite Hels. cbn [stringifySnapshot].
      unfold setItem. split.
      * intros ->. split; reflexivity.
      * intros err ->. split; reflexivity.
    + split; [unfold validCursor; lia |]. split; [reflexivity |].
      split; [intros _; repeat split | discriminate].
Qed.

(** X21.  What the save effect stores for a valid cursor: the stored
    index is a valid index of the stored history, whose k-th snapshot is
    the snapshot [k + (length - 50)] of the history in memory.  With at
    most 50 snapshots the stored pair is the pair in memory; and whenever
    the cursor is on the last snapshot, the stored cursor is on that same
    snapshot. *)
Theorem saveHistory_stored_cursor (history : list Snapshot) (historyIndex : Z) :
  (0 <= historyIndex < Z.of_nat (length history))%Z ->
  let limited := limitHistory history in
  let adjusted := adjustIndex history historyIndex in
  (0 <= adjusted < Z.of_nat (length limited))%Z /\
  (forall k, limited !! k = history !! (length history - 50 + k)%nat) /\
  ((length history <= 50)%nat -> limited = history /\ adjusted = historyIndex) /\
  (historyIndex = (Z.of_nat (length history) - 1)%Z ->
   snapshotAt limited adjusted = snapshotAt history historyIndex).
Proof.
  intros [Hlo Hhi] limited adjusted.
  assert (Ll : length limited = (length history - (length history - 50))%nat)
    by (subst limited; unfold limitHistory; apply length_drop).
  assert (Hk : forall k, limited !! k = history !! (length history - 50 + k)%nat)
    by (intros k; subst limited; unfold limitHistory; apply lookup_drop).
  split; [subst adjusted; unfold adjustIndex; fold limited; lia |].
  split; [exact Hk |]. split.
  - intros Hle. split.
    + subst limited. unfold limitHistory.
      replace (length history - 50)%nat with 0%nat by lia. reflexivity.
    + subst adjusted. unfold adjustIndex. fold limited. lia.
  - intros Hlast. unfold snapshotAt.
    assert (Ea : adjusted = (Z.of_nat (length limited) - 1)%Z)
      by (subst adjusted; unfold adjustIndex; fold limited; lia).
    destruct (Z.ltb_spec adjusted 0); [lia |].
    destruct (Z.ltb_spec historyIndex 0); [lia |].
    rewrite Hk. f_equal. lia.
Qed.

(** X22.  An empty collection is never written nor reported: after the
    last element is deleted, the store still holds what it held, and the
    history is not told. *)
Theorem saveElements_skips_empty (st : gmap string StorageValue)
    (sel : gset string) (els : list Element) :
  sel ≠ ∅ -> Forall (fun el => elementId el ∈ sel) els ->
  handleKeyDown_delete sel false els = ([], ∅) /\
  saveElements refuses st (fst (handleKeyDown_delete sel false els)) = (inl st, None).
Proof.
  intros Hsel Hall.
  assert (E : handleKeyDown_delete sel false els = ([], ∅)).
  { unfold handleKeyDown_delete. rewrite bool_decide_eq_true_2 by exact Hsel.
    cbn [negb andb]. f_equal.
    induction Hall as [| el els Hin _ IH]; [reflexivity |].
    cbn [List.filter]. rewrite bool_decide_eq_true_2 by exact Hin. exact IH. }
  split; [exact E |]. rewrite E. reflexivity.
Qed.

End PageProperties.

(** Undo from the second of two snapshots, on a store that accepts the
    write. *)
Lemma handleUndo_handleRedo_cursor_witness :
  let one := [mkElement sampleBase (rectangle 0 0 100 50)] in
  let two := [mkElement sampleBase (rectangle 20 20 100 50)] in
  let st := <["canvasElements" := VElements two]> (∅ : gmap string StorageValue) in
  handleUndo smallQuota st (Page.mk [one; two] 1)
  = (Page.mk [one; two] 0, inl (<["canvasElements" := VElements one]> st), true).
Proof.
  intros one two st.
  pose proof (handleUndo_handleRedo_cursor smallQuota st (Page.mk [one; two] 1)) as H.
  destruct H as [H _]; [unfold validCursor; cbn; lia |].
  destruct (handleUndo smallQuota st (Page.mk [one; two] 1)) as [[p' written] reload].
  destruct H as (_ & Hh & _ & H).
  destruct (H eq_refl) as (Hi & els & Hl & Hacc & _).
  cbn in Hl. injection Hl as <-.
  destruct (Hacc eq_refl) as [-> ->].
  destruct p' as [h i]. cbn in Hh, Hi. subst h i. reflexivity.
Defined.

Lemma saveHistory_stored_cursor_witness :
  let one := [mkElement sampleBase (rectangle 0 0 100 50)] in
  limitHistory [[]; one] = [[]; one] /\ adjustIndex [[]; one] 1 = 1%Z.
Proof.
  intros one.
  destruct (saveHistory_stored_cursor [[]; one] 1) as (_ & _ & H & _).
  - cbn. lia.
  - apply H. cbn. lia.
Defined.

Lemma saveElements_skips_empty_witness :
  let a := mkElement sampleBase (rectangle 0 0 100 50) in
  saveElements smallQuota (<["canvasElements" := VElements [a]]> ∅)
    (fst (handleKeyDown_delete {[ "1700000000000"%string ]} false [a]))
  = (inl (<["canvasElements" := VElements [a]]> ∅), None).
Proof.
  intros a.
  apply (saveElements_skips_empty smallQuota (<["canvasElements" := VElements [a]]> ∅)
           {[ "1700000000000"%string ]} [a]).
  - apply non_empty_singleton_L.
  - constructor; [| constructor]. cbn. set_solver.
Defined.

(** ** Resize handles *)






(** ** Pointer handlers *)

Ltac st_simpl :=
  cbn [CanvasState.elements CanvasState.isDrawing CanvasState.isPanning
       CanvasState.currentElement CanvasState.viewport CanvasState.lastPanPoint
       CanvasState.textInput CanvasState.selectedElements CanvasState.selectionBox
       CanvasState.resizeHandle CanvasState.hoveredHandle
       CanvasState.setElements CanvasState.setIsDrawing CanvasState.setIsPanning
       CanvasState.setCurrentElement CanvasState.setViewport CanvasState.setLastPanPoint
       CanvasState.setTextInput CanvasState.setSelectedElements
       CanvasState.setSelectionBox CanvasState.setResizeHandle
       CanvasState.setHoveredHandle].

Ltac st_simpl_in H :=
  cbn [CanvasState.elements CanvasState.isDrawing CanvasState.isPanning
       CanvasState.currentElement CanvasState.viewport CanvasState.lastPanPoint
       CanvasState.textInput CanvasState.selectedElements CanvasState.selectionBox
       CanvasState.resizeHandle CanvasState.hoveredHandle
       CanvasState.setElements CanvasState.setIsDrawing CanvasState.setIsPanning
       CanvasState.setCurrentElement CanvasState.setViewport CanvasState.setLastPanPoint
       CanvasState.setTextInput CanvasState.setSelectedElements
       CanvasState.setSelectionBox CanvasState.setResizeHandle
       CanvasState.setHoveredHandle] in H.

Lemma clickSelection_toggle_twice (e : MouseEvent.t) (clicked : Element) (prev : gset string) :
  MouseEvent.ctrlKey e || MouseEvent.metaKey e = true ->
  clickSelection e clicked (clickSelection e clicked prev) = prev.
Proof.
  intros H. unfold clickSelection.
  assert (E : negb (MouseEvent.ctrlKey e) && negb (MouseEvent.metaKey e) = false)
    by (destruct (MouseEvent.ctrlKey e), (MouseEvent.metaKey e); try reflexivity;
        discriminate H).
  rewrite E.
  destruct (decide (elementId clicked ∈ prev)) as [Hin | Hout].
  - rewrite (bool_decide_eq_true_2 _ Hin).
    rewrite bool_decide_eq_false_2 by set_solver.
    apply set_eq. intros i. destruct (decide (i = elementId clicked)); set_solver.
  - rewrite (bool_decide_eq_false_2 _ Hout).
    rewrite bool_decide_eq_true_2 by set_solver.
    set_solver.
Qed.

Section PointerHandlers.

Variable measureText : string -> Q -> string -> TextSize.t.
Variable sqrt : Q -> Q.

Lemma findTopmost_Some (p : Point.t) (els : list Element) (el : Element) :
  findTopmost measureText p els = Some el ->
  exists before after,
    els = before ++ el :: after /\
    isPointInElement measureText p el = true /\
    Forall (fun o => isPointInElement measureText p o = false) after.
Proof.
  unfold findTopmost. revert el.
  induction els as [| x l IH] using rev_ind; intros el; [discriminate |].
  rewrite rev_app_distr. cbn [rev app List.find].
  destruct (isPointInElement measureText p x) eqn:Hx.
  - intros E. injection E as <-. exists l, []. repeat split; [exact Hx | constructor].
  - intros E. destruct (IH el E) as (before & after & -> & Hel & Ha).
    exists before, (after ++ [x]).
    split; [rewrite <- app_assoc; reflexivity |].
    split; [exact Hel |]. apply Forall_app. split; [exact Ha |].
    constructor; [exact Hx | constructor].
Qed.

Lemma findTopmost_None (p : Point.t) (els : list Element) :
  findTopmost measureText p els = None <->
  Forall (fun o => isPointInElement measureText p o = false) els.
Proof.
  unfold findTopmost.
  induction els as [| x l IH] using rev_ind; [split; [constructor | reflexivity] |].
  rewrite rev_app_distr. cbn [rev app List.find].
  destruct (isPointInElement measureText p x) eqn:Hx.
  - split; [discriminate |]. intros F. apply Forall_app in F as [_ F].
    inversion F; congruence.
  - rewrite IH, Forall_app. split.
    + intros F. split; [exact F | constructor; [exact Hx | constructor]].
    + intros [F _]. exact F.
Qed.

(** X24.  The element a press lands on is the most recently added one
    whose bounds contain the point: it belongs to the collection, it
    contains the point and no element after it does; and there is none
    exactly when no element contains the point. *)
Theorem findTopmost_last_hit (p : Point.t) (els : list Element) :
  (forall el, findTopmost measureText p els = Some el ->
     exists before after,
       els = before ++ el :: after /\
       isPointInElement measureText p el = true /\
       Forall (fun o => isPointInElement measureText p o = false) after) /\
  (findTopmost measureText p els = None <->
   Forall (fun o => isPointInElement measureText p o = false) els).
Proof.
  split; [intros el; apply findTopmost_Some | apply findTopmost_None].
Qed.

(** X25.  A press with the eraser that neither pans nor grabs a resize
    handle removes every element that carries the identifier of the
    topmost element under the pointer and nothing else; the order of the
    others, the selection (which may keep the erased identifier) and the
    gesture modes are as before.  Over empty canvas the press changes
    nothing. *)
Theorem handleMouseDown_eraser (props : Props.t) (timestamp : string) (random : Q)
    (e : MouseEvent.t) (r : Point.t) (st : CanvasState.t) :
  Props.tool props = Tool.eraser ->
  MouseEvent.rect e = Some r ->
  pansOnPress props e = false ->
  resizeStart measureText (eventCanvasPoint (CanvasState.viewport st) e r) st = None ->
  let p := eventCanvasPoint (CanvasState.viewport st) e r in
  let st' := handleMouseDown measureText props timestamp random e st in
  (findTopmost measureText p (CanvasState.elements st) = None -> st' = st) /\
  (forall hit,
     findTopmost measureText p (CanvasState.elements st) = Some hit ->
     st' = CanvasState.setElements (CanvasState.elements st') st /\
     (forall el, In el (CanvasState.elements st') <->
                 In el (CanvasState.elements st) /\ elementId el <> elementId hit) /\
     CanvasState.elements st'
     = List.filter (fun el => negb (String.eqb (elementId el) (elementId hit)))
                   (CanvasState.elements st) /\
     (length (CanvasState.elements st') < length (CanvasState.elements st))%nat).
Proof.
  intros Ht Hr Hp Hrs p st'.
  assert (E : st' = match findTopmost measureText p (CanvasState.elements st) with
                    | Some hit =>
                        CanvasState.setElements
                          (List.filter
                             (fun el => negb (String.eqb (elementId el) (elementId hit)))
                             (CanvasState.elements st)) st
                    | None => st
                    end).
  { subst st'. unfold handleMouseDown. rewrite Hr.
    unfold pansOnPress in Hp. rewrite Hp. fold p. unfold p at 1. rewrite Hrs.
    rewrite Ht. cbn [isEraser]. reflexivity. }
  split.
  - intros Hn. rewrite E, Hn. reflexivity.
  - intros hit Hh. rewrite Hh in E.
    assert (Ee : CanvasState.elements st'
                 = List.filter (fun el => negb (String.eqb (elementId el) (elementId hit)))
                               (CanvasState.elements st))
      by (rewrite E; reflexivity).
    split; [rewrite Ee; exact E |].
    split.
    { intros el. rewrite Ee, filter_In, negb_true_iff.
      destruct (String.eqb_spec (elementId el) (elementId hit)); split;
        intros [A B]; split; congruence. }
    split; [exact Ee |].
    rewrite Ee.
    destruct (findTopmost_Some p (CanvasState.elements st) hit Hh)
      as (before & after & -> & _ & _).
    rewrite List.filter_app, length_app, length_app. cbn [List.filter length].
    rewrite String.eqb_refl. cbn [negb].
    pose proof (List.filter_length_le
                  (fun el => negb (String.eqb (elementId el) (elementId hit))) before).
    pose proof (List.filter_length_le
                  (fun el => negb (String.eqb (elementId el) (elementId hit))) after).
    lia.
Qed.


(** X26.  A press on an element (any tool but the eraser, no panning
    modifier, no resize handle under the pointer) starts a drag and sets
    the selection: without Ctrl or Meta the selection is that element
    alone; with Ctrl or Meta the element is toggled in the previous
    selection, so that a second such press restores it.  The elements are
    not touched. *)
Theorem handleMouseDown_click_selects (props : Props.t) (timestamp : string) (random : Q)
    (e : MouseEvent.t) (r : Point.t) (st : CanvasState.t) (clicked : Element) :
  Props.tool props <> Tool.eraser ->
  MouseEvent.rect e = Some r ->
  pansOnPress props e = false ->
  resizeStart measureText (eventCanvasPoint (CanvasState.viewport st) e r) st = None ->
  findTopmost measureText (eventCanvasPoint (CanvasState.viewport st) e r)
              (CanvasState.elements st) = Some clicked ->
  let st' := handleMouseDown measureText props timestamp random e st in
  st' = CanvasState.setLastPanPoint
          (Some (Point.mk (MouseEvent.clientX e) (MouseEvent.clientY e)))
          (CanvasState.setIsPanning true
             (CanvasState.setSelectedElements (CanvasState.selectedElements st') st)) /\
  (MouseEvent.ctrlKey e = false -> MouseEvent.metaKey e = false ->
   CanvasState.selectedElements st' = {[ elementId clicked ]}) /\
  (MouseEvent.ctrlKey e || MouseEvent.metaKey e = true ->
   (forall i, i ∈ CanvasState.selectedElements st' <->
              (i ∈ CanvasState.selectedElements st /\ i <> elementId clicked) \/
              (i = elementId clicked /\ elementId clicked ∉ CanvasState.selectedElements st)) /\
   clickSelection e clicked (CanvasState.selectedElements st')
   = CanvasState.selectedElements st).
Proof using measureText.
  clear sqrt.
  intros Ht Hr Hp Hrs Hf st'.
  assert (E : st' = CanvasState.setLastPanPoint
                      (Some (Point.mk (MouseEvent.clientX e) (MouseEvent.clientY e)))
                      (CanvasState.setIsPanning true
                         (CanvasState.setSelectedElements
                            (clickSelection e clicked (CanvasState.selectedElements st))
                            st))).
  { subst st'. unfold handleMouseDown. rewrite Hr.
    unfold pansOnPress in Hp. rewrite Hp. rewrite Hrs.
    assert (Hne : isEraser (Props.tool props) = false)
      by (destruct (Props.tool props); try reflexivity; contradiction).
    rewrite Hne, Hf. reflexivity. }
  assert (Es : CanvasState.selectedElements st'
               = clickSelection e clicked (CanvasState.selectedElements st))
    by (rewrite E; reflexivity).
  split; [rewrite Es; exact E |]. split.
  - intros Hc Hm. rewrite Es. unfold clickSelection. rewrite Hc, Hm. reflexivity.
  - intros Hcm. split.
    + intros i. rewrite Es. unfold clickSelection.
      assert (E0 : negb (MouseEvent.ctrlKey e) && negb (MouseEvent.metaKey e) = false)
        by (destruct (MouseEvent.ctrlKey e), (MouseEvent.metaKey e); try reflexivity;
            discriminate Hcm).
      rewrite E0. case_bool_decide as Hin.
      * destruct (decide (i = elementId clicked)); set_solver.
      * destruct (decide (i = elementId clicked)); set_solver.
    + rewrite Es. apply clickSelection_toggle_twice. exact Hcm.
Qed.

Lemma handleMouseDown_modes (props : Props.t) (timestamp : string) (random : Q)
    (e : MouseEvent.t) (st : CanvasState.t) :
  idle st -> atMostOneMode (handleMouseDown measureText props timestamp random e st).
Proof.
  intros (Hp & Hr & Hs & Hd). unfold handleMouseDown, atMostOneMode.
  destruct (MouseEvent.rect e) as [r |];
    [| rewrite Hr, Hs; left; exact Hp].
  destruct (_ || _ || _); [st_simpl; rewrite Hr, Hs; right; exact Hd |].
  destruct (resizeStart _ _ _); [st_simpl; rewrite Hs; split; assumption |].
  destruct (if isEraser (Props.tool props) then None else _);
    [st_simpl; rewrite Hr, Hs; right; exact Hd |].
  destruct (Props.tool props);
    try (destruct (handleMouseDown_draw _ _ _); st_simpl; rewrite Hr, Hs; left; exact Hp).
  - destruct (negb _ && negb _); st_simpl; rewrite Hr; split; assumption.
  - st_simpl. rewrite Hr, Hs. left. exact Hp.
  - destruct (findTopmost _ _ _); st_simpl; rewrite Hr, Hs; left; exact Hp.
Qed.

Lemma handleMouseMove_modes (props : Props.t) (e : MouseEvent.t) (st : CanvasState.t) :
  atMostOneMode st -> atMostOneMode (handleMouseMove sqrt props e st).
Proof.
  unfold handleMouseMove, atMostOneMode.
  destruct (MouseEvent.rect e) as [r |]; [| auto].
  destruct (CanvasState.resizeHandle st) as [rh |] eqn:Hr.
  { st_simpl. rewrite Hr. auto. }
  destruct (CanvasState.isPanning st) eqn:Hp, (CanvasState.lastPanPoint st) as [l |] eqn:Hl;
    try (destruct (handleMouseMove_pan _ _ _ _ _ _) as [[els v] q]; st_simpl;
         rewrite Hr, Hp; auto);
    destruct (CanvasState.selectionBox st) as [box |] eqn:Hs;
    try (st_simpl; rewrite ?Hr, ?Hp; auto; fail);
    destruct (CanvasState.isDrawing st) eqn:Hd, (CanvasState.currentElement st) eqn:Hc;
    st_simpl; rewrite ?Hr, ?Hs, ?Hp, ?Hd; auto.
Qed.

Lemma handleMouseUp_idle (st : CanvasState.t) :
  atMostOneMode st -> idle (handleMouseUp measureText st).
Proof.
  unfold handleMouseUp, atMostOneMode, idle.
  destruct (CanvasState.resizeHandle st) as [rh |] eqn:Hr,
           (CanvasState.selectionBox st) as [box |] eqn:Hs;
    try contradiction.
  - intros [Hp Hd]. st_simpl. rewrite Hs. auto.
  - intros [Hp Hd]. st_simpl. rewrite Hr. auto.
  - intros H. destruct (CanvasState.isPanning st) eqn:Hp.
    + destruct H as [H | H]; [discriminate |]. st_simpl. rewrite Hr, Hs. auto.
    + destruct (CanvasState.isDrawing st), (CanvasState.currentElement st);
        st_simpl; rewrite ?Hr, ?Hs, ?Hp; auto.
Qed.

(** X27.  A pointer gesture that starts when no gesture is in progress
    ends with none in progress: after the press at most one of dragging,
    resizing, marquee and drawing is on, the move events keep it so, and
    the release turns it off. *)
Theorem pointer_gesture_returns_to_idle (props : Props.t) (timestamp : string)
    (random : Q) (press : MouseEvent.t) (moves : list MouseEvent.t) (st : CanvasState.t) :
  idle st ->
  let pressed := handleMouseDown measureText props timestamp random press st in
  let moved := fold_left (fun s e => handleMouseMove sqrt props e s) moves pressed in
  atMostOneMode pressed /\ atMostOneMode moved /\
  idle (handleMouseUp measureText moved).
Proof.
  intros Hi pressed moved.
  assert (H1 : atMostOneMode pressed) by (apply handleMouseDown_modes; exact Hi).
  assert (H2 : atMostOneMode moved).
  { subst moved. revert H1. generalize pressed. clear.
    induction moves as [| e es IH]; intros s Hs; [exact Hs |].
    cbn [fold_left]. apply IH. apply handleMouseMove_modes. exact Hs. }
  split; [exact H1 |]. split; [exact H2 |]. apply handleMouseUp_idle. exact H2.
Qed.

(** X29.  No pointer handler ever sets the hovered handle: it is empty
    after a press, a move or a release whenever it was empty before. *)
Theorem hoveredHandle_never_set (props : Props.t) (timestamp : string) (random : Q)
    (e : MouseEvent.t) (st : CanvasState.t) :
  CanvasState.hoveredHandle st = None ->
  CanvasState.hoveredHandle (handleMouseDown measureText props timestamp random e st) = None /\
  CanvasState.hoveredHandle (handleMouseMove sqrt props e st) = None /\
  CanvasState.hoveredHandle (handleMouseUp measureText st) = None.
Proof.
  intros H. split; [| split].
  - unfold handleMouseDown.
    destruct (MouseEvent.rect e); [| exact H].
    destruct (_ || _ || _); [exact H |].
    destruct (resizeStart _ _ _); [exact H |].
    destruct (if isEraser (Props.tool props) then None else _); [exact H |].
    destruct (Props.tool props);
      try (destruct (handleMouseDown_draw _ _ _); exact H).
    + destruct (negb _ && negb _); exact H.
    + exact H.
    + destruct (findTopmost _ _ _); exact H.
  - unfold handleMouseMove.
    destruct (MouseEvent.rect e); [| exact H].
    destruct (CanvasState.resizeHandle st); [exact H |].
    destruct (CanvasState.isPanning st), (CanvasState.lastPanPoint st);
      try (destruct (handleMouseMove_pan _ _ _ _ _ _) as [[els v] q]; exact H);
      destruct (CanvasState.selectionBox st); try exact H;
      destruct (CanvasState.isDrawing st), (CanvasState.currentElement st);
      try exact H; reflexivity.
  - unfold handleMouseUp.
    destruct (CanvasState.resizeHandle st); [exact H |].
    destruct (CanvasState.selectionBox st); [exact H |].
    destruct (CanvasState.isPanning st); [exact H |].
    destruct (CanvasState.isDrawing st), (CanvasState.currentElement st); exact H.
Qed.

Lemma drawnGeometry_fold (tool : Tool.t) (b : CanvasElement) (a : Point.t)
    (moves : list Point.t) (g : Geometry) :
  drawnGeometry sqrt tool a moves = Some g ->
  exists d0,
    handleMouseDown_draw tool b a = Some d0 /\
    fold_left (fun d p => drawDraft sqrt p d) moves d0 = mkElement b g.
Proof.
  revert g. induction moves as [| m l IH] using rev_ind; intros g Hg.
  - unfold drawnGeometry in Hg. cbn [last] in Hg.
    destruct tool; try discriminate Hg; injection Hg as <-;
      eexists; (split; [reflexivity |]); reflexivity.
  - assert (Hl : exists g', drawnGeometry sqrt tool a l = Some g').
    { unfold drawnGeometry in *. destruct tool; try discriminate Hg;
        destruct (last l); eexists; reflexivity. }
    destruct Hl as [g' Hg']. destruct (IH g' Hg') as (d0 & Hd0 & Hf).
    exists d0. split; [exact Hd0 |].
    rewrite fold_left_app, Hf. cbn [fold_left].
    unfold drawnGeometry in Hg, Hg'. rewrite last_snoc in Hg.
    destruct tool; try discriminate Hg; injection Hg as <-;
      destruct (last l); injection Hg' as <-;
      unfold drawDraft, handleMouseMove_draw; cbn [geom base]; try reflexivity.
Qed.

Lemma handleMouseMove_drawing (props : Props.t) (e : MouseEvent.t) (r : Point.t)
    (st : CanvasState.t) (d : Element) :
  MouseEvent.rect e = Some r ->
  CanvasState.resizeHandle st = None -> CanvasState.isPanning st = false ->
  CanvasState.selectionBox st = None -> CanvasState.isDrawing st = true ->
  CanvasState.currentElement st = Some d ->
  handleMouseMove sqrt props e st
  = CanvasState.setHoveredHandle None
      (CanvasState.setCurrentElement
         (Some (drawDraft sqrt (eventCanvasPoint (CanvasState.viewport st) e r) d)) st).
Proof.
  intros Hr H1 H2 H3 H4 H5. unfold handleMouseMove.
  rewrite Hr, H1, H2, H3, H4, H5. reflexivity.
Qed.

Lemma fold_handleMouseMove_drawing (props : Props.t) (r : Point.t)
    (moves : list MouseEvent.t) (st : CanvasState.t) (d : Element) :
  Forall (fun e => MouseEvent.rect e = Some r) moves ->
  CanvasState.resizeHandle st = None -> CanvasState.isPanning st = false ->
  CanvasState.selectionBox st = None -> CanvasState.isDrawing st = true ->
  CanvasState.currentElement st = Some d ->
  let st' := fold_left (fun s e => handleMouseMove sqrt props e s) moves st in
  CanvasState.resizeHandle st' = None /\ CanvasState.isPanning st' = false /\
  CanvasState.selectionBox st' = None /\ CanvasState.isDrawing st' = true /\
  CanvasState.currentElement st'
  = Some (fold_left (fun d p => drawDraft sqrt p d)
            (List.map (fun e => eventCanvasPoint (CanvasState.viewport st) e r) moves) d) /\
  CanvasState.elements st' = CanvasState.elements st /\
  CanvasState.viewport st' = CanvasState.viewport st /\
  CanvasState.selectedElements st' = CanvasState.selectedElements st.
Proof.
  intros HF. revert st d.
  induction HF as [| e es He _ IH]; intros st d H1 H2 H3 H4 H5; cbn [fold_left List.map].
  - repeat split; assumption.
  - rewrite (handleMouseMove_drawing props e r st d He H1 H2 H3 H4 H5).
    specialize (IH (CanvasState.setHoveredHandle None
                      (CanvasState.setCurrentElement
                         (Some (drawDraft sqrt
                                  (eventCanvasPoint (CanvasState.viewport st) e r) d)) st))
                   (drawDraft sqrt (eventCanvasPoint (CanvasState.viewport st) e r) d)
                   H1 H2 H3 H4 eq_refl).
    exact IH.
Qed.

(** X28.  A drawing gesture (press on empty canvas with a shape tool or
    the pen, any number of moves, release) appends exactly one element,
    with the attributes of the props and the timestamp as identifier.  A
    Rectangle, Ellipse or Diamond has the press point as origin and the
    offset of the last move as width and height (zero, and possibly
    negative values, included); a Line or Arrow runs from the press point
    to the last move; a Circle is centred on the press point; a pen stroke
    has the press point and every move as its points.  Viewport and
    selection are left alone. *)
Theorem drawing_gesture_commits (props : Props.t) (timestamp : string) (random : Q)
    (press : MouseEvent.t) (moves : list MouseEvent.t) (r : Point.t)
    (st : CanvasState.t) (g : Geometry) :
  idle st ->
  MouseEvent.rect press = Some r ->
  Forall (fun e => MouseEvent.rect e = Some r) moves ->
  pansOnPress props press = false ->
  resizeStart measureText (eventCanvasPoint (CanvasState.viewport st) press r) st = None ->
  findTopmost measureText (eventCanvasPoint (CanvasState.viewport st) press r)
              (CanvasState.elements st) = None ->
  drawnGeometry sqrt (Props.tool props)
    (eventCanvasPoint (CanvasState.viewport st) press r)
    (List.map (fun e => eventCanvasPoint (CanvasState.viewport st) e r) moves) = Some g ->
  let final :=
    handleMouseUp measureText
      (fold_left (fun s e => handleMouseMove sqrt props e s) moves
         (handleMouseDown measureText props timestamp random press st)) in
  CanvasState.elements final
  = CanvasState.elements st ++ [mkElement (baseElement props timestamp random) g] /\
  idle final /\
  CanvasState.currentElement final = None /\
  CanvasState.viewport final = CanvasState.viewport st /\
  CanvasState.selectedElements final = CanvasState.selectedElements st.
Proof.
  intros (Ip & Ir & Is & Id) Hr HF Hp Hrs Hft Hg final.
  set (a := eventCanvasPoint (CanvasState.viewport st) press r) in *.
  destruct (drawnGeometry_fold (Props.tool props) (baseElement props timestamp random)
              a _ g Hg) as (d0 & Hd0 & Hfold).
  assert (Hdown : handleMouseDown measureText props timestamp random press st
                  = CanvasState.setCurrentElement (Some d0)
                      (CanvasState.setIsDrawing true st)).
  { unfold handleMouseDown. rewrite Hr. unfold pansOnPress in Hp. rewrite Hp.
    fold a. rewrite Hrs, Hft.
    assert (Hif : (if isEraser (Props.tool props) then None
                   else @None Element) = None) by (destruct (isEraser _); reflexivity).
    rewrite Hif.
    destruct (Props.tool props) eqn:Ht; try (cbn in Hd0; discriminate Hd0);
      rewrite Hd0; reflexivity. }
  pose proof (fold_handleMouseMove_drawing props r moves
                (CanvasState.setCurrentElement (Some d0) (CanvasState.setIsDrawing true st))
                d0 HF Ir Ip Is eq_refl eq_refl) as H.
  cbv zeta in H. st_simpl_in H.
  rewrite <- Hdown in H.
  set (moved := fold_left (fun s e => handleMouseMove sqrt props e s) moves
                  (handleMouseDown measureText props timestamp random press st)) in *.
  destruct H as (M1 & M2 & M3 & M4 & M5 & M6 & M7 & M8).
  rewrite Hfold in M5.
  subst final. unfold handleMouseUp, idle. rewrite M1, M3, M2, M4, M5.
  st_simpl. rewrite M1, M2, M3, M6, M7, M8.
  unfold handleMouseUp_draw. repeat split; reflexivity.
Qed.


(** X30.  A text is anchored at the canvas point of the press.  A press
    with the text tool on empty canvas (no panning modifier, no resize
    handle under the pointer) opens the text input at the screen position
    of the press and changes nothing else; Enter with a text that does
    not trim to the empty string then appends exactly one Text element,
    with the text as typed (not trimmed), the font of the props and the
    given timestamp as identifier, anchored at the canvas point the
    pointer handlers compute for that press, and closes the input.  Enter
    with a blank text, or Escape, closes the input and adds nothing. *)
Theorem text_anchored_at_press (trim : string -> string) (props : Props.t)
    (t1 t2 : string) (random : Q) (e : MouseEvent.t) (r : Point.t)
    (value : string) (st : CanvasState.t) :
  Props.tool props = Tool.text ->
  MouseEvent.rect e = Some r ->
  pansOnPress props e = false ->
  resizeStart measureText (eventCanvasPoint (CanvasState.viewport st) e r) st = None ->
  findTopmost measureText (eventCanvasPoint (CanvasState.viewport st) e r)
              (CanvasState.elements st) = None ->
  let screenX := MouseEvent.clientX e - Point.x r in
  let screenY := MouseEvent.clientY e - Point.y r in
  let anchor := eventCanvasPoint (CanvasState.viewport st) e r in
  let pressed := handleMouseDown measureText props t1 random e st in
  let entered := handleTextSubmit trim props t2 "Enter" value pressed in
  pressed = CanvasState.setTextInput (TextInput.mk screenX screenY true) st /\
  CanvasState.textInput entered = TextInput.mk 0 0 false /\
  CanvasState.textInput (handleTextSubmit trim props t2 "Escape" value pressed)
  = TextInput.mk 0 0 false /\
  CanvasState.elements (handleTextSubmit trim props t2 "Escape" value pressed)
  = CanvasState.elements st /\
  (trim value = ""%string -> CanvasState.elements entered = CanvasState.elements st) /\
  (trim value <> ""%string ->
   exists b,
     CanvasState.elements entered
     = CanvasState.elements st
       ++ [mkElement b (text (Point.x anchor) (Point.y anchor) value
                             (Props.fontSize props) (Props.fontFamily props)
                             (Some (Props.textDecorators props)))] /\
     id b = t2 /\ color b = Props.color props /\
     strokeWidth b = Props.strokeWidth props /\ fill b = Props.fill props).
Proof using measureText.
  clear sqrt.
  intros Ht Hr Hp Hrs Hft screenX screenY anchor pressed entered.
  assert (E : pressed = CanvasState.setTextInput (TextInput.mk screenX screenY true) st).
  { subst pressed. unfold handleMouseDown. rewrite Hr.
    unfold pansOnPress in Hp. rewrite Hp, Hrs, Hft, Ht.
    cbn [isEraser]. reflexivity. }
  split; [exact E |].
  subst entered. rewrite E. unfold handleTextSubmit.
  cbn [String.eqb Ascii.eqb Bool.eqb andb].
  split; [destruct (negb _); reflexivity |].
  split; [reflexivity |]. split; [reflexivity |]. split.
  - intros Hb. rewrite Hb. reflexivity.
  - intros Hn.
    assert (Hb : String.eqb (trim value) "" = false)
      by (apply String.eqb_neq; exact Hn).
    rewrite Hb. cbn [negb]. st_simpl.
    cbn [TextInput.x TextInput.y].
    eexists. split; [reflexivity |]. repeat split.
Qed.

End PointerHandlers.


Lemma sampleState_idle : idle sampleState.
Proof. repeat split. Qed.

Lemma findTopmost_last_hit_witness :
  exists before after,
    [sampleRectangle] = before ++ sampleRectangle :: after /\
    isPointInElement sampleMeasure (Point.mk 20 20) sampleRectangle = true /\
    Forall (fun o => isPointInElement sampleMeasure (Point.mk 20 20) o = false) after.
Proof.
  apply (proj1 (findTopmost_last_hit sampleMeasure (Point.mk 20 20) [sampleRectangle])).
  vm_compute. reflexivity.
Defined.

Lemma handleMouseDown_eraser_witness :
  CanvasState.elements
    (handleMouseDown sampleMeasure (sampleProps Tool.eraser) "1700000000001" 0
                     (sampleEvent 20 20) sampleState)
  = [].
Proof.
  destruct (handleMouseDown_eraser sampleMeasure (sampleProps Tool.eraser)
              "1700000000001" 0 (sampleEvent 20 20) (Point.mk 0 0) sampleState)
    as [_ H].
  - reflexivity.
  - reflexivity.
  - reflexivity.
  - vm_compute. reflexivity.
  - destruct (H sampleRectangle) as (_ & _ & E & _).
    + vm_compute. reflexivity.
    + rewrite E. vm_compute. reflexivity.
Defined.

Lemma handleMouseDown_click_selects_witness :
  CanvasState.selectedElements
    (handleMouseDown sampleMeasure (sampleProps Tool.rectangle) "1700000000001" 0
                     (sampleEvent 20 20) sampleState)
  = {[ "1700000000000"%string ]}.
Proof.
  destruct (handleMouseDown_click_selects sampleMeasure (sampleProps Tool.rectangle)
              "1700000000001" 0 (sampleEvent 20 20) (Point.mk 0 0) sampleState
              sampleRectangle)
    as (_ & H & _).
  - discriminate.
  - reflexivity.
  - reflexivity.
  - vm_compute. reflexivity.
  - vm_compute. reflexivity.
  - apply H; reflexivity.
Defined.

Lemma pointer_gesture_returns_to_idle_witness :
  idle (handleMouseUp sampleMeasure
          (fold_left (fun s e => handleMouseMove sampleSqrt (sampleProps Tool.select) e s)
             [sampleEvent 25 25; sampleEvent 40 30]
             (handleMouseDown sampleMeasure (sampleProps Tool.select) "1700000000001" 0
                              (sampleEvent 20 20) sampleState))).
Proof.
  apply (pointer_gesture_returns_to_idle sampleMeasure sampleSqrt
           (sampleProps Tool.select) "1700000000001" 0 (sampleEvent 20 20)
           [sampleEvent 25 25; sampleEvent 40 30] sampleState).
  exact sampleState_idle.
Defined.

Lemma hoveredHandle_never_set_witness :
  CanvasState.hoveredHandle
    (handleMouseMove sampleSqrt (sampleProps Tool.select) (sampleEvent 20 20) sampleState)
  = None.
Proof.
  apply (hoveredHandle_never_set sampleMeasure sampleSqrt (sampleProps Tool.select)
           "1700000000001" 0 (sampleEvent 20 20) sampleState).
  reflexivity.
Defined.

Lemma drawing_gesture_commits_witness :
  CanvasState.elements
    (handleMouseUp sampleMeasure
       (fold_left (fun s e => handleMouseMove sampleSqrt (sampleProps Tool.rectangle) e s)
          [sampleEvent 120 110; sampleEvent 90 160]
          (handleMouseDown sampleMeasure (sampleProps Tool.rectangle) "1700000000001" 0
                           (sampleEvent 100 100) sampleState)))
  = [sampleRectangle;
     mkElement (baseElement (sampleProps Tool.rectangle) "1700000000001" 0)
       (rectangle (Point.x (eventCanvasPoint (Viewport.mk 0 0 1) (sampleEvent 100 100)
                                             (Point.mk 0 0)))
                  (Point.y (eventCanvasPoint (Viewport.mk 0 0 1) (sampleEvent 100 100)
                                             (Point.mk 0 0)))
                  (Point.x (eventCanvasPoint (Viewport.mk 0 0 1) (sampleEvent 90 160)
                                             (Point.mk 0 0))
                   - Point.x (eventCanvasPoint (Viewport.mk 0 0 1) (sampleEvent 100 100)
                                               (Point.mk 0 0)))
                  (Point.y (eventCanvasPoint (Viewport.mk 0 0 1) (sampleEvent 90 160)
                                             (Point.mk 0 0))
                   - Point.y (eventCanvasPoint (Viewport.mk 0 0 1) (sampleEvent 100 100)
                                               (Point.mk 0 0))))].
Proof.
  destruct (drawing_gesture_commits sampleMeasure sampleSqrt (sampleProps Tool.rectangle)
              "1700000000001" 0 (sampleEvent 100 100)
              [sampleEvent 120 110; sampleEvent 90 160] (Point.mk 0 0) sampleState
              (rectangle (Point.x (eventCanvasPoint (Viewport.mk 0 0 1) (sampleEvent 100 100)
                                             (Point.mk 0 0)))
                  (Point.y (eventCanvasPoint (Viewport.mk 0 0 1) (sampleEvent 100 100)
                                             (Point.mk 0 0)))
                  (Point.x (eventCanvasPoint (Viewport.mk 0 0 1) (sampleEvent 90 160)
                                             (Point.mk 0 0))
                   - Point.x (eventCanvasPoint (Viewport.mk 0 0 1) (sampleEvent 100 100)
                                               (Point.mk 0 0)))
                  (Point.y (eventCanvasPoint (Viewport.mk 0 0 1) (sampleEvent 90 160)
                                             (Point.mk 0 0))
                   - Point.y (eventCanvasPoint (Viewport.mk 0 0 1) (sampleEvent 100 100)
                                               (Point.mk 0 0)))))
    as (H & _).
  - exact sampleState_idle.
  - reflexivity.
  - repeat constructor.
  - reflexivity.
  - vm_compute. reflexivity.
  - vm_compute. reflexivity.
  - reflexivity.
  - exact H.
Defined.

Lemma text_anchored_at_press_witness :
  handleMouseDown sampleMeasure (sampleProps Tool.text) "1700000000001" 0
                  (sampleEvent 200 150) sampleState
  = CanvasState.setTextInput (TextInput.mk (200 - 0) (150 - 0) true) sampleState.
Proof.
  apply (text_anchored_at_press sampleMeasure sampleTrim (sampleProps Tool.text)
           "1700000000001" "1700000000002" 0 (sampleEvent 200 150) (Point.mk 0 0)
           "hello" sampleState).
  - reflexivity.
  - reflexivity.
  - reflexivity.
  - vm_compute. reflexivity.
  - vm_compute. reflexivity.
Defined.
